(** * CloudGuard: anomaly detector, policy engine, capability tokens and
      remediation executor, embedded from the Python sources.

    Conventions of the embedding.
    - Python [str] is [string]; [str.lower] acts on the ASCII letters.
    - Python [float] amounts (dollars, z-scores, thresholds) are exact
      rationals [Q]; the only irrational operation of the code, the square
      root inside [statistics.stdev], is a parameter of the detector.
    - [datetime] values are integers [Z]: microseconds since the epoch.
    - [Dict[str, _]] is a [gmap string _]; the [defaultdict(list)] of the
      rate limiter is read with default [[]].
    - The cloud API, the billing warehouse, the notifier, the clock and
      the JOSE primitives used by PyJWT are external: they appear as
      records of functions (oracles), or as the log of the calls made. *)

From Stdlib Require Import ZArith QArith Qround Qabs String Ascii Lia DecimalString.
From stdpp Require Import gmap strings list fin_maps.

Local Open Scope Z_scope.

(** ** Python primitives used by the sources *)
Module Py.

(** [str.lower] on ASCII. *)
Definition lower_ascii (c : ascii) : ascii :=
  let n := N_of_ascii c in
  if ((65 <=? n) && (n <=? 90))%N then ascii_of_N (n + 32) else c.

Fixpoint lower (s : string) : string :=
  match s with
  | EmptyString => EmptyString
  | String c r => String (lower_ascii c) (lower r)
  end.

(** [x in xs] for lists of strings. *)
Definition str_in (x : string) (xs : list string) : bool :=
  existsb (String.eqb x) xs.

(** [c in s] for a character. *)
Fixpoint has_char (c : ascii) (s : string) : bool :=
  match s with
  | EmptyString => false
  | String a r => Ascii.eqb a c || has_char c r
  end.

(** [s.split(sep)] for a one-character separator: never returns []. *)
Fixpoint split (sep : ascii) (s : string) : list string :=
  match s with
  | EmptyString => [EmptyString]
  | String c r =>
      if Ascii.eqb c sep then EmptyString :: split sep r
      else match split sep r with
           | [] => [String c EmptyString]
           | h :: t => String c h :: t
           end
  end.

(** [xs[-1]] on a list that [split] returned. *)
Definition last_item (xs : list string) : string := List.last xs EmptyString.

(** [c.isspace()] on ASCII. *)
Definition is_space (c : ascii) : bool :=
  let n := N_of_ascii c in
  ((n =? 32) || ((9 <=? n) && (n <=? 13)) || ((28 <=? n) && (n <=? 31)))%N.

Fixpoint lstrip (s : string) : string :=
  match s with
  | EmptyString => EmptyString
  | String c r => if is_space c then lstrip r else s
  end.

Fixpoint rstrip (s : string) : string :=
  match s with
  | EmptyString => EmptyString
  | String c r =>
      match rstrip r with
      | EmptyString => if is_space c then EmptyString else String c EmptyString
      | r' => String c r'
      end
  end.

(** [s.strip()] *)
Definition strip (s : string) : string := rstrip (lstrip s).

(** [str(n)] for an integer. *)
Definition str_of_Z (z : Z) : string := NilZero.string_of_int (Z.to_int z).

(** Round-half-to-even of a rational to an integer, as [round] and the
    [f] format do on the exact value. *)
Definition round_half_even (x : Q) : Z :=
  let f := Qfloor x in
  match ((x - inject_Z f) ?= (1 # 2))%Q with
  | Lt => f
  | Gt => f + 1
  | Eq => if Z.even f then f else f + 1
  end.

(** [round(x, ndigits)] *)
Definition round (x : Q) (ndigits : nat) : Q :=
  let p := 10 ^ Z.of_nat ndigits in
  Qred (inject_Z (round_half_even (x * inject_Z p)) / inject_Z p).

Fixpoint zeros (n : nat) : string :=
  match n with
  | O => EmptyString
  | S k => String "0" (zeros k)
  end.

(** [s.rjust(width, "0")] *)
Definition zero_pad (width : nat) (s : string) : string :=
  zeros (width - String.length s) +:+ s.

(** [format(x, ".{ndigits}f")]: sign, integer part, and [ndigits] decimals
    of the magnitude rounded half-to-even. *)
Definition format_f (ndigits : nat) (x : Q) : string :=
  let p := 10 ^ Z.of_nat ndigits in
  let m := round_half_even (Qabs x * inject_Z p) in
  let sign := if Qlt_le_dec x 0 then "-" else "" in
  let ip := str_of_Z (m / p) in
  match ndigits with
  | O => sign +:+ ip
  | _ => sign +:+ ip +:+ "." +:+ zero_pad ndigits (str_of_Z (m mod p))
  end.

End Py.

(** ** src/config.py: the options the modelled code reads *)
Record Config := {
  GCP_PROJECT_ID : string;
  ANOMALY_SENSITIVITY : Q;
  BLOCKLIST_TAGS : string;
  CONFIRMATION_THRESHOLD_USD : Q;
  MAX_ACTIONS_PER_HOUR : Z;
  DRY_RUN_MODE : bool;
  JWT_EXPIRATION_HOURS : Z;
  JWT_SECRET : string
}.

(** One hour, [timedelta(hours=1)], in microseconds. *)
Definition hour : Z := 3600 * 1000000.

(** ** src/api/safety_rules.py *)
Module SafetyRules.

(** The object state: four fields fixed by [__init__] and the mutable
    [_action_history]. *)
Record t := {
  blocklist_tags : list string;
  confirmation_threshold : Q;
  max_actions_per_hour : Z;
  dry_run : bool;
  _action_history : gmap string (list Z)
}.

Definition init (config : Config) : t :=
  {| blocklist_tags := map Py.strip (Py.split "," (BLOCKLIST_TAGS config));
     confirmation_threshold := CONFIRMATION_THRESHOLD_USD config;
     max_actions_per_hour := MAX_ACTIONS_PER_HOUR config;
     dry_run := DRY_RUN_MODE config;
     _action_history := ∅ |}.

(** [self._action_history[user_email]] on the [defaultdict(list)]. *)
Definition history_of (self : t) (user_email : string) : list Z :=
  default [] (_action_history self !! user_email).

Definition set_history (self : t) (user_email : string) (l : list Z) : t :=
  {| blocklist_tags := blocklist_tags self;
     confirmation_threshold := confirmation_threshold self;
     max_actions_per_hour := max_actions_per_hour self;
     dry_run := dry_run self;
     _action_history := <[user_email := l]> (_action_history self) |}.

Definition label_keys (resource_labels : gmap string string) : list string :=
  (map_to_list resource_labels).*1.

Definition label_values (resource_labels : gmap string string) : list string :=
  (map_to_list resource_labels).*2.

(** The [for tag in self.blocklist_tags] loop: the first tag found among
    the lower-cased keys, then among the lower-cased values. *)
Fixpoint scan_tags (tags : list string) (resource_labels : gmap string string)
  : option string :=
  match tags with
  | [] => None
  | tag :: rest =>
      if Py.str_in (Py.lower tag) (map Py.lower (label_keys resource_labels))
      then Some ("Resource has blocklisted label: " +:+ tag)
      else if Py.str_in (Py.lower tag) (map Py.lower (label_values resource_labels))
      then Some ("Resource has blocklisted label value: " +:+ tag)
      else scan_tags rest resource_labels
  end.

(** [resource_labels.get("env", resource_labels.get("environment", ""))] *)
Definition env_label (resource_labels : gmap string string) : string :=
  default (default "" (resource_labels !! "environment")) (resource_labels !! "env").

Definition check_blocklist (self : t) (resource_labels : gmap string string)
  : bool * string :=
  match scan_tags (blocklist_tags self) resource_labels with
  | Some reason => (true, reason)
  | None =>
      if Py.str_in (Py.lower (env_label resource_labels)) ["production"; "prod"]
      then (true, "Resource is marked as production environment")
      else (false, "")
  end.

(** The list comprehension [t for t in ... if t > one_hour_ago]. *)
Definition prune (now : Z) (l : list Z) : list Z :=
  List.filter (fun t => now - hour <? t) l.

(** [now] is the value [datetime.utcnow()] returned inside the call. *)
Definition check_rate_limit (self : t) (now : Z) (user_email : string)
  : (bool * string) * t :=
  let self' := set_history self user_email (prune now (history_of self user_email)) in
  let action_count := Z.of_nat (length (history_of self' user_email)) in
  if max_actions_per_hour self <=? action_count
  then ((true, "Rate limit exceeded: " +:+ Py.str_of_Z action_count +:+ "/"
                 +:+ Py.str_of_Z (max_actions_per_hour self)
                 +:+ " actions in the last hour"), self')
  else ((false, ""), self').

Definition record_action (self : t) (now : Z) (user_email : string) : t :=
  set_history self user_email (history_of self user_email ++ [now]).

Definition check_high_cost (self : t) (estimated_savings : Q) : bool * string :=
  if Qle_bool (confirmation_threshold self) estimated_savings
  then (true, "High-cost action: $" +:+ Py.format_f 2 estimated_savings
                +:+ "/month requires confirmation")
  else (false, "").

(** The [details] dict of [validate_action]; optional keys are options. *)
Record Details := {
  d_dry_run : bool;
  checks_passed : list string;
  checks_failed : list (string * string);
  needs_confirmation : option bool;
  confirmation_reason : option string;
  dry_run_mode : option bool
}.

Definition validate_action (self : t) (now : Z) (action resource_id : string)
    (resource_labels : gmap string string) (user_email : string)
    (estimated_savings : Q) : (bool * string * Details) * t :=
  let details passed failed nc cr drm :=
    {| d_dry_run := dry_run self; checks_passed := passed; checks_failed := failed;
       needs_confirmation := nc; confirmation_reason := cr; dry_run_mode := drm |} in
  let '(is_blocked, reason) := check_blocklist self resource_labels in
  if is_blocked
  then ((false, reason, details [] [("blocklist", reason)] None None None), self)
  else
    let '((is_limited, reason), self') := check_rate_limit self now user_email in
    if is_limited
    then ((false, reason,
           details ["blocklist"] [("rate_limit", reason)] None None None), self')
    else
      let '(needs, reason) := check_high_cost self' estimated_savings in
      ((true, "All safety checks passed",
        details ["blocklist"; "rate_limit"; "high_cost"] []
                (if needs then Some true else None)
                (if needs then Some reason else None)
                (if dry_run self' then Some true else None)), self').

End SafetyRules.

(** ** src/data/baseline_tracker.py *)
Module BaselineTracker.

(** One row of [state["daily_spend"]]. *)
Record DailySpend := {
  date : string;
  day_of_week : Z;
  daily_spend : Q
}.

(** [self.state]; rows are sorted by date, most recent first. *)
Record State := {
  st_daily_spend : list DailySpend;
  last_updated : option string
}.

(** The dict returned by [detect_anomaly]; the two early returns carry
    neither ["current"] nor ["threshold"]. *)
Record Verdict := {
  is_anomaly : bool;
  severity : string;
  message : string;
  baseline : Q;
  current : option Q;
  deviation_percent : Q;
  z_score : Q;
  threshold : option Q
}.

Definition Qgtb (a b : Q) : bool := negb (Qle_bool a b).

Definition Qsum (l : list Q) : Q := fold_right Qplus 0%Q l.

(** [statistics.mean] *)
Definition mean (l : list Q) : Q := (Qsum l / inject_Z (Z.of_nat (length l)))%Q.

(** The sample variance under the root of [statistics.stdev]. *)
Definition variance (l : list Q) : Q :=
  let c := mean l in
  (Qsum (map (fun x => (x - c) * (x - c)) l)
     / inject_Z (Z.of_nat (length l) - 1))%Q.

(** [update_baseline]: wholesale replacement; [stamp] is
    [datetime.utcnow().isoformat()]. *)
Definition update_baseline (self : State) (daily_spend_data : list DailySpend)
    (stamp : string) : State :=
  {| st_daily_spend := daily_spend_data; last_updated := Some stamp |}.

Definition _get_anomaly_message (is_anomaly : bool) (deviation_percent : Q) : string :=
  if negb is_anomaly then "Spending is within normal range"
  else
    let pct := "Spending is " +:+ Py.format_f 0 deviation_percent +:+ "% above normal - " in
    if Qgtb deviation_percent 200 then pct +:+ "investigate immediately"
    else if Qgtb deviation_percent 100 then pct +:+ "significant anomaly"
    else if Qgtb deviation_percent 50 then pct +:+ "moderate anomaly"
    else pct +:+ "minor anomaly".

Definition unknown_verdict (msg : string) : Verdict :=
  {| is_anomaly := false; severity := "unknown"; message := msg;
     baseline := 0; current := None; deviation_percent := 0; z_score := 0;
     threshold := None |}.

(** [daily_spends[:7]]: the seven most recent amounts. *)
Definition recent_spends (self : State) : list Q :=
  take 7 (map daily_spend (st_daily_spend self)).

Section Detector.
(** The floating-point square root of [statistics.stdev]. *)
Variable sqrt : Q → Q.

(** [statistics.stdev] *)
Definition stdev (l : list Q) : Q := sqrt (variance l).

Definition detect_anomaly (config : Config) (self : State) (current_spend : Q)
  : Verdict :=
  match st_daily_spend self with
  | [] => unknown_verdict "Insufficient baseline data"
  | _ =>
      let daily_spends := map daily_spend (st_daily_spend self) in
      let recent_spends := take 7 daily_spends in
      if (length recent_spends <? 3)%nat
      then unknown_verdict "Need at least 3 days of data"
      else
        let avg_spend := mean recent_spends in
        let std_dev := if (1 <? length recent_spends)%nat
                       then stdev recent_spends else 0%Q in
        let z_score :=
          if Qeq_bool std_dev 0
          then if Qgtb current_spend avg_spend then 5%Q else 0%Q
          else ((current_spend - avg_spend) / std_dev)%Q in
        let threshold := ANOMALY_SENSITIVITY config in
        let is_anomaly := Qgtb z_score threshold in
        let deviation_percent :=
          if Qgtb avg_spend 0
          then ((current_spend - avg_spend) / avg_spend * 100)%Q else 0%Q in
        let severity :=
          if Qgtb z_score 3 then "critical"
          else if Qgtb z_score (5 # 2) then "high"
          else if Qgtb z_score 2 then "medium"
          else "low" in
        {| is_anomaly := is_anomaly;
           severity := if is_anomaly then severity else "normal";
           message := _get_anomaly_message is_anomaly deviation_percent;
           baseline := Py.round avg_spend 2;
           current := Some (Py.round current_spend 2);
           deviation_percent := Py.round deviation_percent 1;
           z_score := Py.round z_score 2;
           threshold := Some threshold |}
  end.
End Detector.

Definition get_day_of_week_baseline (self : State) (dow : Z) : option Q :=
  match st_daily_spend self with
  | [] => None
  | _ =>
      let dow_spends :=
        map daily_spend (List.filter (fun item => day_of_week item =? dow)
                                     (st_daily_spend self)) in
      if (length dow_spends <? 2)%nat then None else Some (mean dow_spends)
  end.

End BaselineTracker.

(** ** src/api/jwt_handler.py, with the PyJWT calls it makes *)
Module JWTHandler.

(** Values held by a payload dict. [VDatetime] is a Python [datetime]
    (microseconds); the others are the JSON values. *)
#[warnings="-register-all"] Inductive value :=
| VNone
| VBool (b : bool)
| VInt (n : Z)
| VFloat (x : Q)
| VStr (s : string)
| VDatetime (t : Z)
| VList (l : list value)
| VDict (o : list (string * value)).

(** What PyJWT takes from the standard library: compact JSON, unpadded
    URL-safe base64, HMAC-SHA256, [int] on a [str]; and
    [datetime.isoformat]. [json_loads] answers [None] for text that is not
    a JSON object, [base64url_decode] for text that does not decode,
    [int_of_str] for text that is no integer. *)
Record Primitives := {
  json_dumps : gmap string value → string;
  json_loads : string → option (gmap string value);
  base64url_encode : string → string;
  base64url_decode : string → option string;
  hmac_sha256 : string → string → string;
  int_of_str : string → option Z;
  isoformat : Z → string
}.

(** The two exception classes [validate_token] documents and re-raises. *)
Inductive token_error := ExpiredSignatureError | InvalidTokenError.

Inductive result (A : Type) :=
| Returns (a : A)
| Raises (e : token_error).
Arguments Returns {A} a.
Arguments Raises {A} e.

Record t := {
  secret : string;
  algorithm : string;
  expiry_hours : Z
}.

(** [__init__]; [generated] is the draw of [secrets.token_urlsafe(32)] used
    when no secret is configured. *)
Definition init (config : Config) (generated : string) : t :=
  {| secret := if String.eqb (JWT_SECRET config) "" then generated
               else JWT_SECRET config;
     algorithm := "HS256";
     expiry_hours := JWT_EXPIRATION_HOURS config |}.

(** [timegm(dt.utctimetuple())]: whole seconds. *)
Definition timegm (t : Z) : Z := t / 1000000.

(** PyJWT [encode]: a [datetime] under "exp", "iat" or "nbf" becomes its
    integer timestamp. *)
Definition convert_time_claim (claim : string) (payload : gmap string value)
  : gmap string value :=
  match payload !! claim with
  | Some (VDatetime t) => <[claim := VInt (timegm t)]> payload
  | _ => payload
  end.

Definition jose_header (alg : string) : gmap string value :=
  <["typ" := VStr "JWT"]> (<["alg" := VStr alg]> ∅).

(** The claims as serialised: time claims converted. *)
Definition encode_claims (payload : gmap string value) : gmap string value :=
  convert_time_claim "nbf"
    (convert_time_claim "iat" (convert_time_claim "exp" payload)).

Definition jwt_encode (P : Primitives) (payload : gmap string value)
    (key alg : string) : string :=
  let segments := [base64url_encode P (json_dumps P (jose_header alg));
                   base64url_encode P (json_dumps P (encode_claims payload))] in
  let signing_input := String.concat "." segments in
  let signature := hmac_sha256 P key signing_input in
  String.concat "." (segments ++ [base64url_encode P signature]).

(** [int(v)] on a decoded time claim. [None]: the claim is no integer. (On
    null, a list or an object PyJWT fails outside its own exception classes;
    no token issued here carries such a claim, and it is filed as invalid.) *)
Definition int_of_claim (P : Primitives) (v : value) : option Z :=
  match v with
  | VInt n => Some n
  | VFloat x => Some (Z.quot (Qnum x) (Zpos (Qden x)))
  | VBool b => Some (if b then 1 else 0)
  | VStr s => int_of_str P s
  | _ => None
  end.

(** [not v] *)
Definition falsy (v : value) : bool :=
  match v with
  | VNone | VBool false | VInt 0 | VStr EmptyString | VList [] | VDict [] => true
  | VFloat x => Qeq_bool x 0
  | _ => false
  end.

(** PyJWT [_validate_claims] with the default options, no audience and
    no leeway: "iat", then "nbf", then "exp", then "aud". *)
Definition validate_claims (P : Primitives) (payload : gmap string value)
    (now : Z) : option token_error :=
  let immature (claim : string) : option token_error :=
    match payload !! claim with
    | None => None
    | Some v =>
        match int_of_claim P v with
        | None => Some InvalidTokenError
        | Some n => if now <? n * 1000000 then Some InvalidTokenError else None
        end
    end in
  match immature "iat" with
  | Some e => Some e
  | None =>
  match immature "nbf" with
  | Some e => Some e
  | None =>
  match
    match payload !! "exp" with
    | None => None
    | Some v =>
        match int_of_claim P v with
        | None => Some InvalidTokenError
        | Some n => if n * 1000000 <=? now then Some ExpiredSignatureError
                    else None
        end
    end
  with
  | Some e => Some e
  | None =>
      match payload !! "aud" with
      | None => None
      | Some v => if falsy v then None else Some InvalidTokenError
      end
  end end end.

(** PyJWT [decode]: split into segments, decode them, verify the
    signature, parse the payload, validate the claims. Any failure before
    the "exp" comparison is a subclass of [InvalidTokenError]. *)
Definition jwt_decode (P : Primitives) (token key : string)
    (algorithms : list string) (now : Z) : result (gmap string value) :=
  match Py.split "." token with
  | header_segment :: rest =>
      match List.rev rest with
      | crypto_segment :: rev_middle =>
          match rev_middle with
          | [] => Raises InvalidTokenError
          | _ =>
              let payload_segment := String.concat "." (List.rev rev_middle) in
              let signing_input := header_segment +:+ "." +:+ payload_segment in
              match base64url_decode P header_segment ≫= json_loads P,
                    base64url_decode P payload_segment,
                    base64url_decode P crypto_segment with
              | Some header, Some payload_data, Some signature =>
                  match header !! "alg" with
                  | Some (VStr alg) =>
                      if negb (String.eqb alg "") && Py.str_in alg algorithms
                         && String.eqb alg "HS256"
                         && String.eqb signature (hmac_sha256 P key signing_input)
                      then match json_loads P payload_data with
                           | Some payload =>
                               match validate_claims P payload now with
                               | Some e => Raises e
                               | None => Returns payload
                               end
                           | None => Raises InvalidTokenError
                           end
                      else Raises InvalidTokenError
                  | _ => Raises InvalidTokenError
                  end
              | _, _, _ => Raises InvalidTokenError
              end
          end
      | [] => Raises InvalidTokenError
      end
  | [] => Raises InvalidTokenError
  end.

(** The [payload] dict literal of [generate_token]. [now] is
    [datetime.utcnow()], [jti] the draw of [secrets.token_urlsafe(16)]. *)
Definition token_payload (P : Primitives) (self : t) (now : Z) (jti : string)
    (resource_id action project_id resource_type : string)
    (estimated_savings : Q) (user_email : option string) : gmap string value :=
  let expiry := now + expiry_hours self * hour in
  list_to_map
    [("iat", VDatetime now);
     ("exp", VDatetime expiry);
     ("jti", VStr jti);
     ("resource_id", VStr resource_id);
     ("action", VStr action);
     ("project_id", VStr project_id);
     ("resource_type", VStr resource_type);
     ("estimated_savings", VFloat estimated_savings);
     ("user_email", match user_email with Some e => VStr e | None => VNone end);
     ("issued_at", VStr (isoformat P now))].

Definition generate_token (P : Primitives) (self : t) (now : Z) (jti : string)
    (resource_id action project_id resource_type : string)
    (estimated_savings : Q) (user_email : option string) : string :=
  jwt_encode P (token_payload P self now jti resource_id action project_id
                  resource_type estimated_savings user_email)
             (secret self) (algorithm self).

(** The [try]/[except] of [validate_token] logs and re-raises. *)
Definition validate_token (P : Primitives) (self : t) (now : Z) (token : string)
  : result (gmap string value) :=
  jwt_decode P token (secret self) [algorithm self] now.

End JWTHandler.

(** ** src/api/gcp_executor.py *)
Module GCPExecutor.

(** The fields of [compute_v1.Instance] the executor reads; [disks] holds
    the [source] URL of every attached disk, in order. *)
Record Instance := {
  labels : gmap string string;
  status : string;
  disks : list string
}.

(** Requests sent to the Compute Engine API. *)
Inductive ApiCall :=
| InstancesGet (project zone instance : string)
| InstancesStop (project zone instance : string)
| DisksGet (project zone disk : string)
| SnapshotsInsert (project snapshot_name source_disk : string).

(** The external world. Each answer may depend on the requests already
    made. [instances_get] answers [None] when the client raises;
    the other three answer [inr (str e)] when the call, or waiting for its
    operation, raises [e]. [utcnow] is the clock, [strftime] the
    ["%Y%m%d-%H%M%S"] rendering. *)
Record Cloud := {
  instances_get : list ApiCall → string → string → string → option Instance;
  instances_stop : list ApiCall → string → string → string → string + string;
  disks_get : list ApiCall → string → string → string → string + string;
  snapshots_insert : list ApiCall → string → string → string → string + string;
  utcnow : list ApiCall → Z;
  strftime : Z → string
}.

(** What the process holds between requests: the [safety_rules] singleton
    and the chronological log of API requests. *)
Record World := {
  rules : SafetyRules.t;
  calls : list ApiCall
}.

(** State-passing computations over [World]. *)
Definition M (A : Type) : Type := World → A * World.

Definition ret {A} (a : A) : M A := fun w => (a, w).

Definition bind {A B} (m : M A) (k : A → M B) : M B :=
  fun w => let '(a, w') := m w in k a w'.

Notation "'let*' x ':=' m 'in' k" := (bind m (fun x => k))
  (at level 10, x pattern, m at level 100, k at level 200, only parsing).

(** Send a request: log it, and answer from the log as it was before. *)
Definition request {A} (c : ApiCall) (answer : list ApiCall → A) : M A :=
  fun w => (answer (calls w), {| rules := rules w; calls := calls w ++ [c] |}).

Definition now (cloud : Cloud) : M Z := fun w => (utcnow cloud (calls w), w).

Definition with_rules {A} (f : SafetyRules.t → A * SafetyRules.t) : M A :=
  fun w => let '(a, r) := f (rules w) in (a, {| rules := r; calls := calls w |}).

Record t := {
  project_id : string;
  dry_run : bool
}.

Definition init (config : Config) : t :=
  {| project_id := GCP_PROJECT_ID config; dry_run := DRY_RUN_MODE config |}.

Record StopDetails := {
  sd_instance : string;
  sd_zone : string;
  sd_project : string;
  safety_checks : option SafetyRules.Details;
  sd_dry_run : option bool;
  sd_operation_id : option string
}.

Record SnapshotDetails := {
  cd_disk : string;
  cd_snapshot_name : string;
  cd_zone : string;
  cd_project : string;
  cd_dry_run : option bool;
  cd_operation_id : option string
}.

Record SnapshotAndStopDetails := {
  ss_instance : string;
  ss_zone : string;
  snapshots : list (string * bool * string);
  stop_result : option StopDetails
}.

Definition get_instance (cloud : Cloud) (self : t) (instance_name zone : string)
  : M (option Instance) :=
  request (InstancesGet (project_id self) zone instance_name)
          (fun log => instances_get cloud log (project_id self) zone instance_name).

Definition stop_instance (cloud : Cloud) (self : t)
    (instance_name zone user_email : string) : M (bool * string * StopDetails) :=
  let details sc dr op :=
    {| sd_instance := instance_name; sd_zone := zone; sd_project := project_id self;
       safety_checks := sc; sd_dry_run := dr; sd_operation_id := op |} in
  let* instance := get_instance cloud self instance_name zone in
  match instance with
  | None => ret (false, "Instance not found: " +:+ instance_name, details None None None)
  | Some instance =>
      let* t := now cloud in
      let* (is_safe, reason, safety_details) :=
        with_rules (fun r => SafetyRules.validate_action r t "stop" instance_name
                              (labels instance) user_email 0) in
      if negb is_safe
      then ret (false, reason, details (Some safety_details) None None)
      else if String.eqb (status instance) "TERMINATED"
      then ret (true, "Instance is already stopped",
                details (Some safety_details) None None)
      else if dry_run self
      then ret (true, "DRY RUN: Would stop instance " +:+ instance_name,
                details (Some safety_details) (Some true) None)
      else
        let* operation :=
          request (InstancesStop (project_id self) zone instance_name)
                  (fun log => instances_stop cloud log (project_id self) zone
                                instance_name) in
        match operation with
        | inl name =>
            let* t' := now cloud in
            let* _ := with_rules (fun r => (tt, SafetyRules.record_action r t' user_email)) in
            ret (true, "Instance " +:+ instance_name +:+ " stopped successfully",
                 details (Some safety_details) None (Some name))
        | inr e =>
            ret (false, "Failed to stop instance: " +:+ e,
                 details (Some safety_details) None None)
        end
  end.

Definition create_snapshot (cloud : Cloud) (self : t) (disk_name zone : string)
    (snapshot_name : option string) : M (bool * string * SnapshotDetails) :=
  let* t := now cloud in
  let snapshot_name :=
    match snapshot_name with
    | Some n => if String.eqb n ""
                then "cloudguard-" +:+ disk_name +:+ "-" +:+ strftime cloud t
                else n
    | None => "cloudguard-" +:+ disk_name +:+ "-" +:+ strftime cloud t
    end in
  let details dr op :=
    {| cd_disk := disk_name; cd_snapshot_name := snapshot_name; cd_zone := zone;
       cd_project := project_id self; cd_dry_run := dr; cd_operation_id := op |} in
  if dry_run self
  then ret (true, "DRY RUN: Would create snapshot " +:+ snapshot_name,
            details (Some true) None)
  else
    let* disk :=
      request (DisksGet (project_id self) zone disk_name)
              (fun log => disks_get cloud log (project_id self) zone disk_name) in
    match disk with
    | inr e => ret (false, "Failed to create snapshot: " +:+ e, details None None)
    | inl self_link =>
        let* operation :=
          request (SnapshotsInsert (project_id self) snapshot_name self_link)
                  (fun log => snapshots_insert cloud log (project_id self)
                                snapshot_name self_link) in
        match operation with
        | inl name =>
            ret (true, "Snapshot " +:+ snapshot_name +:+ " created successfully",
                 details None (Some name))
        | inr e => ret (false, "Failed to create snapshot: " +:+ e, details None None)
        end
    end.

(** [disk.source.split("/")[-1]] *)
Definition disk_name_of (source : string) : string :=
  Py.last_item (Py.split "/" source).

(** The [for disk in instance.disks] loop of [snapshot_and_stop]: [inl msg]
    is the early [return False, msg, details]; [inr] falls through to the
    stop. [done] is [details["snapshots"]] so far. *)
Fixpoint snapshot_disks (cloud : Cloud) (self : t) (zone : string)
    (sources : list string) (done : list (string * bool * string))
  : M (string * list (string * bool * string) + list (string * bool * string)) :=
  match sources with
  | [] => ret (inr done)
  | source :: rest =>
      let disk_name := disk_name_of source in
      let* (success, message, _) := create_snapshot cloud self disk_name zone None in
      let done := done ++ [(disk_name, success, message)] in
      if negb success
      then ret (inl ("Failed to snapshot disk " +:+ disk_name +:+ ": " +:+ message, done))
      else snapshot_disks cloud self zone rest done
  end.

Definition snapshot_and_stop (cloud : Cloud) (self : t)
    (instance_name zone user_email : string)
  : M (bool * string * SnapshotAndStopDetails) :=
  let details sn sr :=
    {| ss_instance := instance_name; ss_zone := zone; snapshots := sn;
       stop_result := sr |} in
  let* instance := get_instance cloud self instance_name zone in
  match instance with
  | None => ret (false, "Instance not found: " +:+ instance_name, details [] None)
  | Some instance =>
      let* looped := snapshot_disks cloud self zone (disks instance) [] in
      match looped with
      | inl (msg, sn) => ret (false, msg, details sn None)
      | inr sn =>
          let* (success, message, stop_details) :=            stop_instance cloud self instance_name zone user_email in
          if success
          then ret (true, "Snapshots created and instance " +:+ instance_name
                            +:+ " stopped", details sn (Some stop_details))
          else ret (false, "Snapshots created but failed to stop: " +:+ message,
                    details sn (Some stop_details))
      end
  end.

End GCPExecutor.

(** ** src/api/main.py: the token stage of [execute_action] *)
Module Main.

(** An [HTMLResponse]: which page, its title and message, the status. *)
Inductive page := SuccessPage | ErrorPage.

Record Response := {
  content : page * string * string;
  status_code : Z
}.

(** The [try]/[except] around [jwt_handler.validate_token(token)]: the
    payload, or the response returned to the caller. *)
Definition validate_or_respond (P : JWTHandler.Primitives) (handler : JWTHandler.t)
    (now : Z) (token : string) : Response + gmap string JWTHandler.value :=
  match JWTHandler.validate_token P handler now token with
  | JWTHandler.Returns payload => inr payload
  | JWTHandler.Raises JWTHandler.ExpiredSignatureError =>
      inl {| content := (ErrorPage, "Token Expired",
               "This action link has expired. Please wait for the next alert email.");
             status_code := 401 |}
  | JWTHandler.Raises JWTHandler.InvalidTokenError =>
      inl {| content := (ErrorPage, "Invalid Token",
               "This action link is invalid. Please use the link from your alert email.");
             status_code := 401 |}
  end.

End Main.

(** ** Further Python string primitives *)
Module Str.

(** [s.startswith(prefix)] *)
Fixpoint startswith (prefix s : string) : bool :=
  match prefix, s with
  | EmptyString, _ => true
  | String a p, String b r => Ascii.eqb a b && startswith p r
  | String _ _, EmptyString => false
  end.

(** [needle in s] for two strings. *)
Fixpoint contains (needle s : string) : bool :=
  startswith needle s
  || match s with
     | EmptyString => false
     | String _ r => contains needle r
     end.

(** The character ['\n']. *)
Definition newline : ascii := ascii_of_nat 10.

(** [sum(xs)]: the running total starts at 0 and takes the items from the
    left. *)
Definition sum (xs : list Q) : Q := fold_left Qplus xs 0%Q.

End Str.

(** ** src/api/main.py: the whole of [execute_action] *)
Module Endpoint.
Import JWTHandler GCPExecutor Main.

Definition valid_actions : list string := ["stop"; "snapshot"; "ignore"].

(** What a request ends in: an [HTMLResponse], a raised [HTTPException],
    or [Untyped]: the token holds a [resource_id] that is no [str], or the
    executor is handed a [user_email] that is no [str]. The alert mails
    carry no such token, and the run is not followed further. *)
Inductive outcome :=
| HTMLResponse (r : Response)
| HTTPException (status_code : Z) (detail : string)
| Untyped.

(** The block under "Parse resource_id": the instance name and the zone.
    [parts[1]] exists whenever the identifier holds a slash. *)
Definition parse_resource_id (resource_id : string) : string * string :=
  if Py.has_char "/" resource_id
  then
    let parts := Py.split "/" resource_id in
    let zone := if Str.contains "zones" resource_id
                then nth 1 parts EmptyString else "us-central1-a" in
    (Py.last_item parts, zone)
  else (resource_id, "us-central1-a").

(** The two page builders: which page, its title and its message. *)
Definition get_success_page (title message : string) : page * string * string :=
  (SuccessPage, title, message).

Definition get_error_page (title message : string) : page * string * string :=
  (ErrorPage, title, message).

(** The final [if success] of [execute_action]. *)
Definition respond (success : bool) (message : string) : outcome :=
  if success
  then HTMLResponse {| content := get_success_page "Action Completed" message;
                       status_code := 200 |}
  else HTMLResponse {| content := get_error_page "Action Failed" message;
                       status_code := 400 |}.

(** [jwt_handler] and [gcp_executor] are the module singletons; the token
    is validated against the clock reading made when the request arrives.
    [confirm] is the query parameter of that name. *)
Definition execute_action (P : Primitives) (jwt_handler : JWTHandler.t)
    (cloud : Cloud) (gcp_executor : GCPExecutor.t)
    (action token : string) (confirm : bool) : M outcome :=
  if negb (Py.str_in action valid_actions)
  then ret (HTTPException 400
              ("Invalid action: " +:+ action
               +:+ ". Valid actions: ['stop', 'snapshot', 'ignore']"))
  else
    let* t := now cloud in
    match validate_or_respond P jwt_handler t token with
    | inl response => ret (HTMLResponse response)
    | inr payload =>
        match payload !! "resource_id" with
        | Some (VStr resource_id) =>
            let user_email := default (VStr "unknown") (payload !! "user_email") in
            if String.eqb action "ignore"
            then ret (HTMLResponse
                        {| content := get_success_page "Alert Dismissed"
                             ("You have dismissed the alert for " +:+ resource_id
                              +:+ ". No action was taken.");
                           status_code := 200 |})
            else
              let '(instance_name, zone) := parse_resource_id resource_id in
              match user_email with
              | VStr user_email =>
                  if String.eqb action "stop"
                  then
                    let* (success, message, _) :=
                      stop_instance cloud gcp_executor instance_name zone user_email in
                    ret (respond success message)
                  else if String.eqb action "snapshot"
                  then
                    let* (success, message, _) :=
                      snapshot_and_stop cloud gcp_executor instance_name zone
                        user_email in
                    ret (respond success message)
                  else ret (HTTPException 400 ("Unknown action: " +:+ action))
              | _ => ret Untyped
              end
        | _ => ret Untyped
        end
    end.

End Endpoint.

(** ** src/config.py: the options the check cycle and the alert links read *)
Record AlertConfig := {
  ALERT_EMAIL : string;
  MONTHLY_BUDGET_LIMIT : Q;
  ALERT_THRESHOLD : Q;
  API_BASE_URL : string
}.

(** ** src/data/bigquery_client.py *)
Module BillingDataClient.
Import JWTHandler.

(** [if current_name and current_query: queries[current_name] = ...] *)
Definition store (queries : gmap string string) (current_name : option string)
    (current_query : list string) : gmap string string :=
  match current_name, current_query with
  | Some name, _ :: _ =>
      if String.eqb name "" then queries
      else <[name := String.concat (String Str.newline EmptyString) current_query]>
             queries
  | _, _ => queries
  end.

(** The [for line in content.split('\n')] loop of [_load_queries] and the
    statement after it. [None]: a header line holds no colon, and
    [line.split(':')[1]] raises [IndexError]. *)
Fixpoint load_lines (lines : list string) (queries : gmap string string)
    (current_name : option string) (current_query : list string)
  : option (gmap string string) :=
  match lines with
  | [] => Some (store queries current_name current_query)
  | line :: rest =>
      if Str.startswith "-- Query" line
      then match Py.split ":" line with
           | _ :: name :: _ =>
               load_lines rest (store queries current_name current_query)
                 (Some (Py.strip name)) []
           | _ => None
           end
      else if negb (Str.startswith "--" line)
              && negb (String.eqb (Py.strip line) "")
      then load_lines rest queries current_name (current_query ++ [line])
      else load_lines rest queries current_name current_query
  end.

(** [_load_queries] on the text of [queries.sql]. *)
Definition _load_queries (content : string) : option (gmap string string) :=
  load_lines (Py.split Str.newline content) ∅ None [].

(** Rows as BigQuery returns them, typed by the conversions the client
    applies; [None] is SQL NULL where the client tests for it. The rows of
    the daily pattern are taken as the dicts built from them. *)
Record CostRow := {
  cr_service_name : string;
  cr_sku_name : string;
  cr_total_cost : Q;
  cr_today_cost : Q;
  cr_hours_running : option Q;
  cr_cost_per_hour : option Q
}.

Record ContributorRow := {
  tr_service_name : string;
  tr_total_cost : Q;
  tr_percentage_of_total : Q
}.

(** The dict of one cost line item: its keys are fixed by the client. *)
Record CostItem := {
  service_name : string;
  sku_name : string;
  total_cost : Q;
  today_cost : Q;
  hours_running : Z;
  cost_per_hour : Q
}.

(** The BigQuery service and [str.format]: [inl (str e)] when the call
    raises [e]. Each answer depends on the query text. *)
Record BigQuery := {
  format : string → string → string → string + string;
  total_rows : string → string + list (option Q);
  cost_rows : string → string + list CostRow;
  daily_rows : string → string + list BaselineTracker.DailySpend;
  contributor_rows : string → string + list ContributorRow
}.

(** The client: [queries] is what [_load_queries] returned. *)
Record t := {
  project_id : string;
  dataset : string;
  queries : gmap string string
}.

Definition _format_query (bq : BigQuery) (self : t) (query_name : string)
  : string + string :=
  match queries self !! query_name with
  | None => inl ("Query not found: " +:+ query_name)
  | Some query => format bq query (project_id self) (dataset self)
  end.

(** [int(x) if x else 0] and [float(x) if x else 0] on a nullable number. *)
Definition int_or_zero (x : option Q) : Z :=
  match x with
  | Some q => if Qeq_bool q 0 then 0 else Z.quot (Qnum q) (Zpos (Qden q))
  | None => 0
  end.

Definition float_or_zero (x : option Q) : Q :=
  match x with
  | Some q => if Qeq_bool q 0 then 0%Q else q
  | None => 0%Q
  end.

Definition get_month_to_date_costs (bq : BigQuery) (self : t)
  : string + list CostItem :=
  match _format_query bq self "Current Month-to-Date Spend by Service" with
  | inl e => inl e
  | inr query =>
      match cost_rows bq query with
      | inl e => inl e
      | inr results =>
          inr (map (fun row =>
                      {| service_name := cr_service_name row;
                         sku_name := cr_sku_name row;
                         total_cost := cr_total_cost row;
                         today_cost := cr_today_cost row;
                         hours_running := int_or_zero (cr_hours_running row);
                         cost_per_hour := float_or_zero (cr_cost_per_hour row) |})
                   results)
      end
  end.

Definition get_daily_spend_pattern (bq : BigQuery) (self : t)
  : string + list BaselineTracker.DailySpend :=
  match _format_query bq self "Daily Spend Pattern (for baseline tracking)" with
  | inl e => inl e
  | inr query => daily_rows bq query
  end.

(** The dict of one contributor. *)
Definition contributor (row : ContributorRow) : gmap string value :=
  <["service_name" := VStr (tr_service_name row)]>
    (<["total_cost" := VFloat (tr_total_cost row)]>
       (<["percentage_of_total" := VFloat (tr_percentage_of_total row)]> ∅)).

Definition get_top_cost_contributors (bq : BigQuery) (self : t)
  : string + list (gmap string value) :=
  match _format_query bq self "Top Cost Contributors (Current Month)" with
  | inl e => inl e
  | inr query =>
      match contributor_rows bq query with
      | inl e => inl e
      | inr results => inr (map contributor results)
      end
  end.

(** The f-string of [get_current_month_total]. *)
Definition total_query (self : t) : string :=
  let nl := String Str.newline EmptyString in
  nl +:+ "        SELECT SUM(cost) as total" +:+ nl
  +:+ "        FROM `" +:+ project_id self +:+ "." +:+ dataset self
  +:+ ".gcp_billing_export_v1_*`" +:+ nl
  +:+ "        WHERE _TABLE_SUFFIX >= FORMAT_DATE('%Y%m%d', DATE_TRUNC(CURRENT_DATE(), MONTH))"
  +:+ nl +:+ "        AND cost > 0" +:+ nl +:+ "        ".

Definition get_current_month_total (bq : BigQuery) (self : t) : string + Q :=
  match total_rows bq (total_query self) with
  | inl e => inl e
  | inr [] => inr 0%Q
  | inr (total :: _) => inr (float_or_zero total)
  end.

End BillingDataClient.

(** ** src/watcher/watcher.py *)
Module Watcher.
Import JWTHandler BaselineTracker.

(** One call of [email_service.send_cost_alert], with its arguments. The
    notifier is external; what it answers is only logged. *)
Record Alert := {
  to_email : string;
  current_spend : Q;
  budget_limit : Q;
  anomaly_info : Verdict;
  top_contributors : list (gmap string value);
  resource_id : value;
  project_id : string
}.

(** What the watcher holds: its baseline tracker, and the alerts handed
    to the notifier so far. *)
Record World := {
  baseline_tracker : State;
  alerts : list Alert
}.

(** The [check_result] dict; the keys of ["details"] and ["error"] are
    options. *)
Record CheckResult := {
  timestamp : string;
  status : string;
  anomaly_detected : bool;
  details_current_spend : option Q;
  details_top_contributors : option (list (gmap string value));
  details_budget_exceeded : option bool;
  details_anomaly : option Verdict;
  error : option string
}.

(** The [except Exception as e] branch of [run_check]. *)
Definition failed (r : CheckResult) (e : string) : CheckResult :=
  {| timestamp := timestamp r; status := "error";
     anomaly_detected := anomaly_detected r;
     details_current_spend := details_current_spend r;
     details_top_contributors := details_top_contributors r;
     details_budget_exceeded := details_budget_exceeded r;
     details_anomaly := details_anomaly r;
     error := Some e |}.

Definition _send_alert_email (config : Config) (settings : AlertConfig)
    (current_spend : Q) (anomaly_info : Verdict)
    (top_contributors : list (gmap string value)) (w : World) : World :=
  let resource_id :=
    match top_contributors with
    | [] => VStr "unknown"
    | top_item :: _ =>
        default (default (VStr "unknown") (top_item !! "service")) (top_item !! "sku")
    end in
  {| baseline_tracker := baseline_tracker w;
     alerts := alerts w ++ [{| to_email := ALERT_EMAIL settings;
                               current_spend := current_spend;
                               budget_limit := MONTHLY_BUDGET_LIMIT settings;
                               anomaly_info := anomaly_info;
                               top_contributors := top_contributors;
                               resource_id := resource_id;
                               project_id := GCP_PROJECT_ID config |}] |}.

Section Check.
(** The square root of [statistics.stdev], as in the detector. *)
Variable sqrt : Q → Q.

(** [timestamp] and [stamp] are the two [datetime.utcnow().isoformat()]
    readings: of [run_check] and of [update_baseline]. *)
Definition run_check (config : Config) (settings : AlertConfig)
    (bq : BillingDataClient.BigQuery) (billing_client : BillingDataClient.t)
    (timestamp stamp : string) (w : World) : CheckResult * World :=
  let check_result :=
    {| timestamp := timestamp; status := "success"; anomaly_detected := false;
       details_current_spend := None; details_top_contributors := None;
       details_budget_exceeded := None; details_anomaly := None; error := None |} in
  match BillingDataClient.get_current_month_total bq billing_client with
  | inl e => (failed check_result e, w)
  | inr current_total =>
  match BillingDataClient.get_top_cost_contributors bq billing_client with
  | inl e => (failed check_result e, w)
  | inr top_contributors =>
  match BillingDataClient.get_daily_spend_pattern bq billing_client with
  | inl e => (failed check_result e, w)
  | inr daily_pattern =>
      let w := {| baseline_tracker :=
                    update_baseline (baseline_tracker w) daily_pattern stamp;
                  alerts := alerts w |} in
      let budget_threshold :=
        (MONTHLY_BUDGET_LIMIT settings * ALERT_THRESHOLD settings)%Q in
      let check_result :=
        {| timestamp := timestamp; status := "success"; anomaly_detected := false;
           details_current_spend := Some current_total;
           details_top_contributors := Some top_contributors;
           details_budget_exceeded :=
             if Qgtb current_total budget_threshold then Some true else None;
           details_anomaly := None; error := None |} in
      match BillingDataClient.get_month_to_date_costs bq billing_client with
      | inl e => (failed check_result e, w)
      | inr costs =>
          let today_spend := Str.sum (map BillingDataClient.today_cost costs) in
          let anomaly_result :=
            detect_anomaly sqrt config (baseline_tracker w) today_spend in
          let check_result :=
            {| timestamp := timestamp; status := "success";
               anomaly_detected := is_anomaly anomaly_result;
               details_current_spend := Some current_total;
               details_top_contributors := Some top_contributors;
               details_budget_exceeded := details_budget_exceeded check_result;
               details_anomaly := Some anomaly_result; error := None |} in
          if is_anomaly anomaly_result
          then (check_result,
                _send_alert_email config settings current_total anomaly_result
                  top_contributors w)
          else (check_result, w)
      end
  end end end.
End Check.

End Watcher.

(** ** The action links: [JWTHandler.generate_action_url] of
    src/api/jwt_handler.py and [EmailService.generate_action_urls] of
    src/notifications/email_service.py *)
Module ActionLinks.
Import JWTHandler.

(** The characters [urllib.parse.quote] never escapes: letters, digits
    and [_.-~]. *)
Definition unreserved (c : ascii) : bool :=
  let n := N_of_ascii c in
  ((65 <=? n) && (n <=? 90) || (97 <=? n) && (n <=? 122)
   || (48 <=? n) && (n <=? 57)
   || (n =? 95) || (n =? 46) || (n =? 45) || (n =? 126))%N.

Definition upper_hex_digit (n : N) : ascii :=
  match String.get (N.to_nat n) "0123456789ABCDEF" with
  | Some c => c
  | None => "0"%char
  end.

(** [urllib.parse.quote_plus(s)] with the default [safe=''], on the bytes
    of [s]. *)
Fixpoint quote_plus (s : string) : string :=
  match s with
  | EmptyString => EmptyString
  | String c r =>
      if unreserved c then String c (quote_plus r)
      else if Ascii.eqb c " " then String "+" (quote_plus r)
      else String "%" (String (upper_hex_digit (N_of_ascii c / 16))
                         (String (upper_hex_digit (N_of_ascii c mod 16))
                            (quote_plus r)))
  end.

(** [urlencode({"token": token})] *)
Definition urlencode_token (token : string) : string :=
  "token=" +:+ quote_plus token.

(** [generate_action_url]; the keyword arguments it forwards to
    [generate_token] are the last three. [now] and [jti] are the clock
    reading and the draw made by [generate_token]. *)
Definition generate_action_url (P : Primitives) (self : JWTHandler.t)
    (now : Z) (jti : string) (base_url resource_id action project_id : string)
    (resource_type : string) (estimated_savings : Q) (user_email : option string)
  : string :=
  let token := generate_token P self now jti resource_id action project_id
                 resource_type estimated_savings user_email in
  let params := urlencode_token token in
  base_url +:+ "/api/v1/execute/" +:+ action +:+ "?" +:+ params.

(** [Config.get(key, default)] of src/config.py on a [str] option:
    [getattr(cls, key, default) or default]. *)
Definition config_get (configured default : string) : string :=
  if String.eqb configured "" then default else configured.

(** [generate_action_urls]. [readings action] is the clock reading and
    the [jti] draw made while the link of [action] is built. *)
Definition generate_action_urls (P : Primitives) (jwt_handler : JWTHandler.t)
    (settings : AlertConfig) (readings : string → Z * string)
    (resource_id project_id : string) (estimated_savings : Q)
    (user_email : string) (base_url : option string) : gmap string string :=
  let base_url :=
    match base_url with
    | Some b => if String.eqb b ""
                then config_get (API_BASE_URL settings) "http://localhost:8080"
                else b
    | None => config_get (API_BASE_URL settings) "http://localhost:8080"
    end in
  let actions := ["stop"; "snapshot"; "ignore"] in
  fold_left
    (fun urls action =>
       <[action := generate_action_url P jwt_handler (readings action).1
                     (readings action).2 base_url resource_id action project_id
                     "instance" estimated_savings (Some user_email)]> urls)
    actions ∅.

End ActionLinks.

(** * Notions used to state the properties *)

(** ** Runs of the policy engine *)
Module Runs.
Import SafetyRules.

(** The arguments of one [validate_action] call, and the clock reading
    it makes. *)
Record ValidateArgs := {
  a_now : Z;
  a_action : string;
  a_resource_id : string;
  a_labels : gmap string string;
  a_savings : Q
}.

(** Consecutive [validate_action] calls for one actor, nothing else in
    between: the [is_safe] answers, and the final state. *)
Fixpoint validate_many (self : t) (user_email : string) (cs : list ValidateArgs)
  : list bool * t :=
  match cs with
  | [] => ([], self)
  | c :: rest =>
      let '((ok, _, _), self') :=
        validate_action self (a_now c) (a_action c) (a_resource_id c)
                        (a_labels c) user_email (a_savings c) in
      let '(oks, self'') := validate_many self' user_email rest in
      (ok :: oks, self'')
  end.

(** One authorised execution as [stop_instance] performs it: validated
    with the clock at [a], recorded with the clock at [r]. *)
Definition perform (self : t) (a r : Z) (action resource_id : string)
    (labels : gmap string string) (user_email : string) (savings : Q) : t :=
  record_action (snd (validate_action self a action resource_id labels
                        user_email savings)) r user_email.

(** The [is_safe] and [reason] components of a [validate_action] result. *)
Definition allowed {D S : Type} (v : bool * string * D * S) : bool :=
  fst (fst (fst v)).

Definition reason {D S : Type} (v : bool * string * D * S) : string :=
  snd (fst (fst v)).

End Runs.

(** ** Logs of the executor *)
Module Log.
Import GCPExecutor.

Definition is_stop (c : ApiCall) : bool :=
  match c with InstancesStop _ _ _ => true | _ => false end.

Definition is_disk_get (c : ApiCall) : bool :=
  match c with DisksGet _ _ _ => true | _ => false end.

(** The number of disks the executor has asked for so far. *)
Definition disk_gets (w : World) : nat :=
  length (List.filter is_disk_get (calls w)).

Definition is_snapshot (c : ApiCall) : bool :=
  match c with DisksGet _ _ _ | SnapshotsInsert _ _ _ => true | _ => false end.

(** The world once [get_instance] has sent its request. *)
Definition get_logged (self : t) (zone instance_name : string) (w : World) : World :=
  {| rules := rules w;
     calls := calls w ++ [InstancesGet (project_id self) zone instance_name] |}.

End Log.

(** ** Tokens on the wire *)
Module Wire.
Import JWTHandler.

(** [data] survives the trip through a base64url segment, and the segment
    holds no dot. *)
Definition transports (P : Primitives) (data : string) : Prop :=
  base64url_decode P (base64url_encode P data) = Some data
  ∧ Py.has_char "." (base64url_encode P data) = false.

(** The object [d] survives serialisation into a segment. *)
Definition serialises (P : Primitives) (d : gmap string value) : Prop :=
  json_loads P (json_dumps P d) = Some d ∧ transports P (json_dumps P d).

Definition header_segment (P : Primitives) (alg : string) : string :=
  base64url_encode P (json_dumps P (jose_header alg)).

Definition payload_segment (P : Primitives) (payload : gmap string value) : string :=
  base64url_encode P (json_dumps P (encode_claims payload)).

(** The HMAC over the signing input [header_seg.payload_seg]. *)
Definition signature_of (P : Primitives) (key header_seg payload_seg : string)
  : string :=
  hmac_sha256 P key (header_seg +:+ "." +:+ payload_seg).

(** A token assembled from three segments. *)
Definition compact (h p c : string) : string := h +:+ "." +:+ p +:+ "." +:+ c.

(** The codecs carry the token issued for [payload] under [key]: its
    header, its claims and its signature survive their encodings. *)
Definition carries (P : Primitives) (key : string) (payload : gmap string value)
  : Prop :=
  serialises P (jose_header "HS256")
  ∧ serialises P (encode_claims payload)
  ∧ transports P (signature_of P key (header_segment P "HS256")
                    (payload_segment P payload)).

End Wire.

(** ** Further notions: label matches, lookups in the log, lines of SQL *)
Module Notions.

(** The tag equals, ignoring case, a key or a value of the labels. *)
Definition tag_matches (tag : string) (labels : gmap string string) : Prop :=
  ∃ k v, labels !! k = Some v
         ∧ (Py.lower tag = Py.lower k ∨ Py.lower tag = Py.lower v).

(** A request that only reads an instance. *)
Definition is_instance_get (c : GCPExecutor.ApiCall) : bool :=
  match c with GCPExecutor.InstancesGet _ _ _ => true | _ => false end.

(** A line that goes into the body of a query: no comment, not blank. *)
Definition is_sql (line : string) : bool :=
  negb (Str.startswith "--" line) && negb (String.eqb (Py.strip line) "").

(** Every stored query has a name and a body made of SQL lines of the
    file. *)
Definition well_formed (lines : list string) (queries : gmap string string) : Prop :=
  ∀ name body, queries !! name = Some body →
    name ≠ ""
    ∧ ∃ chosen, chosen ≠ []
        ∧ body = String.concat (String Str.newline EmptyString) chosen
        ∧ Forall (λ line, line ∈ lines ∧ is_sql line = true) chosen.

(** The base address [generate_action_urls] ends up with. *)
Definition effective_base (settings : AlertConfig) (base_url : option string)
  : string :=
  match base_url with
  | Some b => if String.eqb b ""
              then ActionLinks.config_get (API_BASE_URL settings) "http://localhost:8080"
              else b
  | None => ActionLinks.config_get (API_BASE_URL settings) "http://localhost:8080"
  end.

End Notions.

(** ** Concrete data for the scenarios *)
Module Example.

(** The defaults of src/config.py. *)
Definition config : Config :=
  {| GCP_PROJECT_ID := "demo-project";
     ANOMALY_SENSITIVITY := 5 # 2;
     BLOCKLIST_TAGS := "production,prod,critical";
     CONFIRMATION_THRESHOLD_USD := 100;
     MAX_ACTIONS_PER_HOUR := 3;
     DRY_RUN_MODE := false;
     JWT_EXPIRATION_HOURS := 4;
     JWT_SECRET := "correct horse battery staple" |}.

Definition with_dry_run (c : Config) : Config :=
  {| GCP_PROJECT_ID := GCP_PROJECT_ID c;
     ANOMALY_SENSITIVITY := ANOMALY_SENSITIVITY c;
     BLOCKLIST_TAGS := BLOCKLIST_TAGS c;
     CONFIRMATION_THRESHOLD_USD := CONFIRMATION_THRESHOLD_USD c;
     MAX_ACTIONS_PER_HOUR := MAX_ACTIONS_PER_HOUR c;
     DRY_RUN_MODE := true;
     JWT_EXPIRATION_HOURS := JWT_EXPIRATION_HOURS c;
     JWT_SECRET := JWT_SECRET c |}.

Definition with_blocklist (tags : string) (c : Config) : Config :=
  {| GCP_PROJECT_ID := GCP_PROJECT_ID c;
     ANOMALY_SENSITIVITY := ANOMALY_SENSITIVITY c;
     BLOCKLIST_TAGS := tags;
     CONFIRMATION_THRESHOLD_USD := CONFIRMATION_THRESHOLD_USD c;
     MAX_ACTIONS_PER_HOUR := MAX_ACTIONS_PER_HOUR c;
     DRY_RUN_MODE := DRY_RUN_MODE c;
     JWT_EXPIRATION_HOURS := JWT_EXPIRATION_HOURS c;
     JWT_SECRET := JWT_SECRET c |}.

Definition with_limit (n : Z) (c : Config) : Config :=
  {| GCP_PROJECT_ID := GCP_PROJECT_ID c;
     ANOMALY_SENSITIVITY := ANOMALY_SENSITIVITY c;
     BLOCKLIST_TAGS := BLOCKLIST_TAGS c;
     CONFIRMATION_THRESHOLD_USD := CONFIRMATION_THRESHOLD_USD c;
     MAX_ACTIONS_PER_HOUR := n;
     DRY_RUN_MODE := DRY_RUN_MODE c;
     JWT_EXPIRATION_HOURS := JWT_EXPIRATION_HOURS c;
     JWT_SECRET := JWT_SECRET c |}.

Definition with_sensitivity (x : Q) (c : Config) : Config :=
  {| GCP_PROJECT_ID := GCP_PROJECT_ID c;
     ANOMALY_SENSITIVITY := x;
     BLOCKLIST_TAGS := BLOCKLIST_TAGS c;
     CONFIRMATION_THRESHOLD_USD := CONFIRMATION_THRESHOLD_USD c;
     MAX_ACTIONS_PER_HOUR := MAX_ACTIONS_PER_HOUR c;
     DRY_RUN_MODE := DRY_RUN_MODE c;
     JWT_EXPIRATION_HOURS := JWT_EXPIRATION_HOURS c;
     JWT_SECRET := JWT_SECRET c |}.

Definition with_ttl (hours : Z) (c : Config) : Config :=
  {| GCP_PROJECT_ID := GCP_PROJECT_ID c;
     ANOMALY_SENSITIVITY := ANOMALY_SENSITIVITY c;
     BLOCKLIST_TAGS := BLOCKLIST_TAGS c;
     CONFIRMATION_THRESHOLD_USD := CONFIRMATION_THRESHOLD_USD c;
     MAX_ACTIONS_PER_HOUR := MAX_ACTIONS_PER_HOUR c;
     DRY_RUN_MODE := DRY_RUN_MODE c;
     JWT_EXPIRATION_HOURS := hours;
     JWT_SECRET := JWT_SECRET c |}.

Definition actor : string := "ops@example.com".
Definition zone : string := "us-central1-a".

(** 2023-11-14 22:13:20 UTC, in microseconds. *)
Definition t0 : Z := 1700000000 * 1000000.
Definition minute : Z := 60 * 1000000.

(** *** Policy engine *)

(** A resource with contradictory environment labels. *)
Definition mixed_labels : gmap string string :=
  <["env" := "dev"]> (<["environment" := "production"]> ∅).

Definition stop_call (now : Z) : Runs.ValidateArgs :=
  {| Runs.a_now := now; Runs.a_action := "stop"; Runs.a_resource_id := "web-1";
     Runs.a_labels := ∅; Runs.a_savings := 0 |}.

(** *** Detector *)

Definition day (d : string) (dow : Z) (amount : Q) : BaselineTracker.DailySpend :=
  {| BaselineTracker.date := d; BaselineTracker.day_of_week := dow;
     BaselineTracker.daily_spend := amount |}.

Definition flat_baseline (days : nat) (amount : Q) : BaselineTracker.State :=
  {| BaselineTracker.st_daily_spend := repeat (day "2023-11-13" 2 amount) days;
     BaselineTracker.last_updated := None |}.

(** A square root good to six decimals: the integer root of the
    numerator scaled by the denominator. *)
Definition sqrt6 (x : Q) : Q :=
  Z.sqrt (Qnum x * Zpos (Qden x) * 10 ^ 12) # (Qden x * 1000000).

(** *** Cloud *)

Definition disk_url (name : string) : string :=
  "projects/demo-project/zones/us-central1-a/disks/" +:+ name.

Definition prod_vm : GCPExecutor.Instance :=
  {| GCPExecutor.labels := {[ "environment" := "production" ]};
     GCPExecutor.status := "RUNNING";
     GCPExecutor.disks := [disk_url "disk-1"] |}.

Definition stopped_vm : GCPExecutor.Instance :=
  {| GCPExecutor.labels := {[ "team" := "web" ]};
     GCPExecutor.status := "TERMINATED";
     GCPExecutor.disks := [disk_url "disk-1"] |}.

Definition web_vm : GCPExecutor.Instance :=
  {| GCPExecutor.labels := {[ "team" := "web" ]};
     GCPExecutor.status := "RUNNING";
     GCPExecutor.disks := [disk_url "disk-1"; disk_url "disk-2"] |}.

(** A cloud holding one instance, where snapshots of the disks named in
    [failing] raise, and [stop] answers as given. The clock advances one
    second per request. *)
Definition cloud_with (instance : GCPExecutor.Instance) (failing : list string)
    (stop : string + string) : GCPExecutor.Cloud :=
  {| GCPExecutor.instances_get := fun _ _ _ _ => Some instance;
     GCPExecutor.instances_stop := fun _ _ _ _ => stop;
     GCPExecutor.disks_get := fun _ _ _ disk => inl (disk_url disk);
     GCPExecutor.snapshots_insert := fun _ _ _ source_disk =>
       if Py.str_in (GCPExecutor.disk_name_of source_disk) failing
       then inr "Quota exceeded" else inl "operation-snapshot";
     GCPExecutor.utcnow := fun log => t0 + 1000000 * Z.of_nat (length log);
     GCPExecutor.strftime := fun _ => "20231114-221320" |}.

Definition world0 (c : Config) : GCPExecutor.World :=
  {| GCPExecutor.rules := SafetyRules.init c; GCPExecutor.calls := [] |}.

(** *** Token codecs: hexadecimal segments, a compact printer and reader
    of flat objects, and a keyed tag. *)

Definition hex_digit (n : N) : ascii :=
  match String.get (N.to_nat n) "0123456789abcdef" with
  | Some c => c
  | None => "0"%char
  end.

Fixpoint hex_encode (s : string) : string :=
  match s with
  | EmptyString => EmptyString
  | String c r =>
      String (hex_digit (N_of_ascii c / 16))
             (String (hex_digit (N_of_ascii c mod 16)) (hex_encode r))
  end.

Definition hex_value (c : ascii) : option N :=
  let n := N_of_ascii c in
  if ((48 <=? n) && (n <=? 57))%N then Some (n - 48)%N
  else if ((97 <=? n) && (n <=? 102))%N then Some (n - 87)%N
  else None.

Fixpoint hex_decode (s : string) : option string :=
  match s with
  | EmptyString => Some EmptyString
  | String a (String b r) =>
      match hex_value a, hex_value b, hex_decode r with
      | Some x, Some y, Some t => Some (String (ascii_of_N (16 * x + y)) t)
      | _, _, _ => None
      end
  | _ => None
  end.

Definition quoted (s : string) : string :=
  String (ascii_of_nat 34) s +:+ String (ascii_of_nat 34) EmptyString.

Definition dump_value (v : JWTHandler.value) : string :=
  match v with
  | JWTHandler.VNone => "null"
  | JWTHandler.VBool b => if b then "true" else "false"
  | JWTHandler.VInt n => Py.str_of_Z n
  | JWTHandler.VFloat x => Py.format_f 2 x
  | JWTHandler.VStr s => quoted s
  | JWTHandler.VDatetime t => Py.str_of_Z t
  | JWTHandler.VList _ => "[]"
  | JWTHandler.VDict _ => "{}"
  end.

Definition dump_object (d : gmap string JWTHandler.value) : string :=
  "{" +:+ String.concat ","
            (map (fun kv => quoted (fst kv) +:+ ":" +:+ dump_value (snd kv))
                 (map_to_list d)) +:+ "}".

(** Reading back what [dump_object] prints: an object whose values are
    null, true, false, integers, two-place decimals or strings without
    escapes. *)
Fixpoint until_quote (s : string) : option (string * string) :=
  match s with
  | EmptyString => None
  | String c r =>
      if Ascii.eqb c (ascii_of_nat 34) then Some (EmptyString, r)
      else match until_quote r with
           | Some (x, rest) => Some (String c x, rest)
           | None => None
           end
  end.

Definition read_string (s : string) : option (string * string) :=
  match s with
  | String c r => if Ascii.eqb c (ascii_of_nat 34) then until_quote r else None
  | EmptyString => None
  end.

Definition is_number_char (c : ascii) : bool :=
  let n := N_of_ascii c in ((48 <=? n) && (n <=? 57) || (n =? 45) || (n =? 46))%N.

Fixpoint span_number (s : string) : string * string :=
  match s with
  | String c r =>
      if is_number_char c
      then let '(x, rest) := span_number r in (String c x, rest)
      else (EmptyString, s)
  | EmptyString => (EmptyString, EmptyString)
  end.

Definition Z_of_string (s : string) : option Z :=
  match NilZero.int_of_string s with
  | Some d => Some (Z.of_int d)
  | None => None
  end.

Definition number_of_string (s : string) : option JWTHandler.value :=
  match Py.split "." s with
  | [whole] => JWTHandler.VInt <$> Z_of_string whole
  | [whole; frac] =>
      match Z_of_string (whole +:+ frac) with
      | Some n => Some (JWTHandler.VFloat
                          (Qred (n # Pos.of_nat (10 ^ String.length frac))))
      | None => None
      end
  | _ => None
  end.

Definition read_value (s : string) : option (JWTHandler.value * string) :=
  match s with
  | String c _ =>
      if Ascii.eqb c (ascii_of_nat 34)
      then match read_string s with
           | Some (x, rest) => Some (JWTHandler.VStr x, rest)
           | None => None
           end
      else if String.prefix "null" s
      then Some (JWTHandler.VNone, String.substring 4 (String.length s - 4) s)
      else if String.prefix "true" s
      then Some (JWTHandler.VBool true, String.substring 4 (String.length s - 4) s)
      else if String.prefix "false" s
      then Some (JWTHandler.VBool false, String.substring 5 (String.length s - 5) s)
      else let '(x, rest) := span_number s in
           match number_of_string x with
           | Some v => Some (v, rest)
           | None => None
           end
  | EmptyString => None
  end.

(** The members after the opening brace, at most [fuel] of them. *)
Fixpoint read_members (fuel : nat) (s : string)
    (acc : gmap string JWTHandler.value) : option (gmap string JWTHandler.value) :=
  match fuel with
  | O => None
  | S fuel =>
      match read_string s with
      | Some (key, String ":" rest) =>
          match read_value rest with
          | Some (v, String "," rest') => read_members fuel rest' (<[key := v]> acc)
          | Some (v, "}"%string) => Some (<[key := v]> acc)
          | _ => None
          end
      | _ => None
      end
  end.

Definition load_object (s : string) : option (gmap string JWTHandler.value) :=
  match s with
  | "{}"%string => Some ∅
  | String "{" r => read_members (String.length r) r ∅
  | _ => None
  end.

Definition codecs : JWTHandler.Primitives :=
  {| JWTHandler.json_dumps := dump_object;
     JWTHandler.json_loads := load_object;
     JWTHandler.base64url_encode := hex_encode;
     JWTHandler.base64url_decode := hex_decode;
     JWTHandler.hmac_sha256 := fun key msg => key +:+ "/" +:+ msg;
     JWTHandler.int_of_str := Z_of_string;
     JWTHandler.isoformat := fun _ => "2023-11-14T22:13:20" |}.

Definition handler : JWTHandler.t := JWTHandler.init config "unused".

(** The claims of the token issued at [t0] to stop [web-1]. *)
Definition stop_claims : gmap string JWTHandler.value :=
  JWTHandler.encode_claims
    (JWTHandler.token_payload codecs handler t0 "jti-0001" "web-1" "stop"
       "demo-project" "instance" (25 # 2) (Some actor)).

(** The same claims aimed at another resource. *)
Definition forged_claims : gmap string JWTHandler.value :=
  <["resource_id" := JWTHandler.VStr "db-1"]> stop_claims.

Definition P : JWTHandler.Primitives := codecs.

Definition stop_token : string :=
  JWTHandler.generate_token P handler t0 "jti-0001" "web-1" "stop"
    "demo-project" "instance" (25 # 2) (Some actor).

(** [stop_token] with its payload segment replaced by the forged claims,
    header and signature segments untouched. *)
Definition forged_token : string :=
  Wire.compact (Wire.header_segment P "HS256")
    (JWTHandler.base64url_encode P (JWTHandler.json_dumps P forged_claims))
    (JWTHandler.base64url_encode P
       (Wire.signature_of P (JWTHandler.secret handler)
          (Wire.header_segment P "HS256")
          (Wire.payload_segment P
             (JWTHandler.token_payload P handler t0 "jti-0001" "web-1" "stop"
                "demo-project" "instance" (25 # 2) (Some actor))))).

End Example.

(** ** Further data for the scenarios *)
Module Scenario.
Import Example.

(** A policy engine in which [actor] has three stops on record, one
    minute apart. *)
Definition busy_rules : SafetyRules.t :=
  SafetyRules.record_action
    (SafetyRules.record_action
       (SafetyRules.record_action (SafetyRules.init config) t0 actor)
       (t0 + minute) actor)
    (t0 + 2 * minute) actor.

(** A week of daily spend between 10 and 12 dollars, most recent first,
    and the same week with an older day of 500 dollars behind it. *)
Definition week : BaselineTracker.State :=
  {| BaselineTracker.st_daily_spend :=
       [day "2023-11-13" 2 10; day "2023-11-12" 1 12; day "2023-11-11" 7 11;
        day "2023-11-10" 6 10; day "2023-11-09" 5 12; day "2023-11-08" 4 11;
        day "2023-11-07" 3 10];
     BaselineTracker.last_updated := None |}.

Definition week_and_older : BaselineTracker.State :=
  {| BaselineTracker.st_daily_spend :=
       BaselineTracker.st_daily_spend week ++ [day "2023-11-06" 2 500];
     BaselineTracker.last_updated := None |}.

(** The tokens of the "Ignore" link of the alert for [web-1], and of the
    "Stop" link of an alert for [prod-1]. *)
Definition ignore_claims : gmap string JWTHandler.value :=
  JWTHandler.encode_claims
    (JWTHandler.token_payload P handler t0 "jti-0003" "web-1" "ignore"
       "demo-project" "instance" (25 # 2) (Some actor)).

Definition ignore_token : string :=
  JWTHandler.generate_token P handler t0 "jti-0003" "web-1" "ignore"
    "demo-project" "instance" (25 # 2) (Some actor).

Definition prod_claims : gmap string JWTHandler.value :=
  JWTHandler.encode_claims
    (JWTHandler.token_payload P handler t0 "jti-0004" "prod-1" "stop"
       "demo-project" "instance" (25 # 2) (Some actor)).

Definition prod_token : string :=
  JWTHandler.generate_token P handler t0 "jti-0004" "prod-1" "stop"
    "demo-project" "instance" (25 # 2) (Some actor).

(** A handler holding another secret. *)
Definition other_handler : JWTHandler.t :=
  {| JWTHandler.secret := "another secret"; JWTHandler.algorithm := "HS256";
     JWTHandler.expiry_hours := 4 |}.

(** The options of the check cycle, with no base address configured. *)
Definition settings : AlertConfig :=
  {| ALERT_EMAIL := actor; MONTHLY_BUDGET_LIMIT := 100; ALERT_THRESHOLD := 3 # 4;
     API_BASE_URL := "" |}.

(** A warehouse that answers every query, and a client whose query file
    held no query. *)
Definition warehouse : BillingDataClient.BigQuery :=
  {| BillingDataClient.format := fun query _ _ => inr query;
     BillingDataClient.total_rows := fun _ => inr [Some (80 # 1)];
     BillingDataClient.cost_rows := fun _ => inr [];
     BillingDataClient.daily_rows :=
       fun _ => inr (BaselineTracker.st_daily_spend week);
     BillingDataClient.contributor_rows := fun _ => inr [] |}.

Definition client_without_queries : BillingDataClient.t :=
  {| BillingDataClient.project_id := "demo-project";
     BillingDataClient.dataset := "billing_export";
     BillingDataClient.queries := ∅ |}.

Definition empty_watch : Watcher.World :=
  {| Watcher.baseline_tracker :=
       {| BaselineTracker.st_daily_spend := [];
          BaselineTracker.last_updated := None |};
     Watcher.alerts := [] |}.

(** Every link is built at [t0], with the action in its [jti]. *)
Definition readings (action : string) : Z * string := (t0, "jti-" +:+ action).

End Scenario.

(** * Properties *)

(** ** Policy engine *)
Section SafetyRulesFacts.
Import SafetyRules Runs.
Implicit Types (self : t) (u : string) (l : list Z).

Lemma history_set_same self u l : history_of (set_history self u l) u = l.
Proof. unfold history_of, set_history; simpl. by rewrite lookup_insert_eq. Qed.

Lemma history_set_other self u u' l :
  u ≠ u' → history_of (set_history self u l) u' = history_of self u'.
Proof.
  intros ?. unfold history_of, set_history; simpl. by rewrite lookup_insert_ne.
Qed.

Lemma prune_incl now l x : x ∈ prune now l → x ∈ l.
Proof. unfold prune. rewrite !list_elem_of_In, filter_In. tauto. Qed.

Lemma prune_length now l : (length (prune now l) ≤ length l)%nat.
Proof. unfold prune. apply List.filter_length_le. Qed.

Lemma prune_keep now l : Forall (λ t, now - hour < t) l → prune now l = l.
Proof.
  induction 1 as [|t l Ht _ IH]; [done|]. unfold prune in *; simpl.
  rewrite IH. by destruct (Z.ltb_spec (now - hour) t); [|lia].
Qed.

Lemma check_rate_limit_state self now u :
  snd (check_rate_limit self now u)
  = set_history self u (prune now (history_of self u)).
Proof. unfold check_rate_limit. by case_match. Qed.

Lemma check_rate_limit_verdict self now u :
  fst (check_rate_limit self now u)
  = let n := Z.of_nat (length (prune now (history_of self u))) in
    if max_actions_per_hour self <=? n
    then (true, "Rate limit exceeded: " +:+ Py.str_of_Z n +:+ "/"
                  +:+ Py.str_of_Z (max_actions_per_hour self)
                  +:+ " actions in the last hour")
    else (false, "").
Proof.
  unfold check_rate_limit. rewrite history_set_same. simpl. by case_match.
Qed.

(** The only state change of [validate_action]: pruning the actor's window,
    and only when the blocklist check passed. *)
Lemma validate_action_state self now a rid labels u sav :
  snd (validate_action self now a rid labels u sav)
  = if fst (check_blocklist self labels) then self
    else set_history self u (prune now (history_of self u)).
Proof.
  unfold validate_action.
  destruct (check_blocklist self labels) as [[] rsn]; simpl; [done|].
  pose proof (check_rate_limit_state self now u) as Hs.
  destruct (check_rate_limit self now u) as [[[] r] s']; simpl in *; subst; [done|].
  by destruct (check_high_cost _ _).
Qed.

Lemma validate_action_allowed self now a rid labels u sav :
  allowed (validate_action self now a rid labels u sav)
  = negb (fst (check_blocklist self labels))
    && negb (max_actions_per_hour self
               <=? Z.of_nat (length (prune now (history_of self u)))).
Proof.
  unfold allowed, validate_action.
  destruct (check_blocklist self labels) as [[] rsn]; simpl; [done|].
  pose proof (check_rate_limit_verdict self now u) as Hv.
  destruct (check_rate_limit self now u) as [[lim r] s']; simpl in *.
  destruct (_ <=? _); inversion Hv; subst; simpl; [done|].
  by destruct (check_high_cost _ _).
Qed.

Lemma validate_action_rate_limited self now a rid labels u sav :
  fst (check_blocklist self labels) = false →
  max_actions_per_hour self ≤ Z.of_nat (length (prune now (history_of self u))) →
  reason (validate_action self now a rid labels u sav)
  = "Rate limit exceeded: "
      +:+ Py.str_of_Z (Z.of_nat (length (prune now (history_of self u))))
      +:+ "/" +:+ Py.str_of_Z (max_actions_per_hour self)
      +:+ " actions in the last hour".
Proof.
  intros Hb Hn. unfold reason, validate_action.
  destruct (check_blocklist self labels) as [b rsn]. simpl in Hb; subst b.
  pose proof (check_rate_limit_verdict self now u) as Hv. simpl in Hv.
  destruct (Z.leb_spec (max_actions_per_hour self)
              (Z.of_nat (length (prune now (history_of self u))))); [|lia].
  destruct (check_rate_limit self now u) as [[lim r] s']. simpl in Hv.
  by inversion Hv; subst.
Qed.

Lemma validate_action_blocklist self now a rid labels u sav labels' :
  check_blocklist (snd (validate_action self now a rid labels u sav)) labels'
  = check_blocklist self labels'.
Proof. rewrite validate_action_state. by case_match. Qed.

Lemma validate_action_limit self now a rid labels u sav :
  max_actions_per_hour (snd (validate_action self now a rid labels u sav))
  = max_actions_per_hour self.
Proof. rewrite validate_action_state. by case_match. Qed.

Lemma validate_action_history self now a rid labels u sav u' :
  history_of (snd (validate_action self now a rid labels u sav)) u'
  = if fst (check_blocklist self labels) then history_of self u'
    else if decide (u = u') then prune now (history_of self u')
    else history_of self u'.
Proof.
  rewrite validate_action_state. destruct (fst _); [done|].
  case_decide as Hu; [subst; apply history_set_same | by apply history_set_other].
Qed.

Lemma perform_history self a r action rid labels u sav :
  fst (check_blocklist self labels) = false →
  history_of (perform self a r action rid labels u sav) u
  = prune a (history_of self u) ++ [r].
Proof.
  intros Hb. unfold perform, record_action. rewrite history_set_same.
  rewrite validate_action_history, Hb. by rewrite decide_True.
Qed.

Lemma perform_blocklist self a r action rid labels u sav labels' :
  check_blocklist (perform self a r action rid labels u sav) labels'
  = check_blocklist self labels'.
Proof.
  unfold perform, record_action.
  change (check_blocklist (set_history ?s _ _) labels')
    with (check_blocklist s labels').
  apply validate_action_blocklist.
Qed.

Lemma perform_limit self a r action rid labels u sav :
  max_actions_per_hour (perform self a r action rid labels u sav)
  = max_actions_per_hour self.
Proof. unfold perform, record_action. simpl. apply validate_action_limit. Qed.

(** The dedicated production check fires on the label it reads, whatever
    the tag list. *)
Lemma env_label_blocks self labels :
  Py.str_in (Py.lower (env_label labels)) ["production"; "prod"] = true →
  fst (check_blocklist self labels) = true.
Proof.
  intros H. unfold check_blocklist.
  destruct (scan_tags _ _); [done|]. by rewrite H.
Qed.

(** C6 (code defect): a resource labelled [environment=production] that
    also carries [env=dev] passes the blocklist check under the tag list
    ["critical"], and [validate_action] allows stopping it: the dedicated
    check reads [env] first and never looks at [environment]. *)
Theorem environment_label_shadowed_by_env :
  let self := init (Example.with_blocklist "critical" Example.config) in
  Example.mixed_labels !! "environment" = Some "production"
  ∧ check_blocklist self Example.mixed_labels = (false, "")
  ∧ allowed (validate_action self Example.t0 "stop" "web-1" Example.mixed_labels
               Example.actor 0) = true
  ∧ check_blocklist self {[ "environment" := "production" ]}
    = (true, "Resource is marked as production environment").
Proof. vm_compute. repeat split. Qed.

(** C7 (counterexample): with the limit at 3, four consecutive
    [validate_action] calls of one actor within a quarter of an hour are all
    allowed, the fourth included: validation records nothing. *)
Lemma fourth_validation_alone_is_allowed :
  let self := init Example.config in
  max_actions_per_hour self = 3
  ∧ fst (validate_many self Example.actor
           [Example.stop_call Example.t0;
            Example.stop_call (Example.t0 + 5 * Example.minute);
            Example.stop_call (Example.t0 + 10 * Example.minute);
            Example.stop_call (Example.t0 + 15 * Example.minute)])
    = [true; true; true; true].
Proof. vm_compute. split; reflexivity. Qed.

(** C7 (amended): with the limit at 3 and an actor whose window is empty,
    let three actions be validated and each recorded by [record_action],
    at [r1 ≤ r2, r3]; a fourth [validate_action] made while [r1] is less than
    one hour old is refused with the reason "Rate limit exceeded: 3/3 actions
    in the last hour", and any later one made once [r1] is at least one hour
    old is allowed again. *)
Theorem rate_limit_after_three_recorded self u labels action rid sav
    (a1 r1 a2 r2 a3 r3 a4 : Z) :
  max_actions_per_hour self = 3 →
  history_of self u = [] →
  fst (check_blocklist self labels) = false →
  a2 ≤ a4 → a3 ≤ a4 →
  r1 ≤ r2 → r1 ≤ r3 → a4 - hour < r1 →
  let s1 := perform self a1 r1 action rid labels u sav in
  let s2 := perform s1 a2 r2 action rid labels u sav in
  let s3 := perform s2 a3 r3 action rid labels u sav in
  let v4 := validate_action s3 a4 action rid labels u sav in
  allowed (validate_action self a1 action rid labels u sav) = true
  ∧ allowed (validate_action s1 a2 action rid labels u sav) = true
  ∧ allowed (validate_action s2 a3 action rid labels u sav) = true
  ∧ history_of s3 u = [r1; r2; r3]
  ∧ allowed v4 = false
  ∧ reason v4 = "Rate limit exceeded: 3/3 actions in the last hour"
  ∧ ∀ a5, r1 + hour ≤ a5 →
      allowed (validate_action (snd v4) a5 action rid labels u sav) = true.
Proof.
  intros Hmax Hh Hb Ha2 Ha3 Hr2 Hr3 Hw s1 s2 s3 v4.
  assert (Hh1 : history_of s1 u = [r1]).
  { unfold s1. by rewrite perform_history, Hh. }
  assert (Hb1 : fst (check_blocklist s1 labels) = false).
  { unfold s1. by rewrite perform_blocklist. }
  assert (Hh2 : history_of s2 u = [r1; r2]).
  { unfold s2. rewrite perform_history, Hh1 by done.
    rewrite prune_keep; [done|]. repeat constructor; lia. }
  assert (Hb2 : fst (check_blocklist s2 labels) = false).
  { unfold s2. by rewrite perform_blocklist. }
  assert (Hh3 : history_of s3 u = [r1; r2; r3]).
  { unfold s3. rewrite perform_history, Hh2 by done.
    rewrite prune_keep; [done|]. repeat constructor; lia. }
  assert (Hb3 : fst (check_blocklist s3 labels) = false).
  { unfold s3. by rewrite perform_blocklist. }
  assert (Hm : max_actions_per_hour s3 = 3).
  { unfold s3, s2, s1. by rewrite !perform_limit. }
  assert (Hp4 : prune a4 [r1; r2; r3] = [r1; r2; r3]).
  { apply prune_keep. repeat constructor; lia. }
  split; [|split; [|split; [|split; [|split; [|split]]]]].
  - by rewrite validate_action_allowed, Hb, Hh, Hmax.
  - rewrite validate_action_allowed, Hb1, Hh1. unfold s1.
    rewrite perform_limit, Hmax.
    rewrite prune_keep; [done|]. repeat constructor; lia.
  - rewrite validate_action_allowed, Hb2, Hh2. unfold s2, s1.
    rewrite !perform_limit, Hmax.
    rewrite prune_keep; [done|]. repeat constructor; lia.
  - done.
  - unfold v4. by rewrite validate_action_allowed, Hb3, Hh3, Hm, Hp4.
  - unfold v4. rewrite validate_action_rate_limited; rewrite ?Hh3, ?Hp4, ?Hm; done.
  - intros a5 Ha5. rewrite validate_action_allowed. unfold v4.
    rewrite validate_action_blocklist, Hb3, validate_action_limit, Hm.
    rewrite validate_action_history, Hb3, decide_True, Hh3, Hp4 by done.
    unfold prune. simpl.
    destruct (Z.ltb_spec (a5 - hour) r1); [lia|].
    by repeat case_match.
Qed.

(** The scenario of the amended C7: three stops validated and recorded
    within ten minutes, a fourth validation at a quarter past. *)
Lemma rate_limit_after_three_recorded_witness :
  let self := init Example.config in
  let t := Example.t0 in
  let m := Example.minute in
  let s3 :=
    perform (perform (perform self t (t + 1) "stop" "web-1" ∅ Example.actor 0)
               (t + 5 * m) (t + 5 * m + 1) "stop" "web-1" ∅ Example.actor 0)
            (t + 10 * m) (t + 10 * m + 1) "stop" "web-1" ∅ Example.actor 0 in
  let v4 := validate_action s3 (t + 15 * m) "stop" "web-1" ∅ Example.actor 0 in
  allowed v4 = false
  ∧ reason v4 = "Rate limit exceeded: 3/3 actions in the last hour"
  ∧ allowed (validate_action (snd v4) (t + 1 + hour) "stop" "web-1" ∅
               Example.actor 0) = true.
Proof.
  intros self t m s3 v4.
  destruct (rate_limit_after_three_recorded self Example.actor ∅ "stop" "web-1" 0
              t (t + 1) (t + 5 * m) (t + 5 * m + 1) (t + 10 * m) (t + 10 * m + 1)
              (t + 15 * m))
    as (_ & _ & _ & _ & H4 & Hr & H5); try (vm_compute; congruence).
  split; [exact H4|]. split; [exact Hr|]. apply H5. vm_compute; congruence.
Defined.

Lemma validate_many_all_allowed u cs : ∀ self,
  0 < max_actions_per_hour self →
  history_of self u = [] →
  Forall (λ c, fst (check_blocklist self (a_labels c)) = false) cs →
  Forall (eq true) (fst (validate_many self u cs))
  ∧ history_of (snd (validate_many self u cs)) u = [].
Proof.
  induction cs as [|c cs IH]; intros self Hmax Hh Hcs; simpl; [done|].
  inversion Hcs as [|? ? Hc Hcs']; subst.
  pose proof (validate_action_allowed self (a_now c) (a_action c)
                (a_resource_id c) (a_labels c) u (a_savings c)) as Hok.
  pose proof (validate_action_history self (a_now c) (a_action c)
                (a_resource_id c) (a_labels c) u (a_savings c) u) as Hhist.
  pose proof (validate_action_limit self (a_now c) (a_action c)
                (a_resource_id c) (a_labels c) u (a_savings c)) as Hlim.
  pose proof (λ lb, validate_action_blocklist self (a_now c) (a_action c)
                (a_resource_id c) (a_labels c) u (a_savings c) lb) as Hbl.
  unfold allowed in Hok.
  destruct (validate_action _ _ _ _ _ _ _) as [[[ok r] d] self'].
  simpl in *. rewrite Hc, Hh in Hok, Hhist. rewrite decide_True in Hhist by done.
  simpl in *.
  destruct (IH self') as [Hall Hnil].
  - lia.
  - done.
  - eapply Forall_impl; [exact Hcs'|]. intros c' Hc'. simpl in *. by rewrite Hbl.
  - destruct (validate_many self' u cs) as [oks self'']. simpl in *.
    split; [|done]. constructor; [|done].
    rewrite Hok. symmetry. apply negb_true_iff, Z.leb_gt. lia.
Qed.

(** C10 (counterexample): with the limit configured to 0, the first
    [validate_action] call of an actor with no recorded action and no
    blocking label is refused. *)
Lemma zero_limit_blocks_first_call :
  let self := init (Example.with_limit 0 Example.config) in
  history_of self Example.actor = []
  ∧ fst (check_blocklist self ∅) = false
  ∧ fst (validate_many self Example.actor [Example.stop_call Example.t0]) = [false]
  ∧ reason (validate_action self Example.t0 "stop" "web-1" ∅ Example.actor 0)
    = "Rate limit exceeded: 0/0 actions in the last hour".
Proof. vm_compute. repeat split. Qed.

(** C10 (amended): [validate_action] never adds an entry to any actor's
    window (every entry afterwards was there before; the rate-limit check
    only prunes), entries are appended by [record_action]; consequently,
    when the configured limit is at least 1, any number of consecutive
    [validate_action] calls for an actor with no recorded action and no
    blocking labels all return allowed. *)
Theorem validate_action_never_records self u cs :
  0 < max_actions_per_hour self →
  history_of self u = [] →
  Forall (λ c, fst (check_blocklist self (a_labels c)) = false) cs →
  (∀ s now action rid labels actor sav u',
     let s' := snd (validate_action s now action rid labels actor sav) in
     (∀ x, x ∈ history_of s' u' → x ∈ history_of s u')
     ∧ (length (history_of s' u') ≤ length (history_of s u'))%nat)
  ∧ (∀ s now actor, history_of (record_action s now actor) actor
                    = history_of s actor ++ [now])
  ∧ Forall (eq true) (fst (validate_many self u cs)).
Proof.
  intros Hmax Hh Hcs. split; [|split].
  - intros s now action rid labels actor sav u' s'. unfold s'.
    rewrite validate_action_history.
    destruct (fst _); [done|]. case_decide; [|done].
    split; [intros x; apply prune_incl | apply prune_length].
  - intros s now actor. unfold record_action. apply history_set_same.
  - by apply validate_many_all_allowed.
Qed.

(** Five validations in a row under the default limit. *)
Lemma validate_action_never_records_witness :
  Forall (eq true)
    (fst (validate_many (init Example.config) Example.actor
            (map Example.stop_call
               [Example.t0; Example.t0 + 1; Example.t0 + 2; Example.t0 + 3;
                Example.t0 + 4]))).
Proof.
  refine (proj2 (proj2 (validate_action_never_records (init Example.config)
                          Example.actor _ _ _ _))).
  - vm_compute. reflexivity.
  - vm_compute. reflexivity.
  - repeat constructor.
Defined.

(** X2: the high-cost check never blocks: whether an action is allowed does
    not depend on the estimated savings; on an allowed action the savings
    only decide the [needs_confirmation] mark. *)
Theorem high_cost_only_marks self now action rid labels u sav sav' :
  allowed (validate_action self now action rid labels u sav)
  = allowed (validate_action self now action rid labels u sav')
  ∧ (allowed (validate_action self now action rid labels u sav) = true →
     needs_confirmation (validate_action self now action rid labels u sav).1.2
     = if Qle_bool (confirmation_threshold self) sav then Some true else None).
Proof.
  split; [by rewrite !validate_action_allowed|].
  unfold allowed, validate_action.
  destruct (check_blocklist self labels) as [[] rsn]; simpl; [done|].
  pose proof (check_rate_limit_state self now u) as Hs.
  destruct (check_rate_limit self now u) as [[[] r] s']; simpl in *; [done|].
  subst s'. unfold check_high_cost. simpl.
  by destruct (Qle_bool _ _).
Qed.

End SafetyRulesFacts.

(** ** Remediation executor *)
Section ExecutorFacts.
Import GCPExecutor Log.
Context (cloud : Cloud) (self : t).

(** Taking snapshots touches neither the policy engine nor the instance. *)
Lemma create_snapshot_frame disk zone name w :
  let '(_, w') := create_snapshot cloud self disk zone name w in
  rules w' = rules w
  ∧ List.filter is_stop (calls w') = List.filter is_stop (calls w).
Proof.
  unfold create_snapshot, bind, now, request, ret; simpl.
  destruct (dry_run self); simpl; [done|].
  destruct (disks_get _ _ _ _ _); simpl.
  - destruct (snapshots_insert _ _ _ _ _); simpl;
      rewrite !List.filter_app; simpl; by rewrite !app_nil_r.
  - rewrite !List.filter_app; simpl; by rewrite !app_nil_r.
Qed.

Lemma snapshot_disks_frame zone sources : ∀ acc w,
  let '(_, w') := snapshot_disks cloud self zone sources acc w in
  rules w' = rules w
  ∧ List.filter is_stop (calls w') = List.filter is_stop (calls w).
Proof.
  induction sources as [|src rest IH]; intros acc w; simpl; [done|].
  unfold bind.
  pose proof (create_snapshot_frame (disk_name_of src) zone None w) as Hc.
  destruct (create_snapshot _ _ _ _ _ _) as [[[ok msg] d] w1].
  destruct Hc as [Hr Hs]. destruct ok; simpl; [|done].
  specialize (IH (acc ++ [(disk_name_of src, true, msg)]) w1).
  destruct (snapshot_disks _ _ _ _ _ _) as [res w2].
  destruct IH as [Hr2 Hs2]. split; congruence.
Qed.

(** Once a prefix of the disks is done, the loop goes on with the rest. *)
Lemma snapshot_disks_app zone pre rest : ∀ acc w done w2,
  snapshot_disks cloud self zone pre acc w = (inr done, w2) →
  snapshot_disks cloud self zone (pre ++ rest) acc w
  = snapshot_disks cloud self zone rest done w2.
Proof.
  induction pre as [|src pre IH]; intros acc w done w2 H; simpl in *.
  - unfold ret in H. by inversion H.
  - unfold bind in *.
    destruct (create_snapshot _ _ _ _ _ _) as [[[ok msg] d] w1].
    destruct ok; simpl in *; [by apply IH|]. unfold ret in H. by inversion H.
Qed.

Lemma snapshot_disks_all_succeeded zone sources : ∀ acc w done w2,
  snapshot_disks cloud self zone sources acc w = (inr done, w2) →
  ∃ new, done = acc ++ new ∧ length new = length sources
         ∧ Forall (λ e, e.1.2 = true) new.
Proof.
  induction sources as [|src rest IH]; intros acc w done w2 H; simpl in *.
  - unfold ret in H. inversion H; subst. exists []. by rewrite app_nil_r.
  - unfold bind in H.
    destruct (create_snapshot _ _ _ _ _ _) as [[[ok msg] d] w1].
    destruct ok; simpl in *; [|unfold ret in H; by inversion H].
    apply IH in H as (new & -> & Hlen & Hall).
    exists ((disk_name_of src, true, msg) :: new).
    rewrite <- app_assoc. simpl. split; [done|]. split; [by rewrite Hlen|].
    by constructor.
Qed.

(** A snapshot fails only outside dry-run, and every attempt outside
    dry-run asks for its disk exactly once. *)
Lemma create_snapshot_failed_live disk zone name w message d w' :
  create_snapshot cloud self disk zone name w = ((false, message, d), w') →
  dry_run self = false.
Proof.
  unfold create_snapshot, bind, now, request, ret; simpl.
  by destruct (dry_run self).
Qed.

Lemma create_snapshot_disk_gets disk zone name w :
  dry_run self = false →
  disk_gets (create_snapshot cloud self disk zone name w).2 = S (disk_gets w).
Proof.
  intros Hdry. unfold create_snapshot, bind, now, request, ret, disk_gets; simpl.
  rewrite Hdry; simpl.
  destruct (disks_get _ _ _ _ _); simpl.
  - destruct (snapshots_insert _ _ _ _ _); simpl;
      rewrite !List.filter_app, !length_app; simpl; lia.
  - rewrite !List.filter_app, !length_app; simpl; lia.
Qed.

Lemma snapshot_disks_disk_gets zone sources : ∀ acc w done w2,
  dry_run self = false →
  snapshot_disks cloud self zone sources acc w = (inr done, w2) →
  disk_gets w2 = (disk_gets w + length sources)%nat.
Proof.
  induction sources as [|src rest IH]; intros acc w done w2 Hdry H; simpl in *.
  - unfold ret in H. inversion H; subst. lia.
  - unfold bind in H.
    pose proof (create_snapshot_disk_gets (disk_name_of src) zone None w Hdry) as Hc.
    destruct (create_snapshot _ _ _ _ _ _) as [[[ok msg] d] w1]. simpl in Hc.
    destruct ok; simpl in *; [|unfold ret in H; by inversion H].
    rewrite (IH _ _ _ _ Hdry H), Hc. lia.
Qed.

Lemma failure_messages_distinct disk msg m :
  "Failed to snapshot disk " +:+ disk +:+ ": " +:+ msg
  ≠ "Snapshots created but failed to stop: " +:+ m.
Proof. discriminate. Qed.

Lemma snapshot_and_stop_after_loop instance_name zone user_email w instance :
  instances_get cloud (calls w) (project_id self) zone instance_name
    = Some instance →
  snapshot_and_stop cloud self instance_name zone user_email w
  = let '(looped, w2) :=
      snapshot_disks cloud self zone (disks instance) []
        (get_logged self zone instance_name w) in
    match looped with
    | inl (msg, sn) =>
        ((false, msg, {| ss_instance := instance_name; ss_zone := zone;
                         snapshots := sn; stop_result := None |}), w2)
    | inr sn =>
        let '((success, message, stop_details), w3) :=
          stop_instance cloud self instance_name zone user_email w2 in
        ((success,
          if success
          then "Snapshots created and instance " +:+ instance_name +:+ " stopped"
          else "Snapshots created but failed to stop: " +:+ message,
          {| ss_instance := instance_name; ss_zone := zone; snapshots := sn;
             stop_result := Some stop_details |}), w3)
    end.
Proof.
  intros Hget. unfold snapshot_and_stop, bind, get_instance, request. simpl.
  rewrite Hget. fold (get_logged self zone instance_name w).
  destruct (snapshot_disks _ _ _ _ _ _) as [[[msg sn]|sn] w2]; [done|].
  destruct (stop_instance _ _ _ _ _ _) as [[[[] m] sd] w3]; done.
Qed.

(** C8: when the snapshot of an attached disk fails after the snapshots
    of all earlier disks succeeded, [snapshot_and_stop] returns failure with
    the message "Failed to snapshot disk <that disk>: <error>"; the world is
    left as the failed attempt left it: as many disks were asked for as
    there are disks up to the failing one (none after it), no stop request
    was sent and nothing was recorded; and a run on the same instance
    in which every snapshot succeeds and the stop fails reports
    "Snapshots created but failed to stop: <error>", a different message. *)
Theorem snapshot_failure_aborts_before_stop
    (instance_name zone user_email : string) (w : World) (instance : Instance)
    (pre post : list string) (src : string)
    (done : list (string * bool * string)) (w2 w3 : World)
    (message : string) (d : SnapshotDetails) :
  instances_get cloud (calls w) (project_id self) zone instance_name
    = Some instance →
  disks instance = pre ++ src :: post →
  snapshot_disks cloud self zone pre [] (get_logged self zone instance_name w)
    = (inr done, w2) →
  create_snapshot cloud self (disk_name_of src) zone None w2
    = ((false, message, d), w3) →
  snapshot_and_stop cloud self instance_name zone user_email w
    = ((false, "Failed to snapshot disk " +:+ disk_name_of src +:+ ": " +:+ message,
        {| ss_instance := instance_name; ss_zone := zone;
           snapshots := done ++ [(disk_name_of src, false, message)];
           stop_result := None |}), w3)
  ∧ length done = length pre
  ∧ Forall (λ e, e.1.2 = true) done
  ∧ disk_gets w3 = (disk_gets w + length pre + 1)%nat
  ∧ List.filter is_stop (calls w3) = List.filter is_stop (calls w)
  ∧ rules w3 = rules w
  ∧ ∀ w' sn wa m sd,
      instances_get cloud (calls w') (project_id self) zone instance_name
        = Some instance →
      snapshot_disks cloud self zone (disks instance) []
        (get_logged self zone instance_name w') = (inr sn, wa) →
      (stop_instance cloud self instance_name zone user_email wa).1 = (false, m, sd) →
      (snapshot_and_stop cloud self instance_name zone user_email w').1.1
        = (false, "Snapshots created but failed to stop: " +:+ m)
      ∧ "Snapshots created but failed to stop: " +:+ m
        ≠ "Failed to snapshot disk " +:+ disk_name_of src +:+ ": " +:+ message.
Proof.
  intros Hget Hdisks Hpre Hfail.
  pose proof (snapshot_disks_frame zone pre []
                (get_logged self zone instance_name w)) as Hfr.
  rewrite Hpre in Hfr. destruct Hfr as [Hr2 Hs2].
  pose proof (create_snapshot_frame (disk_name_of src) zone None w2) as Hfr.
  rewrite Hfail in Hfr. destruct Hfr as [Hr3 Hs3].
  apply snapshot_disks_all_succeeded in Hpre as Hall.
  destruct Hall as (new & -> & Hlen & Hall). simpl in *.
  pose proof (create_snapshot_failed_live _ _ _ _ _ _ _ Hfail) as Hlive.
  split; [|split; [|split; [|split; [|split; [|split]]]]].
  - rewrite (snapshot_and_stop_after_loop _ _ _ _ _ Hget), Hdisks.
    rewrite (snapshot_disks_app zone pre (src :: post) [] _ new w2 Hpre).
    simpl. unfold bind. rewrite Hfail. done.
  - done.
  - done.
  - pose proof (create_snapshot_disk_gets (disk_name_of src) zone None w2 Hlive)
      as Hg. rewrite Hfail in Hg. simpl in Hg.
    rewrite Hg, (snapshot_disks_disk_gets _ _ _ _ _ _ Hlive Hpre).
    unfold disk_gets, get_logged; simpl.
    rewrite List.filter_app, length_app; simpl. lia.
  - rewrite Hs3, Hs2. unfold get_logged; simpl.
    rewrite List.filter_app; simpl. by rewrite app_nil_r.
  - by rewrite Hr3, Hr2.
  - intros w' sn wa m sd Hget' Hsn Hstop.
    rewrite (snapshot_and_stop_after_loop _ _ _ _ _ Hget'), Hsn.
    destruct (stop_instance _ _ _ _ _ _) as [[[ok m'] sd'] wz]. simpl in *.
    inversion Hstop; subst. split; [done|].
    intros Heq. symmetry in Heq. by apply failure_messages_distinct in Heq.
Qed.

(** The log only grows. *)
Lemma create_snapshot_log disk zone name w :
  ∃ tail, calls (create_snapshot cloud self disk zone name w).2 = calls w ++ tail
          ∧ (dry_run self = false →
             ∃ tail', tail = DisksGet (project_id self) zone disk :: tail').
Proof.
  unfold create_snapshot, bind, now, request, ret; simpl.
  destruct (dry_run self); simpl.
  { exists []. by rewrite app_nil_r. }
  destruct (disks_get _ _ _ _ _); simpl.
  - destruct (snapshots_insert _ _ _ _ _); simpl; rewrite <- app_assoc; simpl;
      eexists; split; eauto.
  - eexists; split; eauto.
Qed.

Lemma stop_instance_log instance_name zone user_email w :
  ∃ tail, calls (stop_instance cloud self instance_name zone user_email w).2
          = calls w ++ tail.
Proof.
  unfold stop_instance, bind, get_instance, request, now, with_rules, ret; simpl.
  destruct (instances_get _ _ _ _ _) as [inst|]; simpl; [|by eexists].
  destruct (SafetyRules.validate_action _ _ _ _ _ _ _) as [[[[] rsn] sd] r'];
    simpl; [|by eexists].
  destruct (String.eqb _ _); simpl; [by eexists|].
  destruct (dry_run self); simpl; [by eexists|].
  destruct (instances_stop _ _ _ _ _); simpl; rewrite <- app_assoc; by eexists.
Qed.

Lemma snapshot_disks_log zone sources : ∀ acc w,
  ∃ tail, calls (snapshot_disks cloud self zone sources acc w).2 = calls w ++ tail.
Proof.
  induction sources as [|src rest IH]; intros acc w; simpl.
  { exists []. by rewrite app_nil_r. }
  unfold bind.
  destruct (create_snapshot_log (disk_name_of src) zone None w) as (t1 & H1 & _).
  destruct (create_snapshot _ _ _ _ _ _) as [[[ok msg] d] w1]. simpl in H1.
  destruct ok; simpl; [|by eexists].
  destruct (IH (acc ++ [(disk_name_of src, true, msg)]) w1) as (t2 & H2).
  exists (t1 ++ t2). by rewrite H2, H1, app_assoc.
Qed.

(** Outside dry-run, the request for the first attached disk follows the
    request for the instance at once, whatever the labels of the instance:
    no policy check stands before the first snapshot. *)
Lemma first_snapshot_precedes_any_check
    instance_name zone user_email w instance src rest :
  dry_run self = false →
  instances_get cloud (calls w) (project_id self) zone instance_name
    = Some instance →
  disks instance = src :: rest →
  ∃ tail,
    calls (snapshot_and_stop cloud self instance_name zone user_email w).2
    = calls w ++ InstancesGet (project_id self) zone instance_name
              :: DisksGet (project_id self) zone (disk_name_of src) :: tail.
Proof.
  intros Hdry Hget Hdisks.
  rewrite (snapshot_and_stop_after_loop _ _ _ _ _ Hget), Hdisks. simpl.
  unfold bind.
  destruct (create_snapshot_log (disk_name_of src) zone None
              (get_logged self zone instance_name w)) as (t1 & H1 & Hd).
  destruct (Hd Hdry) as (t1' & ->).
  destruct (create_snapshot _ _ _ _ _ _) as [[[ok msg] d] w1]. simpl in H1.
  destruct ok; simpl.
  - destruct (snapshot_disks_log zone rest [(disk_name_of src, true, msg)] w1)
      as (t2 & H2).
    destruct (snapshot_disks _ _ _ _ _ _) as [[[m sn]|sn] w2]; simpl in *.
    + exists (t1' ++ t2). rewrite H2, H1. simpl.
      by rewrite <- !app_assoc.
    + destruct (stop_instance_log instance_name zone user_email w2) as (t3 & H3).
      destruct (stop_instance _ _ _ _ _ _) as [[[ok' m'] sd'] w3]. simpl in *.
      exists (t1' ++ t2 ++ t3). rewrite H3, H2, H1. simpl.
      by rewrite <- !app_assoc.
  - exists t1'. rewrite H1. simpl. by rewrite <- app_assoc.
Qed.

(** C2 (amended): in dry-run mode, a stop that completes as the simulated
    success "DRY RUN: Would stop instance <name>" sends no stop request and
    is NOT recorded: the actor's window afterwards is the window before,
    pruned of the entries older than an hour; no window gains an entry, so
    dry-run completions do not count toward the hourly limit. *)
Theorem dry_run_stop_is_not_recorded
    (instance_name zone user_email : string) (w w' : World) (details : StopDetails) :
  dry_run self = true →
  stop_instance cloud self instance_name zone user_email w
    = ((true, "DRY RUN: Would stop instance " +:+ instance_name, details), w') →
  calls w' = calls w ++ [InstancesGet (project_id self) zone instance_name]
  ∧ List.filter is_stop (calls w') = List.filter is_stop (calls w)
  ∧ SafetyRules.history_of (rules w') user_email
    = SafetyRules.prune (utcnow cloud (calls w'))
        (SafetyRules.history_of (rules w) user_email)
  ∧ ∀ u x, x ∈ SafetyRules.history_of (rules w') u →
           x ∈ SafetyRules.history_of (rules w) u.
Proof.
  intros Hdry Hrun.
  unfold stop_instance, bind, get_instance, request, now, with_rules, ret in Hrun.
  simpl in Hrun.
  destruct (instances_get _ _ _ _ _) as [inst|]; [|by inversion Hrun].
  set (t := utcnow cloud _) in Hrun.
  pose proof (validate_action_allowed (rules w) t "stop" instance_name
                (labels inst) user_email 0) as Hok.
  pose proof (λ u, validate_action_history (rules w) t "stop" instance_name
                (labels inst) user_email 0 u) as Hhist.
  unfold Runs.allowed in Hok.
  destruct (SafetyRules.validate_action _ _ _ _ _ _ _) as [[[ok rsn] sd] r'].
  simpl in *. destruct ok; simpl in Hrun; [|by inversion Hrun].
  symmetry in Hok. apply andb_prop in Hok as [Hb _]. apply negb_true_iff in Hb.
  destruct (String.eqb (status inst) "TERMINATED"); [by inversion Hrun|].
  rewrite Hdry in Hrun. inversion Hrun; subst; clear Hrun. simpl.
  split; [done|]. split.
  { rewrite List.filter_app; simpl. by rewrite app_nil_r. }
  split.
  - rewrite Hhist, Hb. by rewrite decide_True.
  - intros u x. rewrite Hhist, Hb. case_decide; [|done]. apply prune_incl.
Qed.

(** X3: stopping an instance that is already TERMINATED, when the policy
    checks pass, succeeds without a stop request and records nothing. *)
Theorem stop_of_stopped_instance_is_noop
    (instance_name zone user_email : string) (w : World) (instance : Instance) :
  instances_get cloud (calls w) (project_id self) zone instance_name
    = Some instance →
  status instance = "TERMINATED" →
  Runs.allowed
    (SafetyRules.validate_action (rules w)
       (utcnow cloud (calls (get_logged self zone instance_name w)))
       "stop" instance_name (labels instance) user_email 0) = true →
  let run := stop_instance cloud self instance_name zone user_email w in
  run.1.1 = (true, "Instance is already stopped")
  ∧ calls run.2 = calls w ++ [InstancesGet (project_id self) zone instance_name]
  ∧ ∀ u x, x ∈ SafetyRules.history_of (rules run.2) u →
           x ∈ SafetyRules.history_of (rules w) u.
Proof.
  intros Hget Hstatus Hok run. unfold run.
  unfold stop_instance, bind, get_instance, request, now, with_rules, ret.
  simpl. rewrite Hget. unfold get_logged in Hok. simpl in Hok.
  set (t := utcnow cloud _) in *.
  pose proof (λ u, validate_action_history (rules w) t "stop" instance_name
                (labels instance) user_email 0 u) as Hhist.
  pose proof (validate_action_allowed (rules w) t "stop" instance_name
                (labels instance) user_email 0) as Hb.
  rewrite Hok in Hb. symmetry in Hb. apply andb_prop in Hb as [Hb _].
  apply negb_true_iff in Hb. unfold Runs.allowed in Hok.
  destruct (SafetyRules.validate_action _ _ _ _ _ _ _) as [[[ok rsn] sd] r'].
  simpl in *. subst ok. simpl. rewrite Hstatus. simpl.
  split; [done|]. split; [done|].
  intros u x. rewrite Hhist, Hb. case_decide; [|done]. apply prune_incl.
Qed.

End ExecutorFacts.

Section ExecutorScenarios.
Import GCPExecutor Log Example.

(** C1 (code defect): a snapshot request on an instance labelled
    [environment=production] under the default blocklist. The executor asks
    for the instance, then fetches disk-1 and inserts its snapshot, and only
    then reaches the policy check inside [stop_instance], which blocks: the
    snapshot was taken on a blocklisted resource; only the stop is withheld. *)
Theorem snapshot_taken_before_policy_check :
  let cloud := cloud_with prod_vm [] (inl "operation-stop") in
  let run := snapshot_and_stop cloud (init config) "prod-1" zone actor (world0 config) in
  SafetyRules.check_blocklist (SafetyRules.init config) (labels prod_vm)
    = (true, "Resource has blocklisted label value: production")
  ∧ run.1.1 = (false, "Snapshots created but failed to stop: "
                        +:+ "Resource has blocklisted label value: production")
  ∧ calls run.2
    = [InstancesGet "demo-project" zone "prod-1";
       DisksGet "demo-project" zone "disk-1";
       SnapshotsInsert "demo-project" "cloudguard-disk-1-20231114-221320"
         (disk_url "disk-1");
       InstancesGet "demo-project" zone "prod-1"]
  ∧ List.filter is_snapshot (calls run.2) ≠ []
  ∧ List.filter is_stop (calls run.2) = [].
Proof. vm_compute. repeat split; discriminate. Qed.

(** C2 (counterexample): the dry-run stop of a running instance that no
    policy check blocks returns the simulated success, and the actor's rate
    window is still empty afterwards. *)
Lemma dry_run_stop_leaves_window_empty :
  let c := with_dry_run config in
  let cloud := cloud_with web_vm [] (inl "operation-stop") in
  let run := stop_instance cloud (init c) "web-1" zone actor (world0 c) in
  run.1.1 = (true, "DRY RUN: Would stop instance web-1")
  ∧ SafetyRules.history_of (rules run.2) actor = []
  ∧ calls run.2 = [InstancesGet "demo-project" zone "web-1"].
Proof. vm_compute. repeat split. Qed.

(** The dry-run stop of [web-1], seen through the amended C2. *)
Lemma dry_run_stop_is_not_recorded_witness :
  let c := with_dry_run config in
  let cloud := cloud_with web_vm [] (inl "operation-stop") in
  let run := stop_instance cloud (init c) "web-1" zone actor (world0 c) in
  calls run.2 = [InstancesGet "demo-project" zone "web-1"]
  ∧ List.filter is_stop (calls run.2) = []
  ∧ SafetyRules.history_of (rules run.2) actor = [].
Proof.
  intros c cloud run.
  destruct (dry_run_stop_is_not_recorded cloud (init c) "web-1" zone actor
              (world0 c) run.2 run.1.2)
    as (Hc & Hs & Hh & _); [reflexivity | vm_compute; reflexivity |].
  split; [exact Hc|]. split; [exact Hs|]. rewrite Hh. reflexivity.
Defined.

(** The end-to-end scenario of C8: disk 2 of 2 fails to snapshot. *)
Lemma snapshot_failure_aborts_before_stop_witness :
  let cloud := cloud_with web_vm ["disk-2"] (inl "operation-stop") in
  let run := snapshot_and_stop cloud (init config) "web-1" zone actor (world0 config) in
  run.1.1 = (false, "Failed to snapshot disk disk-2: "
                      +:+ "Failed to create snapshot: Quota exceeded")
  ∧ List.filter is_stop (calls run.2) = []
  ∧ rules run.2 = SafetyRules.init config.
Proof.
  intros cloud run.
  pose (w1 := get_logged (init config) zone "web-1" (world0 config)).
  pose (pre := snapshot_disks cloud (init config) zone [disk_url "disk-1"] [] w1).
  pose (failed := create_snapshot cloud (init config) "disk-2" zone None pre.2).
  destruct (snapshot_failure_aborts_before_stop cloud (init config) "web-1" zone
              actor (world0 config) web_vm [disk_url "disk-1"] []
              (disk_url "disk-2")
              [("disk-1", true,
                "Snapshot cloudguard-disk-1-20231114-221320 created successfully")]
              pre.2 failed.2 "Failed to create snapshot: Quota exceeded" failed.1.2)
    as (Hrun & _ & _ & _ & Hstop & Hrules & _);
    [reflexivity | reflexivity | vm_compute; reflexivity | vm_compute; reflexivity |].
  unfold run. rewrite Hrun. simpl.
  split; [reflexivity|]. split; [exact Hstop | exact Hrules].
Defined.

(** A stop of the terminated instance under the default configuration. *)
Lemma stop_of_stopped_instance_is_noop_witness :
  let cloud := cloud_with stopped_vm [] (inl "operation-stop") in
  let run := stop_instance cloud (init config) "old-1" zone actor (world0 config) in
  run.1.1 = (true, "Instance is already stopped")
  ∧ calls run.2 = [InstancesGet "demo-project" zone "old-1"].
Proof.
  intros cloud run.
  destruct (stop_of_stopped_instance_is_noop cloud (init config) "old-1" zone
              actor (world0 config) stopped_vm)
    as (Hr & Hc & _); [reflexivity | reflexivity | vm_compute; reflexivity |].
  split; [exact Hr | exact Hc].
Defined.

End ExecutorScenarios.

(** ** Anomaly detector *)
Section DetectorFacts.
Import BaselineTracker.
Variable sqrt : Q → Q.
Hypothesis sqrt_zero : ∀ x, (x == 0)%Q → (sqrt x == 0)%Q.

Lemma Qsum_const (v : Q) l :
  Forall (λ x, x == v)%Q l → (Qsum l == inject_Z (Z.of_nat (length l)) * v)%Q.
Proof.
  induction 1 as [|x l Hx _ IH]; simpl Qsum; simpl length.
  - by unfold Qeq.
  - rewrite IH, Hx, Nat2Z.inj_succ. unfold Z.succ. rewrite inject_Z_plus. ring.
Qed.

Lemma mean_const (v : Q) l :
  l ≠ [] → Forall (λ x, x == v)%Q l → (mean l == v)%Q.
Proof.
  intros Hl Hc. unfold mean. rewrite (Qsum_const v) by done.
  assert (~ inject_Z (Z.of_nat (length l)) == 0)%Q.
  { destruct l; [done|]. unfold Qeq; simpl. lia. }
  by field.
Qed.

Lemma Qsum_zero l : Forall (λ x, x == 0)%Q l → (Qsum l == 0)%Q.
Proof.
  induction 1 as [|x l Hx _ IH]; simpl; [done|]. rewrite IH, Hx. ring.
Qed.

Lemma variance_const (v : Q) l :
  l ≠ [] → Forall (λ x, x == v)%Q l → (variance l == 0)%Q.
Proof.
  intros Hl Hc. unfold variance.
  pose proof (mean_const v l Hl Hc) as Hm.
  rewrite Qsum_zero.
  - unfold Qdiv. ring.
  - apply Forall_map. eapply Forall_impl; [exact Hc|].
    intros x Hx. simpl. rewrite Hx, Hm. ring.
Qed.

Lemma Qgtb_true a b : Qgtb a b = true ↔ (b < a)%Q.
Proof.
  unfold Qgtb. rewrite negb_true_iff, <- not_true_iff_false, Qle_bool_iff.
  split; [apply Qnot_le_lt | apply Qlt_not_le].
Qed.

Lemma Qgtb_false a b : Qgtb a b = false ↔ (a <= b)%Q.
Proof. unfold Qgtb. by rewrite negb_false_iff, Qle_bool_iff. Qed.

Lemma Qgtb_proper a b b' : (b == b')%Q → Qgtb a b = Qgtb a b'.
Proof.
  intros Hb. unfold Qgtb. f_equal. apply eq_true_iff_eq.
  by rewrite !Qle_bool_iff, Hb.
Qed.

Lemma Qgtb_proper_l a a' b : (a == a')%Q → Qgtb a b = Qgtb a' b.
Proof.
  intros Ha. unfold Qgtb. f_equal. apply eq_true_iff_eq.
  by rewrite !Qle_bool_iff, Ha.
Qed.

Lemma round_half_even_proper (x y : Q) :
  (x == y)%Q → Py.round_half_even x = Py.round_half_even y.
Proof.
  intros H. unfold Py.round_half_even. rewrite (Qfloor_comp _ _ H).
  assert (Hc : ((x - inject_Z (Qfloor y)) ?= (1 # 2))%Q
               = ((y - inject_Z (Qfloor y)) ?= (1 # 2))%Q) by by rewrite H.
  by rewrite Hc.
Qed.

Lemma round_proper (x y : Q) n : (x == y)%Q → Py.round x n = Py.round y n.
Proof.
  intros H. unfold Py.round. set (p := inject_Z (10 ^ Z.of_nat n)).
  rewrite (round_half_even_proper (x * p) (y * p)); [done|]. by rewrite H.
Qed.

(** The verdict on a baseline whose recent amounts all equal [v]: the
    [std_dev == 0] branch. *)
Lemma detect_constant_baseline config self (v current_spend : Q) :
  (3 ≤ length (recent_spends self))%nat →
  Forall (λ x, x == v)%Q (recent_spends self) →
  let z := if Qgtb current_spend v then 5%Q else 0%Q in
  let verdict := detect_anomaly sqrt config self current_spend in
  z_score verdict = z
  ∧ is_anomaly verdict = Qgtb z (ANOMALY_SENSITIVITY config)
  ∧ severity verdict
    = (if Qgtb z (ANOMALY_SENSITIVITY config)
       then if Qgtb current_spend v then "critical" else "low"
       else "normal")
  ∧ deviation_percent verdict
    = Py.round (if Qgtb v 0 then (current_spend - v) / v * 100 else 0)%Q 1.
Proof.
  intros Hlen Hc z verdict. unfold verdict, detect_anomaly.
  unfold recent_spends in *.
  destruct (st_daily_spend self) as [|row rows] eqn:Hrows; [simpl in Hlen; lia|].
  set (recent := take 7 (map daily_spend (row :: rows))) in *.
  destruct (Nat.ltb_spec (length recent) 3) as [|_]; [lia|].
  destruct (Nat.ltb_spec 1 (length recent)) as [_|]; [|lia].
  assert (Hne : recent ≠ []) by (destruct recent; [simpl in Hlen; lia | done]).
  pose proof (mean_const v recent Hne Hc) as Hm.
  pose proof (sqrt_zero _ (variance_const v recent Hne Hc)) as Hs.
  apply Qeq_bool_iff in Hs. unfold stdev. rewrite Hs.
  rewrite (Qgtb_proper current_spend _ v Hm), (Qgtb_proper_l _ v 0 Hm).
  fold z. simpl.
  split; [|split; [|split]].
  - unfold z. by destruct (Qgtb current_spend v).
  - done.
  - unfold z. destruct (Qgtb current_spend v); simpl;
      by destruct (Qgtb _ (ANOMALY_SENSITIVITY config)).
  - destruct (Qgtb v 0); [|done]. apply round_proper. by rewrite Hm.
Qed.

(** C5 (amended): for every sensitivity threshold [0 ≤ T < 5] and every
    baseline whose most recent (up to 7) amounts number at least 3 and all
    equal [v], detection on [v] is not an anomaly (z-score 0) and detection
    on [v + ε] is an anomaly for every [ε > 0], by the sentinel z-score 5. *)
Theorem constant_baseline_sentinel config self (v eps : Q) :
  (3 ≤ length (recent_spends self))%nat →
  Forall (λ x, x == v)%Q (recent_spends self) →
  (0 <= ANOMALY_SENSITIVITY config)%Q →
  (ANOMALY_SENSITIVITY config < 5)%Q →
  (0 < eps)%Q →
  is_anomaly (detect_anomaly sqrt config self v) = false
  ∧ z_score (detect_anomaly sqrt config self v) = 0%Q
  ∧ is_anomaly (detect_anomaly sqrt config self (v + eps)) = true
  ∧ z_score (detect_anomaly sqrt config self (v + eps)) = 5%Q.
Proof.
  intros Hlen Hc Hlo Hhi Heps.
  destruct (detect_constant_baseline config self v v Hlen Hc) as (Hz & Ha & _).
  destruct (detect_constant_baseline config self v (v + eps) Hlen Hc)
    as (Hz' & Ha' & _).
  assert (H0 : Qgtb v v = false) by (apply Qgtb_false; apply Qle_refl).
  assert (H1 : Qgtb (v + eps) v = true).
  { apply Qgtb_true. rewrite <- (Qplus_0_r v) at 1. by apply Qplus_lt_r. }
  rewrite H0 in Hz, Ha. rewrite H1 in Hz', Ha'.
  rewrite Hz, Ha, Hz', Ha'. repeat split.
  - by apply Qgtb_false.
  - by apply Qgtb_true.
Qed.

(** C9: on a baseline of 7 daily samples of $10.00 each, a current spend
    of $14.50 at sensitivity 2.5 yields, through the [std_dev == 0] branch,
    z_score 5.0, is_anomaly true, severity "critical" and deviation_percent
    45.0. *)
Theorem seven_days_of_ten_dollars config self (current_spend : Q) :
  length (st_daily_spend self) = 7%nat →
  Forall (λ row, daily_spend row == 10)%Q (st_daily_spend self) →
  (current_spend == 29 # 2)%Q →
  (ANOMALY_SENSITIVITY config == 5 # 2)%Q →
  let verdict := detect_anomaly sqrt config self current_spend in
  stdev sqrt (recent_spends self) == 0
  ∧ z_score verdict = 5%Q
  ∧ is_anomaly verdict = true
  ∧ severity verdict = "critical"
  ∧ deviation_percent verdict = 45%Q.
Proof.
  intros Hlen Hrows Hcur Hthr verdict.
  assert (Hrecent : recent_spends self = map daily_spend (st_daily_spend self)).
  { unfold recent_spends. apply take_ge. rewrite length_map. lia. }
  assert (Hconst : Forall (λ x, x == 10)%Q (recent_spends self)).
  { rewrite Hrecent. by apply Forall_map. }
  assert (Hne : recent_spends self ≠ []).
  { rewrite Hrecent. destruct (st_daily_spend self); [simpl in Hlen; lia | done]. }
  destruct (detect_constant_baseline config self 10 current_spend)
    as (Hz & Ha & Hs & Hd); [rewrite Hrecent, length_map; lia | done |].
  fold verdict in Hz, Ha, Hs, Hd.
  assert (Hg : Qgtb current_spend 10 = true).
  { apply Qgtb_true. by rewrite Hcur. }
  assert (Ht : Qgtb 5 (ANOMALY_SENSITIVITY config) = true).
  { apply Qgtb_true. by rewrite Hthr. }
  rewrite Hg in Hz, Ha, Hs. rewrite Ht in Ha, Hs.
  split; [|split; [|split; [|split]]]; try done.
  - unfold stdev. apply sqrt_zero. by apply (variance_const 10).
  - rewrite Hd. change (Qgtb 10 0) with true. cbv iota.
    rewrite (round_proper _ 45); [done|]. by rewrite Hcur.
Qed.

End DetectorFacts.

Section DetectorScenarios.
Import BaselineTracker Example.

(** X1: with fewer than 3 recent samples the verdict is "unknown" and not
    an anomaly, whatever the current spend, the threshold and the root. *)
Theorem short_baseline_is_unknown (sqrt : Q → Q) config self current_spend :
  (length (recent_spends self) < 3)%nat →
  let verdict := detect_anomaly sqrt config self current_spend in
  is_anomaly verdict = false ∧ severity verdict = "unknown".
Proof.
  intros Hlen verdict. unfold verdict, detect_anomaly.
  destruct (st_daily_spend self) as [|row rows] eqn:E; [done|].
  unfold recent_spends in Hlen. rewrite E in Hlen.
  by destruct (Nat.ltb_spec (length (take 7 (map daily_spend (row :: rows)))) 3);
    [|lia].
Qed.

Lemma short_baseline_is_unknown_witness :
  is_anomaly (detect_anomaly sqrt6 config (flat_baseline 2 10) 1000) = false
  ∧ severity (detect_anomaly sqrt6 config (flat_baseline 2 10) 1000) = "unknown".
Proof.
  apply (short_baseline_is_unknown sqrt6 config (flat_baseline 2 10) 1000).
  vm_compute. lia.
Defined.

Lemma sqrt6_zero x : (x == 0)%Q → (sqrt6 x == 0)%Q.
Proof.
  unfold Qeq, sqrt6. simpl. rewrite Z.mul_1_r. by intros ->.
Defined.

(** C5 (counterexample): on three samples of 10, whatever the square root,
    a threshold of 5 leaves a spend of 11 unflagged, a threshold of -1 flags
    a spend of exactly 10, and with only two samples a spend of 11 is not
    flagged at the default threshold. *)
Lemma sentinel_fails_outside_thresholds :
  (∀ sqrt, is_anomaly (detect_anomaly sqrt config (flat_baseline 2 10) (10 + 1))
           = false)
  ∧ (∀ sqrt : Q → Q, (∀ x, x == 0 → sqrt x == 0)%Q →
       Forall (λ x, x == 10)%Q (recent_spends (flat_baseline 3 10))
       ∧ is_anomaly (detect_anomaly sqrt (with_sensitivity 5 config)
                       (flat_baseline 3 10) (10 + 1)) = false
       ∧ is_anomaly (detect_anomaly sqrt (with_sensitivity (-1) config)
                       (flat_baseline 3 10) 10) = true).
Proof.
  split; [done|]. intros sqrt Hsqrt.
  assert (Hc : Forall (λ x, x == 10)%Q (recent_spends (flat_baseline 3 10))).
  { repeat constructor. }
  split; [exact Hc|].
  destruct (detect_constant_baseline sqrt Hsqrt (with_sensitivity 5 config)
              (flat_baseline 3 10) 10 (10 + 1)) as (_ & -> & _); [simpl; lia|done|].
  destruct (detect_constant_baseline sqrt Hsqrt (with_sensitivity (-1) config)
              (flat_baseline 3 10) 10 10) as (_ & -> & _); [simpl; lia|done|].
  done.
Qed.

(** Three samples of 10 at the default threshold 2.5, tested at 10 and at
    10.01. *)
Lemma constant_baseline_sentinel_witness :
  is_anomaly (detect_anomaly sqrt6 config (flat_baseline 3 10) 10) = false
  ∧ z_score (detect_anomaly sqrt6 config (flat_baseline 3 10) 10) = 0%Q
  ∧ is_anomaly (detect_anomaly sqrt6 config (flat_baseline 3 10) (10 + (1 # 100)))
    = true
  ∧ z_score (detect_anomaly sqrt6 config (flat_baseline 3 10) (10 + (1 # 100)))
    = 5%Q.
Proof.
  apply (constant_baseline_sentinel sqrt6 sqrt6_zero config (flat_baseline 3 10)
           10 (1 # 100)).
  - vm_compute. lia.
  - repeat constructor.
  - vm_compute. discriminate.
  - vm_compute. reflexivity.
  - vm_compute. reflexivity.
Defined.

(** The end-to-end scenario of C9, with a concrete square root. *)
Lemma seven_days_of_ten_dollars_witness :
  let verdict := detect_anomaly sqrt6 config (flat_baseline 7 10) (29 # 2) in
  stdev sqrt6 (recent_spends (flat_baseline 7 10)) == 0
  ∧ z_score verdict = 5%Q
  ∧ is_anomaly verdict = true
  ∧ severity verdict = "critical"
  ∧ deviation_percent verdict = 45%Q.
Proof.
  apply (seven_days_of_ten_dollars sqrt6 sqrt6_zero config (flat_baseline 7 10)
           (29 # 2)).
  - reflexivity.
  - repeat constructor.
  - reflexivity.
  - reflexivity.
Defined.

End DetectorScenarios.

(** ** Splitting strings *)
Section SplitFacts.
Variable sep : ascii.

Lemma split_nonempty s : Py.split sep s ≠ [].
Proof.
  destruct s as [|c r]; simpl; [done|].
  destruct (Ascii.eqb c sep); [done|]. by destruct (Py.split sep r).
Qed.

Lemma split_no_sep s : Py.has_char sep s = false → Py.split sep s = [s].
Proof.
  induction s as [|c r IH]; simpl; [done|].
  intros [Hc Hr]%orb_false_iff. by rewrite Hc, (IH Hr).
Qed.

Lemma split_app s r :
  Py.has_char sep s = false →
  Py.split sep (s +:+ String sep r) = s :: Py.split sep r.
Proof.
  induction s as [|c s IH]; simpl.
  - intros _. by rewrite Ascii.eqb_refl.
  - intros [Hc Hs]%orb_false_iff. by rewrite Hc, (IH Hs).
Qed.

Lemma split_snoc s r :
  Py.has_char sep r = false →
  Py.split sep (s +:+ String sep r) = Py.split sep s ++ [r].
Proof.
  intros Hr. induction s as [|c s IH]; simpl.
  - rewrite Ascii.eqb_refl. by rewrite (split_no_sep r Hr).
  - destruct (Ascii.eqb c sep); rewrite IH; [done|].
    pose proof (split_nonempty s). by destruct (Py.split sep s).
Qed.

(** [sep.join(s.split(sep)) == s] *)
Lemma concat_split s : String.concat (String sep EmptyString) (Py.split sep s) = s.
Proof.
  induction s as [|c r IH]; simpl; [done|].
  pose proof (split_nonempty r) as Hn.
  destruct (Ascii.eqb_spec c sep) as [->|Hne].
  - simpl. destruct (Py.split sep r) eqn:E; [done|]. simpl in *. by rewrite IH.
  - destruct (Py.split sep r) as [|h t] eqn:E; [done|].
    simpl in *. destruct t; simpl in *; by rewrite <- IH.
Qed.

Lemma split_cons_inv s x y rest :
  Py.split sep s = x :: y :: rest →
  ∃ s', s = x +:+ String sep s' ∧ Py.has_char sep x = false
        ∧ Py.split sep s' = y :: rest.
Proof.
  revert x. induction s as [|c r IH]; intros x; simpl; [done|].
  destruct (Ascii.eqb_spec c sep) as [->|Hne].
  - intros [= <- Hr]. by exists r.
  - destruct (Py.split sep r) as [|h t] eqn:E; [done|].
    intros [= <- ->]. destruct (IH h eq_refl) as (s' & -> & Hh & Hs').
    exists s'. simpl. rewrite Hh. by destruct (Ascii.eqb_spec c sep).
Qed.

Lemma split_singleton s c :
  Py.split sep s = [c] → s = c ∧ Py.has_char sep c = false.
Proof.
  revert c. induction s as [|a r IH]; intros c; simpl.
  - by intros [= <-].
  - destruct (Ascii.eqb_spec a sep) as [->|Hne].
    + intros [= _ Hr]. by destruct (split_nonempty r).
    + destruct (Py.split sep r) as [|h t] eqn:E.
      * by destruct (split_nonempty r).
      * intros [= <- ->]. destruct (IH h eq_refl) as [-> Hh].
        simpl. rewrite Hh. by destruct (Ascii.eqb_spec a sep).
Qed.

Lemma split_last_inv s : ∀ xs c,
  Py.split sep s = xs ++ [c] → xs ≠ [] →
  ∃ s', s = s' +:+ String sep c ∧ Py.has_char sep c = false
        ∧ Py.split sep s' = xs.
Proof.
  induction s as [|a r IH]; intros xs c; simpl.
  - destruct xs as [|x [|y xs]]; done.
  - destruct xs as [|x xs]; [done|]. intros Hs _. simpl in Hs.
    destruct (Ascii.eqb_spec a sep) as [->|Hne].
    + injection Hs as <- Hr. destruct xs as [|y xs].
      * apply split_singleton in Hr as [-> Hc]. by exists EmptyString.
      * destruct (IH (y :: xs) c Hr) as (s' & -> & Hc & Hs'); [done|].
        exists (String sep s'). simpl. by rewrite Ascii.eqb_refl, Hs'.
    + destruct (Py.split sep r) as [|h t] eqn:E.
      * by destruct (split_nonempty r).
      * injection Hs as <- ->.
        destruct (IH (h :: xs) c eq_refl) as (s' & -> & Hc & Hs'); [done|].
        exists (String a s'). simpl. rewrite Hs'.
        by destruct (Ascii.eqb_spec a sep).
Qed.
End SplitFacts.

(** ** Capability tokens *)
Section TokenFacts.
Import JWTHandler Wire.
Variable P : Primitives.

Lemma jwt_encode_compact payload key alg :
  jwt_encode P payload key alg
  = compact (header_segment P alg) (payload_segment P payload)
      (base64url_encode P
         (signature_of P key (header_segment P alg) (payload_segment P payload))).
Proof. reflexivity. Qed.

(** How [jwt_decode] reads a token whose first and last segments hold no
    dot: the payload segment is everything in between. *)
Lemma jwt_decode_compact h p c key algorithms now :
  Py.has_char "." h = false → Py.has_char "." c = false →
  jwt_decode P (compact h p c) key algorithms now
  = match base64url_decode P h ≫= json_loads P,
          base64url_decode P p, base64url_decode P c with
    | Some header, Some payload_data, Some signature =>
        match header !! "alg" with
        | Some (VStr alg) =>
            if negb (String.eqb alg "") && Py.str_in alg algorithms
               && String.eqb alg "HS256"
               && String.eqb signature (hmac_sha256 P key (h +:+ "." +:+ p))
            then match json_loads P payload_data with
                 | Some payload =>
                     match validate_claims P payload now with
                     | Some e => Raises e
                     | None => Returns payload
                     end
                 | None => Raises InvalidTokenError
                 end
            else Raises InvalidTokenError
        | _ => Raises InvalidTokenError
        end
    | _, _, _ => Raises InvalidTokenError
    end.
Proof.
  intros Hh Hc. unfold jwt_decode, compact.
  change (h +:+ "." +:+ p +:+ "." +:+ c) with (h +:+ String "." (p +:+ String "." c)).
  rewrite (split_app "." h _ Hh), (split_snoc "." p c Hc).
  rewrite rev_app_distr. simpl rev at 1. simpl app.
  pose proof (split_nonempty "." p) as Hne.
  destruct (rev (Py.split "." p)) as [|x xs] eqn:E.
  { apply (f_equal (@rev string)) in E. by rewrite rev_involutive in E. }
  rewrite <- E, rev_involutive.
  change "."%string with (String "."%char EmptyString). by rewrite concat_split.
Qed.

(** A token with at least three segments is [h.p.c] with [h] and [c]
    free of dots. *)
Lemma token_shape token :
  (3 ≤ length (Py.split "." token))%nat →
  ∃ h p c, token = compact h p c
           ∧ Py.has_char "." h = false ∧ Py.has_char "." c = false.
Proof.
  intros Hlen.
  destruct (Py.split "." token) as [|h [|y rest]] eqn:E; try (simpl in Hlen; lia).
  apply split_cons_inv in E as (s' & -> & Hh & Hs').
  destruct (exists_last (l := y :: rest)) as (xs & c & Hxs); [done|].
  rewrite Hxs in Hs'.
  destruct (split_last_inv "." s' xs c Hs') as (p & -> & Hc & _).
  { intros ->. apply (f_equal (@length string)) in Hxs. simpl in *. lia. }
  by exists h, p, c.
Qed.

Lemma not_enough_segments token key algorithms now :
  (length (Py.split "." token) < 3)%nat →
  jwt_decode P token key algorithms now = Raises InvalidTokenError.
Proof.
  unfold jwt_decode.
  destruct (Py.split "." token) as [|h [|y [|z rest]]]; simpl; try done. lia.
Qed.

(** Every token is either refused as invalid, or it carries the HMAC of its
    own header and payload segments and a payload that parses, and then the
    claims alone decide between success, Expired and Invalid. *)
Lemma validate_token_cases self later token :
  validate_token P self later token = Raises InvalidTokenError
  ∨ ∃ h p c claims,
      token = compact h p c
      ∧ base64url_decode P c = Some (signature_of P (secret self) h p)
      ∧ base64url_decode P p ≫= json_loads P = Some claims
      ∧ validate_token P self later token
        = match validate_claims P claims later with
          | Some e => Raises e
          | None => Returns claims
          end.
Proof.
  unfold validate_token.
  destruct (Nat.lt_ge_cases (length (Py.split "." token)) 3) as [Hlt|Hge].
  { left. by apply not_enough_segments. }
  destruct (token_shape token Hge) as (h & p & c & -> & Hh & Hc).
  rewrite jwt_decode_compact by done.
  destruct (base64url_decode P h ≫= json_loads P) as [header|]; [|by left].
  destruct (base64url_decode P p) as [payload_data|] eqn:Hp; [|by left].
  destruct (base64url_decode P c) as [signature|] eqn:Hsig; [|by left].
  destruct (header !! "alg") as [[]|]; try by left.
  destruct (_ && _) eqn:Hchk; [|by left].
  apply andb_prop in Hchk as [_ Heq]. apply String.eqb_eq in Heq as ->.
  destruct (json_loads P payload_data) as [claims|] eqn:Hj; [|by left].
  right. exists h, p, c, claims. rewrite Hp. simpl. by rewrite Hj.
Qed.

(** Validation succeeds only on a correctly signed token, and returns the
    claims of its payload segment. *)
Lemma validate_token_sound self later token claims :
  validate_token P self later token = Returns claims →
  ∃ h p c,
    token = compact h p c
    ∧ base64url_decode P c = Some (signature_of P (secret self) h p)
    ∧ base64url_decode P p ≫= json_loads P = Some claims
    ∧ validate_claims P claims later = None.
Proof.
  intros Hok.
  destruct (validate_token_cases self later token)
    as [He|(h & p & c & claims' & -> & Hc & Hp & Hv)]; [congruence|].
  rewrite Hv in Hok. exists h, p, c.
  destruct (validate_claims P claims' later) eqn:E; [done|].
  by injection Hok as ->.
Qed.

(** Validation reports Expired only on a correctly signed token whose
    claims are expired. *)
Lemma expired_only_when_signed self later token :
  validate_token P self later token = Raises ExpiredSignatureError →
  ∃ h p c claims,
    token = compact h p c
    ∧ base64url_decode P c = Some (signature_of P (secret self) h p)
    ∧ base64url_decode P p ≫= json_loads P = Some claims
    ∧ validate_claims P claims later = Some ExpiredSignatureError.
Proof.
  intros Hex.
  destruct (validate_token_cases self later token)
    as [He|(h & p & c & claims & -> & Hc & Hp & Hv)]; [congruence|].
  rewrite Hv in Hex. exists h, p, c, claims.
  destruct (validate_claims P claims later) as [e|] eqn:E; [|done].
  by injection Hex as ->.
Qed.

Lemma timegm_le t : timegm t * 1000000 ≤ t.
Proof. unfold timegm. pose proof (Z.mul_div_le t 1000000). lia. Qed.

Section Issued.
Variables (config : Config) (generated : string) (now : Z) (jti : string).
Variables (resource_id action project_id resource_type : string).
Variables (estimated_savings : Q) (user_email : option string).

Let self := init config generated.
Let payload := token_payload P self now jti resource_id action project_id
                 resource_type estimated_savings user_email.
Let token := generate_token P self now jti resource_id action project_id
               resource_type estimated_savings user_email.
Let exp := timegm (now + expiry_hours self * hour).

(** The claim checks on an issued token: not before "iat", not at or after
    "exp". *)
Lemma issued_claims_checked later :
  validate_claims P (encode_claims payload) later
  = if later <? timegm now * 1000000 then Some InvalidTokenError
    else if exp * 1000000 <=? later then Some ExpiredSignatureError
    else None.
Proof.
  unfold validate_claims.
  change (encode_claims payload !! "iat") with (Some (VInt (timegm now))).
  change (encode_claims payload !! "nbf") with (@None value).
  change (encode_claims payload !! "exp") with (Some (VInt exp)).
  change (encode_claims payload !! "aud") with (@None value).
  simpl. destruct (later <? _); [done|]. by destruct (_ <=? later).
Qed.

Lemma issued_token_decoded later :
  carries P (secret self) payload →
  validate_token P self later token
  = match validate_claims P (encode_claims payload) later with
    | Some e => Raises e
    | None => Returns (encode_claims payload)
    end.
Proof.
  intros ((Hhj & Hhb & Hhd) & (Hpj & Hpb & Hpd) & (Hsb & Hsd)).
  unfold validate_token, token, generate_token. fold payload.
  change (algorithm self) with "HS256"%string.
  rewrite jwt_encode_compact, jwt_decode_compact by done.
  unfold header_segment, payload_segment in *.
  rewrite Hhb, Hpb, Hsb. simpl. rewrite Hhj.
  change (jose_header "HS256" !! "alg") with (Some (VStr "HS256")).
  unfold signature_of. simpl. by rewrite String.eqb_refl, Hpj.
Qed.

(** C3: for any grant fields, validating the token issued for them, at
    any time from its issue up to (excluding) the expiry it carries,
    succeeds and returns claims whose resource_id, action, project_id,
    estimated_savings and user_email are the issued ones; provided the
    codecs carry the token. *)
Theorem issue_then_validate_round_trip later :
  carries P (secret self) payload →
  now ≤ later →
  later < exp * 1000000 →
  ∃ claims,
    validate_token P self later token = Returns claims
    ∧ claims !! "resource_id" = Some (VStr resource_id)
    ∧ claims !! "action" = Some (VStr action)
    ∧ claims !! "project_id" = Some (VStr project_id)
    ∧ claims !! "estimated_savings" = Some (VFloat estimated_savings)
    ∧ claims !! "user_email"
      = Some (match user_email with Some e => VStr e | None => VNone end).
Proof.
  intros Hc Hnow Hexp. exists (encode_claims payload).
  rewrite issued_token_decoded, issued_claims_checked by done.
  pose proof (timegm_le now).
  destruct (Z.ltb_spec later (timegm now * 1000000)); [lia|].
  destruct (Z.leb_spec (exp * 1000000) later); [lia|].
  repeat split.
Qed.

(** Any replacement of the payload segment is refused, whenever the HMAC
    of the altered signing input is not the original one. *)
Lemma altered_payload_is_invalid later p' :
  carries P (secret self) payload →
  signature_of P (secret self) (header_segment P "HS256") p'
    ≠ signature_of P (secret self) (header_segment P "HS256")
        (payload_segment P payload) →
  validate_token P self later
    (compact (header_segment P "HS256") p'
       (base64url_encode P
          (signature_of P (secret self) (header_segment P "HS256")
             (payload_segment P payload))))
  = Raises InvalidTokenError.
Proof.
  intros ((Hhj & Hhb & Hhd) & _ & (Hsb & Hsd)) Hmac.
  unfold validate_token. rewrite jwt_decode_compact by done.
  remember (secret self) as key eqn:Hkey. clear Hkey.
  unfold header_segment, signature_of in *. rewrite Hhb, Hsb.
  cbn [mbind option_bind]. rewrite Hhj.
  destruct (base64url_decode P p'); [|done].
  change (jose_header "HS256" !! "alg") with (Some (VStr "HS256")). cbv iota beta.
  apply not_eq_sym, String.eqb_neq in Hmac. rewrite Hmac.
  by rewrite !andb_false_r.
Qed.

Lemma expired_token_is_expired later :
  carries P (secret self) payload →
  now ≤ later → exp * 1000000 ≤ later →
  validate_token P self later token = Raises ExpiredSignatureError.
Proof.
  intros Hc Hnow Hexp.
  rewrite issued_token_decoded, issued_claims_checked by done.
  pose proof (timegm_le now).
  destruct (Z.ltb_spec later (timegm now * 1000000)); [lia|].
  by destruct (Z.leb_spec (exp * 1000000) later); [|lia].
Qed.

(** C4: validation fails in exactly two kinds. Invalid: a token with fewer
    than three segments; an issued token whose payload segment was replaced
    (by any text whose HMAC differs from the signed one); and every token
    whose signature segment is not the HMAC, under the server's secret, of
    its own header and payload segments, or whose payload does not parse:
    none of these succeeds or counts as expired. Expired: the issued,
    untouched token once its expiry has passed. The two kinds differ and
    [execute_action] answers them with different pages. *)
Theorem token_failures_are_invalid_or_expired :
  carries P (secret self) payload →
  (∀ later tok, (length (Py.split "." tok) < 3)%nat →
     validate_token P self later tok = Raises InvalidTokenError)
  ∧ (∀ later p',
       signature_of P (secret self) (header_segment P "HS256") p'
         ≠ signature_of P (secret self) (header_segment P "HS256")
             (payload_segment P payload) →
       validate_token P self later
         (compact (header_segment P "HS256") p'
            (base64url_encode P
               (signature_of P (secret self) (header_segment P "HS256")
                  (payload_segment P payload))))
       = Raises InvalidTokenError)
  ∧ (∀ later tok,
       validate_token P self later tok ≠ Raises InvalidTokenError →
       ∃ h p c claims, tok = compact h p c
         ∧ base64url_decode P c = Some (signature_of P (secret self) h p)
         ∧ base64url_decode P p ≫= json_loads P = Some claims
         ∧ validate_token P self later tok
           = match validate_claims P claims later with
             | Some e => Raises e
             | None => Returns claims
             end)
  ∧ (∀ later, now ≤ later → exp * 1000000 ≤ later →
       validate_token P self later token = Raises ExpiredSignatureError
       ∧ Main.validate_or_respond P self later token
         = inl {| Main.content := (Main.ErrorPage, "Token Expired",
                    "This action link has expired. Please wait for the next alert email.");
                  Main.status_code := 401 |})
  ∧ (∀ later tok, validate_token P self later tok = Raises InvalidTokenError →
       Main.validate_or_respond P self later tok
       = inl {| Main.content := (Main.ErrorPage, "Invalid Token",
                  "This action link is invalid. Please use the link from your alert email.");
                Main.status_code := 401 |})
  ∧ ExpiredSignatureError ≠ InvalidTokenError.
Proof.
  intros Hc. split; [|split; [|split; [|split; [|split]]]].
  - intros later tok Hlen. by apply not_enough_segments.
  - intros later p' Hmac. by apply altered_payload_is_invalid.
  - intros later tok Hne.
    by destruct (validate_token_cases self later tok) as [He|Hsigned].
  - intros later Hnow Hexp.
    pose proof (expired_token_is_expired later Hc Hnow Hexp) as He.
    split; [done|]. unfold Main.validate_or_respond. by rewrite He.
  - intros later tok He. unfold Main.validate_or_respond. by rewrite He.
  - done.
Qed.
(** X4: a token issued with a TTL of zero hours is expired one second
    later. *)
Theorem zero_ttl_expires_at_once :
  JWT_EXPIRATION_HOURS config = 0 →
  carries P (secret self) payload →
  validate_token P self (now + 1000000) token = Raises ExpiredSignatureError.
Proof.
  intros Httl Hc. apply expired_token_is_expired; [done|lia|].
  unfold exp. change (expiry_hours self) with (JWT_EXPIRATION_HOURS config).
  rewrite Httl, Z.mul_0_l, Z.add_0_r. pose proof (timegm_le now). lia.
Qed.
End Issued.
End TokenFacts.

(** Closes [l = r] by evaluating both sides. *)
Ltac by_evaluation :=
  match goal with |- _ = ?r => vm_cast_no_check (@eq_refl _ r) end.

Section TokenScenarios.
Import JWTHandler Wire Example.

Lemma example_carries :
  carries P (secret handler)
    (token_payload P handler t0 "jti-0001" "web-1" "stop" "demo-project"
       "instance" (25 # 2) (Some actor)).
Proof. repeat split; by_evaluation. Defined.

(** The stop token of [web-1], validated one hour after its issue. *)
Lemma issue_then_validate_round_trip_witness :
  ∃ claims,
    validate_token P handler (t0 + hour) stop_token = Returns claims
    ∧ claims !! "resource_id" = Some (VStr "web-1")
    ∧ claims !! "action" = Some (VStr "stop")
    ∧ claims !! "project_id" = Some (VStr "demo-project")
    ∧ claims !! "estimated_savings" = Some (VFloat (25 # 2))
    ∧ claims !! "user_email" = Some (VStr actor).
Proof.
  apply (issue_then_validate_round_trip P config "unused" t0 "jti-0001" "web-1"
           "stop" "demo-project" "instance" (25 # 2) (Some actor) (t0 + hour)).
  - exact example_carries.
  - vm_compute. discriminate.
  - vm_compute. reflexivity.
Defined.

(** Text that is no token, the forged token, and the stop token four
    hours after its issue. *)
Lemma token_failures_are_invalid_or_expired_witness :
  validate_token P handler (t0 + hour) "not-a-token" = Raises InvalidTokenError
  ∧ json_loads P (json_dumps P forged_claims) = Some forged_claims
  ∧ validate_token P handler (t0 + hour) forged_token = Raises InvalidTokenError
  ∧ validate_token P handler (t0 + 4 * hour) stop_token
    = Raises ExpiredSignatureError.
Proof.
  destruct (token_failures_are_invalid_or_expired P config "unused" t0 "jti-0001"
              "web-1" "stop" "demo-project" "instance" (25 # 2) (Some actor)
              example_carries)
    as (Hshort & Haltered & _ & Hexpired & _).
  split; [apply Hshort; vm_compute; lia|].
  split; [vm_compute; reflexivity|].
  split.
  - apply Haltered. vm_compute. discriminate.
  - apply Hexpired; vm_compute; discriminate.
Defined.

Lemma zero_ttl_expires_at_once_witness :
  validate_token P (init (with_ttl 0 config) "unused") (t0 + 1000000)
    (generate_token P (init (with_ttl 0 config) "unused") t0 "jti-0002" "web-1"
       "stop" "demo-project" "instance" 0 None)
  = Raises ExpiredSignatureError.
Proof.
  apply (zero_ttl_expires_at_once P (with_ttl 0 config) "unused" t0 "jti-0002"
           "web-1" "stop" "demo-project" "instance" 0 None).
  - reflexivity.
  - repeat split; by_evaluation.
Defined.

End TokenScenarios.

(** ** Policy engine: windows, decisions and the tag list *)
Section SafetyRulesMore.
Import SafetyRules Runs Notions.
Implicit Types (self : t) (u : string) (l : list Z).

Lemma prune_drop now l : Forall (λ t, t + hour ≤ now) l → prune now l = [].
Proof.
  induction 1 as [|t l Ht _ IH]; [done|]. unfold prune in *; simpl.
  rewrite IH. by destruct (Z.ltb_spec (now - hour) t); [lia|].
Qed.

(** The verdict of [validate_action] reads the state only through the four
    fixed fields and the pruned window of the actor. *)
Lemma validate_action_ext self1 self2 now a rid labels u sav :
  blocklist_tags self1 = blocklist_tags self2 →
  confirmation_threshold self1 = confirmation_threshold self2 →
  max_actions_per_hour self1 = max_actions_per_hour self2 →
  dry_run self1 = dry_run self2 →
  prune now (history_of self1 u) = prune now (history_of self2 u) →
  fst (validate_action self1 now a rid labels u sav)
  = fst (validate_action self2 now a rid labels u sav).
Proof.
  intros Hb Hc Hm Hd Hh.
  assert (check_blocklist self1 labels = check_blocklist self2 labels) as Hbl.
  { unfold check_blocklist. by rewrite Hb. }
  unfold validate_action. rewrite Hbl, Hd.
  destruct (check_blocklist self2 labels) as [[] r]; simpl; [done|].
  unfold check_rate_limit. rewrite !history_set_same, Hh, Hm.
  destruct (_ <=? _); simpl; [done|].
  unfold check_high_cost; simpl. rewrite Hc, Hd.
  by destruct (Qle_bool _ _).
Qed.



(** X6: the decision of the rate limiter for a resource the blocklist lets
    through. The window left behind holds exactly the recorded times newer
    than one hour; with fewer of them than the limit the action is allowed;
    otherwise it is refused with the count and the limit in the reason, and
    asking again at the same time gives the same answer: a refusal is not
    counted. *)
Theorem rate_limit_decision self now a rid labels u sav :
  fst (check_blocklist self labels) = false →
  let fresh := List.filter (λ t, now - hour <? t) (history_of self u) in
  let n := Z.of_nat (length fresh) in
  let v := validate_action self now a rid labels u sav in
  history_of (snd v) u = fresh
  ∧ (n < max_actions_per_hour self →
     allowed v = true ∧ reason v = "All safety checks passed")
  ∧ (max_actions_per_hour self ≤ n →
     allowed v = false
     ∧ reason v = "Rate limit exceeded: " +:+ Py.str_of_Z n +:+ "/"
                    +:+ Py.str_of_Z (max_actions_per_hour self)
                    +:+ " actions in the last hour"
     ∧ fst (validate_action (snd v) now a rid labels u sav) = fst v).
Proof.
  intros Hb fresh n v. split; [|split].
  - unfold v. rewrite validate_action_history, Hb. by rewrite decide_True.
  - intros Hn. unfold v, allowed, reason, validate_action.
    destruct (check_blocklist self labels) as [b rsn]. simpl in Hb; subst b.
    pose proof (check_rate_limit_verdict self now u) as Hv. simpl in Hv.
    fold (prune now (history_of self u)) in fresh.
    destruct (Z.leb_spec (max_actions_per_hour self)
                (Z.of_nat (length (prune now (history_of self u)))));
      [unfold n, fresh in Hn; lia|].
    destruct (check_rate_limit self now u) as [[lim r] s']. simpl in Hv.
    inversion Hv; subst. by destruct (check_high_cost _ _).
  - intros Hn. split; [|split].
    + unfold v. rewrite validate_action_allowed, Hb. simpl.
      apply negb_false_iff, Z.leb_le. exact Hn.
    + by apply validate_action_rate_limited.
    + apply validate_action_ext.
      * unfold v. rewrite validate_action_state, Hb. done.
      * unfold v. rewrite validate_action_state, Hb. done.
      * apply validate_action_limit.
      * unfold v. rewrite validate_action_state, Hb. done.
      * unfold v. rewrite validate_action_history, Hb, decide_True by done.
        apply prune_keep, Forall_forall. intros x Hx.
        unfold prune in Hx. apply list_elem_of_In, filter_In in Hx as [_ Hx]. lia.
Qed.

(** The actor with three stops on record, three minutes after the first. *)
Lemma rate_limit_decision_witness :
  let v := validate_action Scenario.busy_rules (Example.t0 + 3 * Example.minute)
             "stop" "web-1" ∅ Example.actor 0 in
  allowed v = false
  ∧ reason v = "Rate limit exceeded: 3/3 actions in the last hour".
Proof.
  intros v.
  destruct (rate_limit_decision Scenario.busy_rules
              (Example.t0 + 3 * Example.minute) "stop" "web-1" ∅ Example.actor 0)
    as (_ & _ & H); [reflexivity|].
  destruct H as (H1 & H2 & _); [vm_compute; discriminate|].
  split; [exact H1 | exact H2].
Defined.

(** X7: once every recorded action of an actor is one hour old or older,
    the next [validate_action] for a resource the blocklist lets through is
    allowed (the limit being at least 1), and it empties the window. An
    entry exactly one hour old no longer counts. *)
Theorem actor_is_allowed_again_after_an_hour self now a rid labels u sav :
  fst (check_blocklist self labels) = false →
  0 < max_actions_per_hour self →
  Forall (λ t, t + hour ≤ now) (history_of self u) →
  let v := validate_action self now a rid labels u sav in
  allowed v = true ∧ history_of (snd v) u = [].
Proof.
  intros Hb Hmax Hold v. unfold v.
  rewrite validate_action_allowed, validate_action_history, Hb.
  rewrite decide_True by done. rewrite (prune_drop _ _ Hold). simpl.
  split; [|done]. apply negb_true_iff, Z.leb_gt. lia.
Qed.

(** The actor with three stops on record, one hour after the last. *)
Lemma actor_is_allowed_again_after_an_hour_witness :
  let v := validate_action Scenario.busy_rules
             (Example.t0 + 2 * Example.minute + hour) "stop" "web-1" ∅
             Example.actor 0 in
  allowed v = true ∧ history_of (snd v) Example.actor = [].
Proof.
  intros v.
  apply (actor_is_allowed_again_after_an_hour Scenario.busy_rules);
    [reflexivity | reflexivity |].
  repeat constructor; vm_compute; discriminate.
Defined.

Lemma str_in_elem (x : string) xs : Py.str_in x xs = true ↔ x ∈ xs.
Proof.
  unfold Py.str_in. rewrite existsb_exists. split.
  - intros (y & Hy & ->%String.eqb_eq). by apply list_elem_of_In.
  - intros Hx. exists x. split; [by apply list_elem_of_In | apply String.eqb_refl].
Qed.

Lemma lower_among_keys tag (labels : gmap string string) :
  Py.str_in (Py.lower tag) (map Py.lower (label_keys labels)) = true
  ↔ ∃ k v, labels !! k = Some v ∧ Py.lower tag = Py.lower k.
Proof.
  rewrite str_in_elem. unfold label_keys. split.
  - intros (k & -> & ([k' v] & -> & Hkv)%list_elem_of_fmap)%list_elem_of_fmap.
    apply elem_of_map_to_list in Hkv. by exists k', v.
  - intros (k & v & Hkv & ->). apply list_elem_of_fmap. exists k. split; [done|].
    apply list_elem_of_fmap. exists (k, v). split; [done|].
    by apply elem_of_map_to_list.
Qed.

Lemma lower_among_values tag (labels : gmap string string) :
  Py.str_in (Py.lower tag) (map Py.lower (label_values labels)) = true
  ↔ ∃ k v, labels !! k = Some v ∧ Py.lower tag = Py.lower v.
Proof.
  rewrite str_in_elem. unfold label_values. split.
  - intros (k & -> & ([k' v] & -> & Hkv)%list_elem_of_fmap)%list_elem_of_fmap.
    apply elem_of_map_to_list in Hkv. by exists k', v.
  - intros (k & v & Hkv & ->). apply list_elem_of_fmap. exists v. split; [done|].
    apply list_elem_of_fmap. exists (k, v). split; [done|].
    by apply elem_of_map_to_list.
Qed.

(** The loop over the tags finds a reason exactly when some tag matches. *)
Lemma scan_tags_some tags labels :
  is_Some (scan_tags tags labels) ↔ ∃ tag, tag ∈ tags ∧ tag_matches tag labels.
Proof.
  induction tags as [|tag rest IH]; simpl.
  - split; [by intros [? ?] | by intros (? & ?%elem_of_nil & _)].
  - destruct (Py.str_in _ (map Py.lower (label_keys labels))) eqn:Ek.
    { split; [|by eexists]. intros _. exists tag. split; [left|].
      apply lower_among_keys in Ek as (k & v & ? & ?). exists k, v. eauto. }
    destruct (Py.str_in _ (map Py.lower (label_values labels))) eqn:Ev.
    { split; [|by eexists]. intros _. exists tag. split; [left|].
      apply lower_among_values in Ev as (k & v & ? & ?). exists k, v. eauto. }
    rewrite IH. split.
    + intros (tg & ? & ?). exists tg. split; [by right | done].
    + intros (tg & [->|?]%elem_of_cons & Hm); [|by exists tg].
      destruct Hm as (k & v & Hkv & [Hl|Hl]).
      * assert (Py.str_in (Py.lower tag) (map Py.lower (label_keys labels)) = true)
          by (apply lower_among_keys; eauto). congruence.
      * assert (Py.str_in (Py.lower tag) (map Py.lower (label_values labels)) = true)
          by (apply lower_among_values; eauto). congruence.
Qed.


Lemma empty_tag_configured config :
  (BLOCKLIST_TAGS config = "" ∨ ∃ pre, BLOCKLIST_TAGS config = pre +:+ ",") →
  "" ∈ blocklist_tags (init config).
Proof.
  unfold init; simpl. intros [->|[pre ->]]; [by left|].
  rewrite split_snoc by done. rewrite map_app. apply elem_of_app. right. by left.
Qed.

(** X9: an empty BLOCKLIST_TAGS setting, or one that ends in a comma, does
    not switch the tag check off: the tag list then holds the empty tag,
    and every resource that has a label with an empty value is blocked. *)
Theorem empty_tag_blocks_empty_labels config labels k :
  (BLOCKLIST_TAGS config = "" ∨ ∃ pre, BLOCKLIST_TAGS config = pre +:+ ",") →
  labels !! k = Some "" →
  "" ∈ blocklist_tags (init config)
  ∧ fst (check_blocklist (init config) labels) = true.
Proof.
  intros Hcfg Hk. pose proof (empty_tag_configured config Hcfg) as Hin.
  split; [done|]. unfold check_blocklist.
  assert (is_Some (scan_tags (blocklist_tags (init config)) labels)) as [r ->];
    [|done].
  apply scan_tags_some. exists "". split; [done|]. exists k, "". eauto.
Qed.

(** A resource labelled [team=] under the settings "" and "critical,". *)
Lemma empty_tag_blocks_empty_labels_witness :
  fst (check_blocklist (init (Example.with_blocklist "" Example.config))
         {[ "team" := "" ]}) = true
  ∧ fst (check_blocklist (init (Example.with_blocklist "critical," Example.config))
         {[ "team" := "" ]}) = true.
Proof.
  split.
  - apply (empty_tag_blocks_empty_labels (Example.with_blocklist "" Example.config)
             {[ "team" := "" ]} "team"); [left; reflexivity | reflexivity].
  - apply (empty_tag_blocks_empty_labels
             (Example.with_blocklist "critical," Example.config)
             {[ "team" := "" ]} "team");
      [right; exists "critical"; reflexivity | reflexivity].
Defined.

End SafetyRulesMore.

(** ** Remediation executor: what reaches the cloud *)
Section ExecutorMore.
Import GCPExecutor Log Notions.
Context (cloud : Cloud) (self : t).

(** X10: [stop_instance] sends a stop request only outside dry-run, for an
    instance that exists and is not TERMINATED, and after [validate_action]
    allowed the stop; the request then follows the lookup at once and names
    the instance asked for. *)
Theorem stop_request_needs_policy_pass instance_name zone user_email w :
  let run := stop_instance cloud self instance_name zone user_email w in
  List.filter is_stop (calls run.2) ≠ List.filter is_stop (calls w) →
  dry_run self = false
  ∧ ∃ instance,
      instances_get cloud (calls w) (project_id self) zone instance_name
        = Some instance
      ∧ status instance ≠ "TERMINATED"
      ∧ Runs.allowed
          (SafetyRules.validate_action (rules w)
             (utcnow cloud (calls (get_logged self zone instance_name w)))
             "stop" instance_name (labels instance) user_email 0) = true
      ∧ calls run.2 = calls w ++ [InstancesGet (project_id self) zone instance_name;
                                  InstancesStop (project_id self) zone instance_name].
Proof.
  intros run. unfold run.
  unfold stop_instance, bind, get_instance, request, now, with_rules, ret, get_logged.
  simpl.
  destruct (instances_get _ _ _ _ _) as [inst|]; simpl.
  2:{ rewrite List.filter_app; simpl. rewrite app_nil_r. done. }
  unfold Runs.allowed.
  destruct (SafetyRules.validate_action _ _ _ _ _ _ _) as [[[[] rsn] sd] r'] eqn:Ev;
    simpl.
  2:{ rewrite List.filter_app; simpl. rewrite app_nil_r. done. }
  destruct (String.eqb_spec (status inst) "TERMINATED") as [|Hst]; simpl.
  { rewrite List.filter_app; simpl. rewrite app_nil_r. done. }
  destruct (dry_run self); simpl.
  { rewrite List.filter_app; simpl. rewrite app_nil_r. done. }
  intros _. split; [done|]. exists inst.
  split; [done|]. split; [done|]. split; [by rewrite Ev|].
  destruct (instances_stop _ _ _ _ _); simpl; by rewrite <- app_assoc.
Qed.

(** X11: outside dry-run, on a running instance the policy lets through,
    [stop_instance] sends exactly one stop request after the lookup. If the
    request succeeds the stop is reported and recorded once, with the clock
    reading made after it, behind the pruned window of the actor; if it
    raises, the failure is reported with the error text and nothing is
    recorded. *)
Theorem real_stop_is_recorded_once instance_name zone user_email w instance :
  dry_run self = false →
  instances_get cloud (calls w) (project_id self) zone instance_name
    = Some instance →
  status instance ≠ "TERMINATED" →
  let w1 := get_logged self zone instance_name w in
  Runs.allowed
    (SafetyRules.validate_action (rules w) (utcnow cloud (calls w1))
       "stop" instance_name (labels instance) user_email 0) = true →
  let run := stop_instance cloud self instance_name zone user_email w in
  let window := SafetyRules.prune (utcnow cloud (calls w1))
                  (SafetyRules.history_of (rules w) user_email) in
  calls run.2 = calls w1 ++ [InstancesStop (project_id self) zone instance_name]
  ∧ match instances_stop cloud (calls w1) (project_id self) zone instance_name with
    | inl op =>
        run.1.1 = (true, "Instance " +:+ instance_name +:+ " stopped successfully")
        ∧ SafetyRules.history_of (rules run.2) user_email
          = window ++ [utcnow cloud (calls run.2)]
    | inr e =>
        run.1.1 = (false, "Failed to stop instance: " +:+ e)
        ∧ SafetyRules.history_of (rules run.2) user_email = window
    end.
Proof.
  intros Hdry Hget Hst w1 Hok run window. unfold run, window, w1 in *.
  unfold stop_instance, bind, get_instance, request, now, with_rules, ret.
  simpl. rewrite Hget. unfold get_logged in *. simpl in *.
  set (t := utcnow cloud _) in *.
  pose proof (validate_action_history (rules w) t "stop" instance_name
                (labels instance) user_email 0 user_email) as Hhist.
  pose proof (validate_action_allowed (rules w) t "stop" instance_name
                (labels instance) user_email 0) as Hb.
  rewrite Hok in Hb. symmetry in Hb. apply andb_prop in Hb as [Hb _].
  apply negb_true_iff in Hb. rewrite Hb, decide_True in Hhist by done.
  unfold Runs.allowed in Hok.
  destruct (SafetyRules.validate_action _ _ _ _ _ _ _) as [[[ok rsn] sd] r'].
  simpl in *. subst ok. simpl.
  destruct (String.eqb_spec (status instance) "TERMINATED"); [done|]. simpl.
  rewrite Hdry. simpl.
  destruct (instances_stop _ _ _ _ _); simpl.
  - split; [done|]. split; [done|].
    unfold SafetyRules.record_action. rewrite history_set_same. by rewrite Hhist.
  - done.
Qed.

Lemma create_snapshot_dry disk zone name w :
  dry_run self = true →
  let run := create_snapshot cloud self disk zone name w in
  run.2 = w ∧ run.1.1.1 = true.
Proof.
  intros Hdry. unfold create_snapshot, bind, now, request, ret; simpl.
  by rewrite Hdry.
Qed.

Lemma snapshot_disks_dry zone sources : ∀ acc w,
  dry_run self = true →
  (snapshot_disks cloud self zone sources acc w).2 = w.
Proof.
  induction sources as [|src rest IH]; intros acc w Hdry; simpl; [done|].
  unfold bind.
  destruct (create_snapshot_dry (disk_name_of src) zone None w Hdry) as [Hw Hok].
  destruct (create_snapshot _ _ _ _ _ _) as [[[ok msg] d] w1]. simpl in *.
  subst. simpl. by apply IH.
Qed.

Lemma stop_instance_dry instance_name zone user_email w :
  dry_run self = true →
  let run := stop_instance cloud self instance_name zone user_email w in
  calls run.2 = calls w ++ [InstancesGet (project_id self) zone instance_name]
  ∧ ∀ u x, x ∈ SafetyRules.history_of (rules run.2) u →
           x ∈ SafetyRules.history_of (rules w) u.
Proof.
  intros Hdry run. unfold run.
  unfold stop_instance, bind, get_instance, request, now, with_rules, ret. simpl.
  destruct (instances_get _ _ _ _ _) as [inst|]; simpl; [|done].
  set (t := utcnow cloud _).
  pose proof (λ u, validate_action_history (rules w) t "stop" instance_name
                (labels inst) user_email 0 u) as Hhist.
  assert (∀ u x,
    x ∈ SafetyRules.history_of
          (SafetyRules.validate_action (rules w) t "stop" instance_name
             (labels inst) user_email 0).2 u →
    x ∈ SafetyRules.history_of (rules w) u) as Hsub.
  { intros u x. rewrite Hhist. destruct (fst _); [done|].
    case_decide; [apply prune_incl | done]. }
  destruct (SafetyRules.validate_action _ _ _ _ _ _ _) as [[[[] rsn] sd] r'];
    simpl in *; [|done].
  destruct (String.eqb _ _); simpl; [done|]. rewrite Hdry. simpl. done.
Qed.

(** X12: in dry-run mode neither [stop_instance] nor [snapshot_and_stop]
    sends anything but instance lookups, whatever the instance, its disks
    and the policy answer; and no rate window gains an entry. *)
Theorem dry_run_sends_only_lookups instance_name zone user_email w :
  dry_run self = true →
  let stop := stop_instance cloud self instance_name zone user_email w in
  let both := snapshot_and_stop cloud self instance_name zone user_email w in
  (∃ tail, calls stop.2 = calls w ++ tail ∧ forallb is_instance_get tail = true)
  ∧ (∃ tail, calls both.2 = calls w ++ tail ∧ forallb is_instance_get tail = true)
  ∧ ∀ u x, x ∈ SafetyRules.history_of (rules stop.2) u
           ∨ x ∈ SafetyRules.history_of (rules both.2) u →
           x ∈ SafetyRules.history_of (rules w) u.
Proof.
  intros Hdry stop both.
  destruct (stop_instance_dry instance_name zone user_email w Hdry) as [Hc Hh].
  fold stop in Hc, Hh.
  assert (∃ tail, calls both.2 = calls w ++ tail
                  ∧ forallb is_instance_get tail = true
                  ∧ ∀ u x, x ∈ SafetyRules.history_of (rules both.2) u →
                           x ∈ SafetyRules.history_of (rules w) u)
    as (tail & Hc2 & Ht2 & Hh2).
  { unfold both. unfold snapshot_and_stop, bind, get_instance, request. simpl.
    destruct (instances_get _ _ _ _ _) as [inst|]; simpl; [|by eexists].
    fold (get_logged self zone instance_name w).
    pose proof (snapshot_disks_dry zone (disks inst) []
                  (get_logged self zone instance_name w) Hdry) as Hw.
    destruct (snapshot_disks _ _ _ _ _ _) as [[[msg sn]|sn] w2]; simpl in *; subst.
    { by eexists. }
    destruct (stop_instance_dry instance_name zone user_email
                (get_logged self zone instance_name w) Hdry) as [Hc' Hh'].
    destruct (stop_instance cloud self instance_name zone user_email
                (get_logged self zone instance_name w)) as [[[ok m] sd] w3].
    simpl in *.
    exists [InstancesGet (project_id self) zone instance_name;
            InstancesGet (project_id self) zone instance_name].
    split; [|split; [done|]].
    - destruct ok; simpl; rewrite Hc'; by rewrite <- app_assoc.
    - destruct ok; simpl; exact Hh'. }
  split; [by eexists|]. split; [by eexists|].
  intros u x [H|H]; eauto.
Qed.

Lemma stop_instance_disk_gets instance_name zone user_email w :
  disk_gets (stop_instance cloud self instance_name zone user_email w).2 = disk_gets w.
Proof.
  unfold disk_gets.
  unfold stop_instance, bind, get_instance, request, now, with_rules, ret; simpl.
  destruct (instances_get _ _ _ _ _) as [inst|]; simpl;
    [|rewrite List.filter_app; simpl; by rewrite app_nil_r].
  destruct (SafetyRules.validate_action _ _ _ _ _ _ _) as [[[[] rsn] sd] r'];
    simpl; [|rewrite List.filter_app; simpl; by rewrite app_nil_r].
  destruct (String.eqb _ _); simpl;
    [rewrite List.filter_app; simpl; by rewrite app_nil_r|].
  destruct (dry_run self); simpl;
    [rewrite List.filter_app; simpl; by rewrite app_nil_r|].
  destruct (instances_stop _ _ _ _ _); simpl;
    rewrite !List.filter_app; simpl; by rewrite !app_nil_r.
Qed.

Lemma snapshot_disks_names zone sources : ∀ acc w done w2,
  snapshot_disks cloud self zone sources acc w = (inr done, w2) →
  map (λ e, e.1.1) done = map (λ e, e.1.1) acc ++ map disk_name_of sources.
Proof.
  induction sources as [|src rest IH]; intros acc w done w2 H; simpl in *.
  - unfold ret in H. inversion H; subst. by rewrite app_nil_r.
  - unfold bind in H.
    destruct (create_snapshot _ _ _ _ _ _) as [[[ok msg] d] w1].
    destruct ok; simpl in *; [|unfold ret in H; by inversion H].
    apply IH in H. rewrite H, map_app. simpl. by rewrite <- app_assoc.
Qed.

(** X13: when [snapshot_and_stop] reports success, the details list one
    successful snapshot for every attached disk, in the order of the disks
    and under their last path segments, and carry the result of the stop;
    outside dry-run as many disks were asked for as the instance has. *)
Theorem snapshot_and_stop_success_covers_every_disk
    instance_name zone user_email w instance :
  instances_get cloud (calls w) (project_id self) zone instance_name
    = Some instance →
  let run := snapshot_and_stop cloud self instance_name zone user_email w in
  run.1.1.1 = true →
  run.1.1.2 = "Snapshots created and instance " +:+ instance_name +:+ " stopped"
  ∧ map (λ e, e.1.1) (snapshots run.1.2) = map disk_name_of (disks instance)
  ∧ Forall (λ e, e.1.2 = true) (snapshots run.1.2)
  ∧ is_Some (stop_result run.1.2)
  ∧ (dry_run self = false →
     disk_gets run.2 = (disk_gets w + length (disks instance))%nat).
Proof.
  intros Hget run. unfold run.
  rewrite (snapshot_and_stop_after_loop _ _ _ _ _ _ _ Hget).
  destruct (snapshot_disks _ _ _ _ _ _) as [[[msg sn]|sn] w2] eqn:Hloop; [done|].
  pose proof (stop_instance_disk_gets instance_name zone user_email w2) as Hdg.
  destruct (stop_instance _ _ _ _ _ _) as [[[ok m] sd] w3]. simpl in *.
  intros ->. split; [done|].
  apply snapshot_disks_names in Hloop as Hnames.
  apply snapshot_disks_all_succeeded in Hloop as Hall.
  destruct Hall as (new & -> & _ & Hall). simpl in *.
  split; [done|]. split; [done|]. split; [by eexists|].
  intros Hdry. rewrite Hdg.
  rewrite (snapshot_disks_disk_gets _ _ _ _ _ _ _ _ Hdry Hloop).
  unfold disk_gets, get_logged; simpl.
  rewrite List.filter_app, length_app; simpl. lia.
Qed.

End ExecutorMore.

Section ExecutorMoreScenarios.
Import GCPExecutor Log Notions Example.

(** The stop of [web-1] under the default configuration. *)
Lemma stop_request_needs_policy_pass_witness :
  let cloud := cloud_with web_vm [] (inl "operation-stop") in
  let run := stop_instance cloud (init config) "web-1" zone actor (world0 config) in
  dry_run (init config) = false
  ∧ ∃ instance,
      instances_get cloud [] "demo-project" zone "web-1" = Some instance
      ∧ status instance ≠ "TERMINATED".
Proof.
  intros cloud run.
  destruct (stop_request_needs_policy_pass cloud (init config) "web-1" zone actor
              (world0 config)) as (Hdry & inst & Hget & Hst & _).
  { vm_compute. discriminate. }
  split; [exact Hdry|]. exists inst. split; [exact Hget | exact Hst].
Defined.

(** The same stop, and the entry it leaves in the window of the actor. *)
Lemma real_stop_is_recorded_once_witness :
  let cloud := cloud_with web_vm [] (inl "operation-stop") in
  let run := stop_instance cloud (init config) "web-1" zone actor (world0 config) in
  run.1.1 = (true, "Instance web-1 stopped successfully")
  ∧ SafetyRules.history_of (rules run.2) actor = [t0 + 2 * 1000000].
Proof.
  intros cloud run.
  destruct (real_stop_is_recorded_once cloud (init config) "web-1" zone actor
              (world0 config) web_vm) as (_ & Hr & Hh);
    [reflexivity | reflexivity | discriminate | vm_compute; reflexivity |].
  split; [exact Hr|]. etransitivity; [exact Hh|]. vm_compute. reflexivity.
Defined.

(** The dry run of a snapshot and stop of [web-1]. *)
Lemma dry_run_sends_only_lookups_witness :
  let c := with_dry_run config in
  let cloud := cloud_with web_vm [] (inl "operation-stop") in
  let both := snapshot_and_stop cloud (init c) "web-1" zone actor (world0 c) in
  ∃ tail, calls both.2 = calls (world0 c) ++ tail
          ∧ forallb is_instance_get tail = true.
Proof.
  intros c cloud both.
  exact (proj1 (proj2 (dry_run_sends_only_lookups cloud (init c) "web-1" zone actor
                         (world0 c) eq_refl))).
Defined.

(** The snapshot and stop of [web-1] with its two disks. *)
Lemma snapshot_and_stop_success_covers_every_disk_witness :
  let cloud := cloud_with web_vm [] (inl "operation-stop") in
  let run := snapshot_and_stop cloud (init config) "web-1" zone actor
               (world0 config) in
  map (λ e, e.1.1) (snapshots run.1.2) = ["disk-1"; "disk-2"]
  ∧ disk_gets run.2 = 2%nat.
Proof.
  intros cloud run.
  destruct (snapshot_and_stop_success_covers_every_disk cloud (init config) "web-1"
              zone actor (world0 config) web_vm)
    as (_ & Hn & _ & _ & Hd); [reflexivity | vm_compute; reflexivity |].
  split; [exact Hn | exact (Hd eq_refl)].
Defined.

End ExecutorMoreScenarios.

(** ** The last segment of a path *)
Section SegmentFacts.
Import GCPExecutor.

Lemma last_item_snoc xs c : Py.last_item (xs ++ [c]) = c.
Proof. unfold Py.last_item. apply List.last_last. Qed.

Lemma last_item_split sep s :
  Py.has_char sep (Py.last_item (Py.split sep s)) = false
  ∧ ∃ pre, s = pre +:+ Py.last_item (Py.split sep s).
Proof.
  destruct (exists_last (split_nonempty sep s)) as (xs & c & E).
  rewrite E, last_item_snoc. destruct xs as [|x xs].
  - apply split_singleton in E as [Hs Hc]. split; [done|]. by exists "".
  - apply split_last_inv in E as (s' & Hs & Hc & _); [|done].
    split; [done|]. exists (s' +:+ String sep ""). rewrite Hs.
    clear. induction s' as [|a s' IH]; [done|]. exact (f_equal (String a) IH).
Qed.

(** X14: the disk name taken from a source URL is its last path segment:
    it holds no slash and the URL ends with it; a source without a slash is
    its own name, and [prefix/name] gives [name]. *)
Theorem disk_name_is_last_segment (source : string) :
  Py.has_char "/" (disk_name_of source) = false
  ∧ (∃ pre, source = pre +:+ disk_name_of source)
  ∧ (Py.has_char "/" source = false → disk_name_of source = source)
  ∧ ∀ pre name, Py.has_char "/" name = false →
      disk_name_of (pre +:+ "/" +:+ name) = name.
Proof.
  unfold disk_name_of.
  destruct (last_item_split "/" source) as [Hno Hpre].
  split; [done|]. split; [done|]. split.
  - intros H. by rewrite split_no_sep.
  - intros pre name H. change (pre +:+ "/" +:+ name) with (pre +:+ String "/" name).
    rewrite split_snoc by done. apply last_item_snoc.
Qed.
End SegmentFacts.

(** ** Capability tokens: the validity window and the signing secret *)
Section TokenMore.
Import JWTHandler Wire.
Variable P : Primitives.
Variables (config : Config) (generated : string) (now : Z) (jti : string).
Variables (resource_id action project_id resource_type : string).
Variables (estimated_savings : Q) (user_email : option string).

Let self := init config generated.
Let payload := token_payload P self now jti resource_id action project_id
                 resource_type estimated_savings user_email.
Let token := generate_token P self now jti resource_id action project_id
               resource_type estimated_savings user_email.

Lemma timegm_plus_hours h : timegm (now + h * hour) = timegm now + 3600 * h.
Proof.
  unfold timegm, hour.
  replace (now + h * (3600 * 1000000)) with (now + (3600 * h) * 1000000) by lia.
  by rewrite Z.div_add.
Qed.

(** X15: the validity window of an issued token. Its "iat" claim is the
    issue time floored to whole seconds and its "exp" claim lies exactly
    JWT_EXPIRATION_HOURS hours after "iat". Validation fails as Invalid
    before the second of issue (a verifier whose clock runs behind), as
    Expired from "exp" on, and returns the serialised claims in between;
    provided the codecs carry the token. *)
Theorem issued_token_validity_window later :
  carries P (secret self) payload →
  let iat := timegm now in
  let exp := iat + 3600 * JWT_EXPIRATION_HOURS config in
  encode_claims payload !! "iat" = Some (VInt iat)
  ∧ encode_claims payload !! "exp" = Some (VInt exp)
  ∧ validate_token P self later token
    = if later <? iat * 1000000 then Raises InvalidTokenError
      else if exp * 1000000 <=? later then Raises ExpiredSignatureError
      else Returns (encode_claims payload).
Proof.
  intros Hc iat exp.
  assert (timegm (now + expiry_hours self * hour) = exp) as Hexp.
  { apply timegm_plus_hours. }
  split; [done|]. split.
  { change (encode_claims payload !! "exp")
      with (Some (VInt (timegm (now + expiry_hours self * hour)))).
    by rewrite Hexp. }
  unfold token, self.
  rewrite (issued_token_decoded P config generated now jti resource_id action
             project_id resource_type estimated_savings user_email later Hc).
  rewrite (issued_claims_checked P config generated now jti resource_id action
             project_id resource_type estimated_savings user_email later).
  fold self. rewrite Hexp. fold iat.
  destruct (later <? _); [done|]. by destruct (_ <=? later).
Qed.

(** X16: a token issued under one secret is refused as Invalid by a
    handler that holds another secret, at any time, whenever the HMAC of
    the token's signing input under the other secret differs from its
    signature. With no JWT_SECRET configured the secret is drawn anew at
    every start, so tokens issued before a restart are refused after it. *)
Theorem token_of_another_secret_is_invalid (other : t) later :
  carries P (secret self) payload →
  signature_of P (secret other) (header_segment P "HS256") (payload_segment P payload)
    ≠ signature_of P (secret self) (header_segment P "HS256")
        (payload_segment P payload) →
  validate_token P other later token = Raises InvalidTokenError.
Proof.
  intros ((Hhj & Hhb & Hhd) & (Hpj & Hpb & Hpd) & (Hsb & Hsd)) Hmac.
  unfold validate_token, token, generate_token. fold payload.
  change (algorithm self) with "HS256"%string.
  rewrite jwt_encode_compact, jwt_decode_compact by done.
  remember (secret self) as key eqn:Hkey. clear Hkey.
  remember (secret other) as key' eqn:Hkey'. clear Hkey'.
  unfold header_segment, payload_segment, signature_of in *.
  rewrite Hhb, Hpb, Hsb. cbn [mbind option_bind]. rewrite Hhj.
  change (jose_header "HS256" !! "alg") with (Some (VStr "HS256")). cbv iota beta.
  apply not_eq_sym, String.eqb_neq in Hmac. rewrite Hmac.
  by rewrite !andb_false_r.
Qed.
End TokenMore.

Section TokenMoreScenarios.
Import JWTHandler Wire Example Scenario.

(** The stop token one second before its issue, one microsecond before
    its expiry, and at its expiry. *)
Lemma issued_token_validity_window_witness :
  validate_token P handler (t0 - 1000000) stop_token = Raises InvalidTokenError
  ∧ validate_token P handler (t0 + 4 * hour - 1) stop_token = Returns stop_claims
  ∧ validate_token P handler (t0 + 4 * hour) stop_token = Raises ExpiredSignatureError.
Proof.
  pose proof (λ later, issued_token_validity_window P config "unused" t0 "jti-0001"
                "web-1" "stop" "demo-project" "instance" (25 # 2) (Some actor) later
                example_carries) as H.
  split; [|split].
  - exact (proj2 (proj2 (H (t0 - 1000000)))).
  - exact (proj2 (proj2 (H (t0 + 4 * hour - 1)))).
  - exact (proj2 (proj2 (H (t0 + 4 * hour)))).
Defined.

(** The stop token shown to a handler that holds another secret. *)
Lemma token_of_another_secret_is_invalid_witness :
  validate_token P other_handler (t0 + hour) stop_token = Raises InvalidTokenError.
Proof.
  apply (token_of_another_secret_is_invalid P config "unused" t0 "jti-0001"
           "web-1" "stop" "demo-project" "instance" (25 # 2) (Some actor)).
  - exact example_carries.
  - vm_compute. discriminate.
Defined.

End TokenMoreScenarios.

(** ** Anomaly detector: what the verdict depends on *)
Section DetectorMore.
Import BaselineTracker.
Variable sqrt : Q → Q.

Lemma recent_of_state self :
  take 7 (map daily_spend (st_daily_spend self))
  = map daily_spend (take 7 (st_daily_spend self)).
Proof. symmetry. apply fmap_take. Qed.

(** X17: [detect_anomaly] reads the seven most recent rows of the baseline
    and nothing else: two baselines that agree on them give the same
    verdict for every spend, whatever older rows and update stamps they
    hold. *)
Theorem detection_reads_seven_most_recent config self self' current_spend :
  take 7 (st_daily_spend self) = take 7 (st_daily_spend self') →
  detect_anomaly sqrt config self current_spend
  = detect_anomaly sqrt config self' current_spend.
Proof.
  intros H. unfold detect_anomaly. rewrite !recent_of_state, H.
  destruct (st_daily_spend self) as [|r rs], (st_daily_spend self') as [|r' rs'];
    done.
Qed.

Lemma Qsum_bounds (lo hi : Q) l :
  Forall (λ x, lo <= x ∧ x <= hi)%Q l →
  (inject_Z (Z.of_nat (length l)) * lo <= Qsum l
   ∧ Qsum l <= inject_Z (Z.of_nat (length l)) * hi)%Q.
Proof.
  induction 1 as [|x l [Hlo Hhi] _ [IHlo IHhi]]; simpl length.
  - simpl. split; rewrite Qmult_0_l; apply Qle_refl.
  - rewrite Nat2Z.inj_succ, <- Z.add_1_r, inject_Z_plus. simpl Qsum.
    split.
    + setoid_replace ((inject_Z (Z.of_nat (length l)) + inject_Z 1) * lo)%Q
        with (lo + inject_Z (Z.of_nat (length l)) * lo)%Q using relation Qeq by ring.
      by apply Qplus_le_compat.
    + setoid_replace ((inject_Z (Z.of_nat (length l)) + inject_Z 1) * hi)%Q
        with (hi + inject_Z (Z.of_nat (length l)) * hi)%Q using relation Qeq by ring.
      by apply Qplus_le_compat.
Qed.

(** The mean of a non-empty list lies between any bounds of its items. *)
Lemma mean_bounds (lo hi : Q) l :
  l ≠ [] → Forall (λ x, lo <= x ∧ x <= hi)%Q l → (lo <= mean l ∧ mean l <= hi)%Q.
Proof.
  intros Hne Hall. destruct (Qsum_bounds lo hi l Hall) as [Hlo Hhi].
  assert (0 < inject_Z (Z.of_nat (length l)))%Q as Hpos.
  { change 0%Q with (inject_Z 0). rewrite <- Zlt_Qlt. destruct l; [done|simpl; lia]. }
  unfold mean. split.
  - apply Qle_shift_div_l; [done|]. by rewrite Qmult_comm.
  - apply Qle_shift_div_r; [done|]. by rewrite Qmult_comm.
Qed.

Lemma Qgtb_trans_le a b c : Qgtb a c = true → (a <= b)%Q → Qgtb b c = true.
Proof.
  rewrite !Qgtb_true. intros H1 H2. eapply Qlt_le_trans; eauto.
Qed.

(** X18: the alert decision is monotone in the spend: when a spend is
    flagged against a baseline, every larger spend is flagged against it
    too; for every square root that is never negative. *)
Theorem anomaly_is_monotone_in_spend config self (x y : Q) :
  (∀ v, 0 <= sqrt v)%Q →
  (x <= y)%Q →
  is_anomaly (detect_anomaly sqrt config self x) = true →
  is_anomaly (detect_anomaly sqrt config self y) = true.
Proof.
  intros Hsqrt Hxy. unfold detect_anomaly.
  destruct (st_daily_spend self) as [|r rs] eqn:E; [done|]. rewrite <- E.
  set (l := take 7 _). destruct (length l <? 3)%nat; [done|]. simpl.
  set (std := if (1 <? length l)%nat then stdev sqrt l else 0%Q).
  assert (0 <= std)%Q as Hstd.
  { unfold std, stdev. destruct (_ <? _)%nat; [apply Hsqrt | apply Qle_refl]. }
  destruct (Qeq_bool std 0) eqn:Ez.
  - destruct (Qgtb x (mean l)) eqn:Ex.
    + by rewrite (Qgtb_trans_le _ _ _ Ex Hxy).
    + intros H0. destruct (Qgtb y (mean l)); [|done].
      apply Qgtb_true. apply Qgtb_true in H0.
      eapply Qlt_trans; [exact H0 | done].
  - intros H. eapply Qgtb_trans_le; [exact H|].
    apply Qeq_bool_neq in Ez.
    assert (0 < std)%Q as Hpos.
    { apply Qle_lteq in Hstd as [?|Heq]; [done|]. by symmetry in Heq. }
    apply Qle_shift_div_l; [done|].
    unfold Qdiv. rewrite <- Qmult_assoc, (Qmult_comm (/ std)), Qmult_inv_r, Qmult_1_r.
    + unfold Qminus. apply Qplus_le_compat; [done | apply Qle_refl].
    + intros Heq. by apply Ez.
Qed.

(** X19: a spend that is no larger than any of the seven most recent days
    is never flagged, for every sensitivity threshold that is not negative
    and every square root that is never negative. *)
Theorem spend_below_recent_days_is_normal config self (x : Q) :
  (∀ v, 0 <= sqrt v)%Q →
  (0 <= ANOMALY_SENSITIVITY config)%Q →
  Forall (λ s, x <= s)%Q (recent_spends self) →
  is_anomaly (detect_anomaly sqrt config self x) = false.
Proof.
  intros Hsqrt HT Hall. unfold detect_anomaly, recent_spends in *.
  destruct (st_daily_spend self) as [|r rs] eqn:E; [done|]. rewrite <- E in *.
  set (l := take 7 _) in *. clearbody l.
  destruct (Nat.ltb_spec (length l) 3) as [|Hlen]; [done|]. simpl.
  assert (x <= mean l)%Q as Hx.
  { assert (∃ hi, Forall (λ s, x <= s ∧ s <= hi)%Q l) as [hi Hb].
    { clear -Hall. induction Hall as [|s l Hs _ [hi IH]].
      - by exists 0%Q.
      - destruct (Qlt_le_dec hi s) as [Hlt|Hle].
        + exists s. constructor; [split; [done|apply Qle_refl]|].
          eapply Forall_impl; [exact IH|]. simpl. intros z [? ?]. split; [done|].
          eapply Qle_trans; [eassumption|]. by apply Qlt_le_weak.
        + exists hi. constructor; [done|]. done. }
    apply (mean_bounds x hi l); [|done]. intros ->. simpl in Hlen. lia. }
  set (std := if (1 <? length l)%nat then stdev sqrt l else 0%Q).
  assert (0 <= std)%Q as Hstd.
  { unfold std, stdev. destruct (_ <? _)%nat; [apply Hsqrt | apply Qle_refl]. }
  apply Qgtb_false.
  destruct (Qeq_bool std 0) eqn:Ez.
  - apply Qgtb_false in Hx. by rewrite Hx.
  - apply Qeq_bool_neq in Ez.
    assert (0 < std)%Q as Hpos.
    { apply Qle_lteq in Hstd as [?|Heq]; [done|]. by symmetry in Heq. }
    eapply Qle_trans; [|exact HT].
    apply Qle_shift_div_r; [done|]. rewrite Qmult_0_l.
    unfold Qminus. rewrite <- (Qplus_opp_r (mean l)).
    apply Qplus_le_compat; [done | apply Qle_refl].
Qed.

(** X20: the severity of a verdict follows the sensitivity threshold. A
    verdict that is no anomaly has severity "normal" or "unknown". An
    anomaly is never graded "low" under a threshold of 2 or more, is graded
    "high" or "critical" under a threshold of 2.5 or more (the default), and
    is always "critical" under a threshold of 3 or more. *)
Theorem anomaly_severity_follows_threshold config self (x : Q) :
  let v := detect_anomaly sqrt config self x in
  let T := ANOMALY_SENSITIVITY config in
  (is_anomaly v = false → severity v = "normal" ∨ severity v = "unknown")
  ∧ (is_anomaly v = true →
     severity v ∈ ["low"; "medium"; "high"; "critical"]
     ∧ (2 <= T → severity v ≠ "low")%Q
     ∧ (5 # 2 <= T → severity v = "high" ∨ severity v = "critical")%Q
     ∧ (3 <= T → severity v = "critical")%Q).
Proof.
  intros v T. unfold v, detect_anomaly.
  destruct (st_daily_spend self) as [|r rs] eqn:E; [by split; [right|]|].
  rewrite <- E. set (l := take 7 _).
  destruct (length l <? 3)%nat; [by split; [right|]|]. simpl.
  set (z := if Qeq_bool _ 0 then _ else _). fold T.
  destruct (Qgtb z T) eqn:Ez; simpl; (split; [by auto|]); [|done].
  intros _. apply Qgtb_true in Ez.
  assert (∀ c : Q, (c <= T)%Q → Qgtb z c = true) as Hgt.
  { intros c Hc. apply Qgtb_true. eapply Qle_lt_trans; eauto. }
  split; [|split; [|split]].
  - destruct (Qgtb z 3); [do 3 right; left|].
    destruct (Qgtb z (5 # 2)); [do 2 right; left|].
    destruct (Qgtb z 2); [right; left | left].
  - intros H2. destruct (Qgtb z 3); [done|]. destruct (Qgtb z (5 # 2)); [done|].
    by rewrite (Hgt 2%Q H2).
  - intros H. destruct (Qgtb z 3); [by right|]. rewrite (Hgt (5 # 2)%Q H). by left.
  - intros H. by rewrite (Hgt 3%Q H).
Qed.

(** X21: [get_day_of_week_baseline] answers [None] when fewer than two
    rows of the baseline fall on the weekday asked for, and their mean
    otherwise; the mean lies between any bounds of the spend of those
    rows. *)
Theorem day_of_week_baseline_is_a_mean self dow :
  let matching := List.filter (λ item, day_of_week item =? dow) (st_daily_spend self) in
  get_day_of_week_baseline self dow
  = (if (length matching <? 2)%nat then None
     else Some (mean (map daily_spend matching)))
  ∧ ∀ m (lo hi : Q),
      get_day_of_week_baseline self dow = Some m →
      Forall (λ item, day_of_week item = dow →
                      lo <= daily_spend item ∧ daily_spend item <= hi)%Q
             (st_daily_spend self) →
      (lo <= m ∧ m <= hi)%Q.
Proof.
  intros matching.
  assert (get_day_of_week_baseline self dow
          = if (length matching <? 2)%nat then None
            else Some (mean (map daily_spend matching))) as Heq.
  { unfold get_day_of_week_baseline, matching.
    rewrite length_map. by destruct (st_daily_spend self). }
  split; [done|]. intros m lo hi. rewrite Heq.
  destruct (Nat.ltb_spec (length matching) 2) as [|Hlen]; [done|].
  intros [= <-] Hall. apply mean_bounds.
  - destruct matching; [simpl in Hlen; lia | done].
  - apply Forall_fmap. unfold matching. apply Forall_forall. intros item Hin.
    apply list_elem_of_In, filter_In in Hin as [Hin Hd].
    rewrite Forall_forall in Hall. apply Hall; [by apply list_elem_of_In | lia].
Qed.

End DetectorMore.

Section DetectorMoreScenarios.
Import BaselineTracker Example Scenario.

Lemma sqrt6_nonneg x : (0 <= sqrt6 x)%Q.
Proof.
  unfold sqrt6, Qle. simpl. pose proof (Z.sqrt_nonneg (Qnum x * Z.pos (Qden x) * 10 ^ 12)).
  lia.
Qed.

(** A day of 500 dollars behind the week does not change the verdict. *)
Lemma detection_reads_seven_most_recent_witness :
  detect_anomaly sqrt6 config week_and_older 20
  = detect_anomaly sqrt6 config week 20.
Proof.
  apply (detection_reads_seven_most_recent sqrt6 config week_and_older week 20).
  reflexivity.
Defined.

(** Against the week, 20 dollars are flagged, hence 30 dollars too. *)
Lemma anomaly_is_monotone_in_spend_witness :
  is_anomaly (detect_anomaly sqrt6 config week 30) = true.
Proof.
  apply (anomaly_is_monotone_in_spend sqrt6 config week 20 30).
  - exact sqrt6_nonneg.
  - vm_compute. discriminate.
  - vm_compute. reflexivity.
Defined.

(** Against the week, 9 dollars are below every day. *)
Lemma spend_below_recent_days_is_normal_witness :
  is_anomaly (detect_anomaly sqrt6 config week 9) = false.
Proof.
  apply (spend_below_recent_days_is_normal sqrt6 config week 9).
  - exact sqrt6_nonneg.
  - vm_compute. discriminate.
  - repeat constructor; vm_compute; discriminate.
Defined.

End DetectorMoreScenarios.

(** ** The execution endpoint *)
Section EndpointFacts.
Import JWTHandler GCPExecutor Main Endpoint.
Context (P : Primitives) (jwt_handler : JWTHandler.t) (cloud : Cloud)
        (gcp_executor : GCPExecutor.t).

(** X22: a request changes the world (the log of cloud requests or the
    policy state) only if its path action is "stop" or "snapshot" and its
    token validates at the time of the request. An unknown action, a token
    that is refused, and "ignore" leave everything as it was. (Runs on
    claims of other types than [str] are set aside.) *)
Theorem only_stop_and_snapshot_touch_the_world action token confirm w :
  let run := execute_action P jwt_handler cloud gcp_executor action token confirm w in
  run.1 ≠ Untyped →
  run.2 ≠ w →
  (action = "stop" ∨ action = "snapshot")
  ∧ ∃ payload resource_id,
      validate_token P jwt_handler (utcnow cloud (calls w)) token = Returns payload
      ∧ payload !! "resource_id" = Some (VStr resource_id).
Proof.
  intros run. unfold run, execute_action.
  destruct (Py.str_in action valid_actions) eqn:Ea; simpl; [|done].
  unfold bind, now, ret, validate_or_respond.
  destruct (validate_token _ _ _ _) as [payload|[]]; simpl; try done.
  destruct (payload !! "resource_id") as [[]|] eqn:Er; simpl; try done.
  destruct (String.eqb_spec action "ignore") as [->|Hi]; [done|].
  intros _ _. split; [|by eauto].
  unfold Py.str_in, valid_actions in Ea. simpl in Ea.
  destruct (String.eqb_spec action "stop"); [by left|].
  destruct (String.eqb_spec action "snapshot"); [by right|].
  destruct (String.eqb_spec action "ignore"); done.
Qed.

(** X23: of the claims of a valid token, [execute_action] reads
    "resource_id" and "user_email" only. Two tokens that validate and agree
    on these two claims lead to the same response and the same world under
    the same path action, whatever their "action", "project_id",
    "estimated_savings" and other claims, and whatever [confirm] is: the
    action performed is the one named in the path, not the one the token
    was issued for. *)
Theorem claims_beyond_resource_and_user_are_not_read
    action token token' confirm confirm' w payload payload' :
  validate_token P jwt_handler (utcnow cloud (calls w)) token = Returns payload →
  validate_token P jwt_handler (utcnow cloud (calls w)) token' = Returns payload' →
  payload !! "resource_id" = payload' !! "resource_id" →
  payload !! "user_email" = payload' !! "user_email" →
  execute_action P jwt_handler cloud gcp_executor action token confirm w
  = execute_action P jwt_handler cloud gcp_executor action token' confirm' w.
Proof.
  intros Hv Hv' Hr Hu. unfold execute_action.
  destruct (Py.str_in action valid_actions); simpl; [|done].
  unfold bind, now, validate_or_respond. rewrite Hv, Hv', Hr, Hu. done.
Qed.

(** X25: a stop that the policy engine refuses is answered with status 400
    and the "Action Failed" page whose message is the reason of the policy
    engine, verbatim; the only request sent is the lookup of the instance. *)
Theorem blocked_stop_answers_400
    token confirm w payload resource_id user_email instance :
  validate_token P jwt_handler (utcnow cloud (calls w)) token = Returns payload →
  payload !! "resource_id" = Some (VStr resource_id) →
  payload !! "user_email" = Some (VStr user_email) →
  let instance_name := (parse_resource_id resource_id).1 in
  let zone := (parse_resource_id resource_id).2 in
  instances_get cloud (calls w) (project_id gcp_executor) zone instance_name
    = Some instance →
  let verdict :=
    SafetyRules.validate_action (rules w)
      (utcnow cloud (calls (Log.get_logged gcp_executor zone instance_name w)))
      "stop" instance_name (labels instance) user_email 0 in
  Runs.allowed verdict = false →
  let run := execute_action P jwt_handler cloud gcp_executor "stop" token confirm w in
  run.1 = HTMLResponse {| content := (ErrorPage, "Action Failed", Runs.reason verdict);
                          status_code := 400 |}
  ∧ calls run.2
    = calls w ++ [InstancesGet (project_id gcp_executor) zone instance_name].
Proof.
  intros Hv Hr Hu instance_name zone Hget verdict Hblocked run.
  unfold run, execute_action. simpl.
  unfold bind, now, validate_or_respond. rewrite Hv, Hr, Hu. simpl.
  fold instance_name zone.
  destruct (parse_resource_id resource_id) as [n z] eqn:Ep. simpl in *.
  subst instance_name zone.
  unfold stop_instance, bind, get_instance, request, now, with_rules, ret. simpl.
  rewrite Hget. unfold Runs.allowed, Runs.reason, verdict, Log.get_logged in *.
  simpl in *.
  destruct (SafetyRules.validate_action _ _ _ _ _ _ _) as [[[ok rsn] sd] r'].
  simpl in *. subst ok. done.
Qed.
End EndpointFacts.

Section ResourceIds.
Import Endpoint.

Lemma startswith_app p s : Str.startswith p (p +:+ s) = true.
Proof.
  induction p as [|a p IH]; simpl; [done|]. by rewrite Ascii.eqb_refl, IH.
Qed.

Lemma contains_prefix needle s : Str.contains needle (needle +:+ s) = true.
Proof.
  destruct (needle +:+ s) eqn:E; simpl; rewrite <- E, startswith_app; done.
Qed.

Lemma contains_suffix needle pre s :
  Str.contains needle s = true → Str.contains needle (pre +:+ s) = true.
Proof.
  intros H. induction pre as [|c pre IH]; [done|].
  change (String c pre +:+ s) with (String c (pre +:+ s)).
  simpl. rewrite IH. apply orb_true_r.
Qed.

Lemma has_char_app c a b : Py.has_char c (a +:+ String c b) = true.
Proof.
  induction a as [|x a IH]; simpl; [by rewrite Ascii.eqb_refl|].
  rewrite IH. apply orb_true_r.
Qed.

Lemma split_two sep s : Py.has_char sep s = true → (2 ≤ length (Py.split sep s))%nat.
Proof.
  induction s as [|c r IH]; simpl; [done|].
  destruct (Ascii.eqb c sep); simpl.
  - intros _. pose proof (split_nonempty sep r).
    destruct (Py.split sep r); [done|simpl; lia].
  - intros H. specialize (IH H). destruct (Py.split sep r); simpl in *; lia.
Qed.

(** X24: how [execute_action] reads a resource identifier. A name without
    a slash is the instance, in the default zone us-central1-a.
    "zones/Z/instances/N" gives instance N in zone Z. The full path
    "projects/P/zones/Z/instances/N" gives instance N with the project P
    as its zone, since the zone is taken from the second segment. A path
    that does not mention "zones" gives its last segment in the default
    zone. The second segment exists whenever there is a slash. *)
Theorem resource_id_parsing :
  (∀ name, Py.has_char "/" name = false →
     parse_resource_id name = (name, "us-central1-a"))
  ∧ (∀ zone name, Py.has_char "/" zone = false → Py.has_char "/" name = false →
       parse_resource_id ("zones/" +:+ zone +:+ "/instances/" +:+ name)
       = (name, zone))
  ∧ (∀ project zone name,
       Py.has_char "/" project = false → Py.has_char "/" zone = false →
       Py.has_char "/" name = false →
       parse_resource_id ("projects/" +:+ project +:+ "/zones/" +:+ zone
                          +:+ "/instances/" +:+ name)
       = (name, project))
  ∧ (∀ pre name, Str.contains "zones" (pre +:+ "/" +:+ name) = false →
       Py.has_char "/" name = false →
       parse_resource_id (pre +:+ "/" +:+ name) = (name, "us-central1-a"))
  ∧ (∀ resource_id, Py.has_char "/" resource_id = true →
       (2 ≤ length (Py.split "/" resource_id))%nat).
Proof.
  split; [|split; [|split; [|split]]].
  - intros name H. unfold parse_resource_id. by rewrite H.
  - intros zone name Hz Hn. unfold parse_resource_id.
    change ("zones/" +:+ zone +:+ "/instances/" +:+ name)
      with ("zones" +:+ String "/" (zone +:+ String "/" ("instances" +:+ String "/" name))).
    rewrite has_char_app.
    rewrite (contains_prefix "zones").
    rewrite (split_app "/" "zones") by done.
    rewrite (split_app "/" zone) by done.
    rewrite (split_app "/" "instances") by done.
    by rewrite (split_no_sep "/" name).
  - intros project zone name Hp Hz Hn. unfold parse_resource_id.
    change ("projects/" +:+ project +:+ "/zones/" +:+ zone +:+ "/instances/" +:+ name)
      with ("projects" +:+ String "/" (project +:+ String "/" ("zones" +:+
              String "/" (zone +:+ String "/" ("instances" +:+ String "/" name))))).
    rewrite has_char_app.
    replace (Str.contains "zones" _) with true.
    2:{ symmetry. apply (contains_suffix "zones" "projects/").
        apply (contains_suffix "zones" project).
        apply (contains_suffix "zones" "/"). apply contains_prefix. }
    rewrite (split_app "/" "projects") by done.
    rewrite (split_app "/" project) by done.
    rewrite (split_app "/" "zones") by done.
    rewrite (split_app "/" zone) by done.
    rewrite (split_app "/" "instances") by done.
    by rewrite (split_no_sep "/" name).
  - intros pre name Hc Hn. unfold parse_resource_id.
    change (pre +:+ "/" +:+ name) with (pre +:+ String "/" name) in *.
    rewrite has_char_app, Hc, split_snoc by done.
    unfold Py.last_item. by rewrite List.last_last.
  - intros resource_id. apply split_two.
Qed.
End ResourceIds.

Section EndpointScenarios.
Import JWTHandler GCPExecutor Main Endpoint Example Scenario.

(** The stop link of [web-1], clicked at once. *)
Lemma only_stop_and_snapshot_touch_the_world_witness :
  let cloud := cloud_with web_vm [] (inl "operation-stop") in
  ∃ payload resource_id,
    validate_token P handler (utcnow cloud []) stop_token = Returns payload
    ∧ payload !! "resource_id" = Some (VStr resource_id).
Proof.
  intros cloud.
  apply (only_stop_and_snapshot_touch_the_world P handler cloud (init config)
           "stop" stop_token false (world0 config)).
  - intros H. vm_compute in H. discriminate.
  - intros H. apply (f_equal calls) in H. vm_compute in H. discriminate.
Defined.

(** The token of the "Ignore" link, sent to the path of "stop": the
    instance is stopped, as with the token of the "Stop" link. *)
Lemma claims_beyond_resource_and_user_are_not_read_witness :
  let cloud := cloud_with web_vm [] (inl "operation-stop") in
  let run := execute_action P handler cloud (init config) "stop" ignore_token false
               (world0 config) in
  run = execute_action P handler cloud (init config) "stop" stop_token true
          (world0 config)
  ∧ calls run.2 = [InstancesGet "demo-project" zone "web-1";
                   InstancesStop "demo-project" zone "web-1"].
Proof.
  intros cloud run. split; [|by_evaluation].
  apply (claims_beyond_resource_and_user_are_not_read P handler cloud (init config)
           "stop" ignore_token stop_token false true (world0 config)
           ignore_claims stop_claims); by_evaluation.
Defined.

(** The stop link of the production instance. *)
Lemma blocked_stop_answers_400_witness :
  let cloud := cloud_with prod_vm [] (inl "operation-stop") in
  let run := execute_action P handler cloud (init config) "stop" prod_token false
               (world0 config) in
  run.1 = HTMLResponse
            {| content := (ErrorPage, "Action Failed",
                           "Resource has blocklisted label value: production");
               status_code := 400 |}
  ∧ calls run.2 = [InstancesGet "demo-project" zone "prod-1"].
Proof.
  intros cloud run.
  apply (blocked_stop_answers_400 P handler cloud (init config) prod_token false
           (world0 config) prod_claims "prod-1" actor prod_vm); by_evaluation.
Defined.

End EndpointScenarios.

(** ** The check cycle *)
Section WatcherFacts.
Import JWTHandler BaselineTracker Watcher.
Variable sqrt : Q → Q.
Context (config : Config) (settings : AlertConfig)
        (bq : BillingDataClient.BigQuery) (billing_client : BillingDataClient.t).

(** X26: a check hands exactly one alert to the notifier when it reports
    an anomaly and none otherwise; it reports an anomaly exactly when the
    verdict in its details is one, and only with status "success". Spend
    above the budget threshold alone sends nothing. The report does not
    depend on the baseline stored before the check: the baseline is
    replaced by the fresh daily pattern before the detector runs. *)
Theorem alert_is_sent_exactly_on_anomaly timestamp stamp w :
  let run := run_check sqrt config settings bq billing_client timestamp stamp w in
  (∃ new, alerts run.2 = alerts w ++ new
          ∧ length new = if anomaly_detected run.1 then 1%nat else 0%nat)
  ∧ (anomaly_detected run.1 = true
     ↔ ∃ verdict, details_anomaly run.1 = Some verdict ∧ is_anomaly verdict = true)
  ∧ (anomaly_detected run.1 = true → status run.1 = "success")
  ∧ (anomaly_detected run.1 = false → alerts run.2 = alerts w)
  ∧ ∀ w', (run_check sqrt config settings bq billing_client timestamp stamp w').1
          = run.1.
Proof.
  intros run. unfold run, run_check.
  destruct (BillingDataClient.get_current_month_total _ _) as [e|total]; simpl.
  { split; [exists []; by rewrite app_nil_r|]. split; [|done].
    split; [done|]. by intros (v & [=] & _). }
  destruct (BillingDataClient.get_top_cost_contributors _ _) as [e|tops]; simpl.
  { split; [exists []; by rewrite app_nil_r|]. split; [|done].
    split; [done|]. by intros (v & [=] & _). }
  destruct (BillingDataClient.get_daily_spend_pattern _ _) as [e|pattern]; simpl.
  { split; [exists []; by rewrite app_nil_r|]. split; [|done].
    split; [done|]. by intros (v & [=] & _). }
  destruct (BillingDataClient.get_month_to_date_costs _ _) as [e|costs]; simpl.
  { split; [exists []; by rewrite app_nil_r|]. split; [|done].
    split; [done|]. by intros (v & [=] & _). }
  set (verdict := detect_anomaly _ _ _ _).
  assert (∀ w', detect_anomaly sqrt config
                     (update_baseline (baseline_tracker w') pattern stamp)
                     (Str.sum (map BillingDataClient.today_cost costs)) = verdict)
    as Hsame by done.
  destruct (is_anomaly verdict) eqn:Ea; simpl.
  - split; [by eexists|]. split; [split; [intros _; by exists verdict | done]|].
    split; [done|]. split; [done|].
    intros w'. by rewrite Hsame, Ea.
  - split; [exists []; by rewrite app_nil_r|]. split.
    { split; [done|]. intros (v & [= <-] & Hv). congruence. }
    split; [done|]. split; [done|]. intros w'. by rewrite Hsame, Ea.
Qed.

(** X27: every alert the check cycle sends names the resource "unknown".
    The resource is looked up under the keys "sku" and "service" of the top
    contributor, and the contributors that [get_top_cost_contributors]
    builds carry the keys "service_name", "total_cost" and
    "percentage_of_total" only. *)
Theorem alert_resource_is_always_unknown timestamp stamp w :
  let run := run_check sqrt config settings bq billing_client timestamp stamp w in
  ∃ new, alerts run.2 = alerts w ++ new
         ∧ Forall (λ alert, resource_id alert = VStr "unknown") new.
Proof.
  intros run. unfold run, run_check.
  destruct (BillingDataClient.get_current_month_total _ _) as [e|total]; simpl.
  { exists []. by rewrite app_nil_r. }
  destruct (BillingDataClient.get_top_cost_contributors _ _) as [e|tops] eqn:Et; simpl.
  { exists []. by rewrite app_nil_r. }
  destruct (BillingDataClient.get_daily_spend_pattern _ _) as [e|pattern]; simpl.
  { exists []. by rewrite app_nil_r. }
  destruct (BillingDataClient.get_month_to_date_costs _ _) as [e|costs]; simpl.
  { exists []. by rewrite app_nil_r. }
  destruct (is_anomaly _); simpl; [|exists []; by rewrite app_nil_r].
  eexists. split; [reflexivity|]. constructor; [|done]. simpl.
  unfold BillingDataClient.get_top_cost_contributors in Et.
  destruct (BillingDataClient._format_query _ _ _); [done|].
  destruct (BillingDataClient.contributor_rows _ _) as [|rows]; [done|].
  injection Et as <-. by destruct rows.
Qed.

(** X28: a check that ends with status "error" reports no anomaly and
    sends no alert; its error text is the one of the billing call that
    failed. When the failing call is the one for today's costs, the stored
    baseline has already been replaced by the fresh daily pattern; when an
    earlier call fails, the baseline is untouched. *)
Theorem failed_check_sends_nothing timestamp stamp w :
  let run := run_check sqrt config settings bq billing_client timestamp stamp w in
  status run.1 = "error" →
  anomaly_detected run.1 = false
  ∧ alerts run.2 = alerts w
  ∧ details_anomaly run.1 = None
  ∧ ((∃ e, error run.1 = Some e
           ∧ BillingDataClient.get_month_to_date_costs bq billing_client = inl e
           ∧ ∃ pattern,
               BillingDataClient.get_daily_spend_pattern bq billing_client
                 = inr pattern
               ∧ baseline_tracker run.2
                 = update_baseline (baseline_tracker w) pattern stamp)
     ∨ (∃ e, error run.1 = Some e
             ∧ baseline_tracker run.2 = baseline_tracker w
             ∧ (BillingDataClient.get_current_month_total bq billing_client = inl e
                ∨ BillingDataClient.get_top_cost_contributors bq billing_client = inl e
                ∨ BillingDataClient.get_daily_spend_pattern bq billing_client = inl e))).
Proof.
  intros run. unfold run, run_check.
  destruct (BillingDataClient.get_current_month_total _ _) as [e|total]; simpl.
  { intros _. repeat split. right. exists e. eauto. }
  destruct (BillingDataClient.get_top_cost_contributors _ _) as [e|tops]; simpl.
  { intros _. repeat split. right. exists e. eauto. }
  destruct (BillingDataClient.get_daily_spend_pattern _ _) as [e|pattern]; simpl.
  { intros _. repeat split. right. exists e. eauto. }
  destruct (BillingDataClient.get_month_to_date_costs _ _) as [e|costs]; simpl.
  { intros _. repeat split. left. exists e. eauto 10. }
  by destruct (is_anomaly _).
Qed.
End WatcherFacts.

Section WatcherScenarios.
Import BaselineTracker Watcher Example Scenario.

(** A check by a client whose query file held no query. *)
Lemma failed_check_sends_nothing_witness :
  let run := run_check sqrt6 config settings warehouse client_without_queries
               "2023-11-14T22:13:20" "2023-11-14T22:13:21" empty_watch in
  error run.1 = Some "Query not found: Top Cost Contributors (Current Month)"
  ∧ anomaly_detected run.1 = false
  ∧ alerts run.2 = [].
Proof.
  intros run.
  destruct (failed_check_sends_nothing sqrt6 config settings warehouse
              client_without_queries "2023-11-14T22:13:20" "2023-11-14T22:13:21"
              empty_watch) as (Ha & Hs & _); [reflexivity|].
  split; [reflexivity|]. split; [exact Ha | exact Hs].
Defined.

End WatcherScenarios.

(** ** The query file *)
Section QueryFacts.
Import BillingDataClient Notions.

Lemma store_well_formed lines queries name query :
  well_formed lines queries →
  Forall (λ line, line ∈ lines ∧ is_sql line = true) query →
  well_formed lines (store queries name query).
Proof.
  intros Hq Hl. unfold store.
  destruct name as [name|]; [|done]. destruct query as [|l query]; [done|].
  destruct (String.eqb_spec name ""); [done|].
  intros key body. destruct (decide (key = name)) as [->|Hne].
  - rewrite lookup_insert_eq. intros [= <-]. split; [done|].
    exists (l :: query). by split.
  - rewrite lookup_insert_ne by done. apply Hq.
Qed.

Lemma load_lines_well_formed all lines : ∀ queries name query result,
  (∀ line, line ∈ lines → line ∈ all) →
  well_formed all queries →
  Forall (λ line, line ∈ all ∧ is_sql line = true) query →
  load_lines lines queries name query = Some result →
  well_formed all result.
Proof.
  induction lines as [|line rest IH]; intros queries name query result Hin Hq Hl;
    cbn [load_lines].
  - intros [= <-]. by apply store_well_formed.
  - assert (∀ l, l ∈ rest → l ∈ all) as Hrest by (intros l ?; apply Hin; by right).
    destruct (Str.startswith "-- Query" line).
    + destruct (Py.split ":" line) as [|x [|nm more]]; try done.
      apply IH; [done| |done]. by apply store_well_formed.
    + fold (is_sql line). destruct (is_sql line) eqn:Es.
      * apply IH; [done|done|]. apply Forall_app. split; [done|].
        constructor; [|done]. split; [|done]. apply Hin. by left.
      * by apply IH.
Qed.

Lemma load_lines_bad_header lines : ∀ queries name query line,
  line ∈ lines → Str.startswith "-- Query" line = true →
  Py.has_char ":" line = false →
  load_lines lines queries name query = None.
Proof.
  induction lines as [|l rest IH]; intros queries name query line Hin Hh Hc.
  - by apply elem_of_nil in Hin.
  - cbn [load_lines]. apply elem_of_cons in Hin as [<-|Hin].
    + rewrite Hh, (split_no_sep ":" line Hc). done.
    + destruct (Str.startswith "-- Query" l).
      * destruct (Py.split ":" l) as [|x [|nm more]]; try done. by eapply IH.
      * destruct (_ && _); by eapply IH.
Qed.

(** X29: what [_load_queries] keeps of the query file. Every query it
    stores has a name that is not empty and a body that is not empty, and
    the body is made of lines of the file that are neither comments nor
    blank, joined by newlines. A header line "-- Query ..." without a colon
    anywhere in the file makes the load fail. *)
Theorem loaded_queries_hold_sql_lines_only (content : string) :
  let lines := Py.split Str.newline content in
  (∀ queries name body,
     _load_queries content = Some queries → queries !! name = Some body →
     name ≠ ""
     ∧ ∃ chosen, chosen ≠ []
         ∧ body = String.concat (String Str.newline EmptyString) chosen
         ∧ Forall (λ line, line ∈ lines
                           ∧ Str.startswith "--" line = false
                           ∧ Py.strip line ≠ "") chosen)
  ∧ (∀ line, line ∈ lines → Str.startswith "-- Query" line = true →
             Py.has_char ":" line = false → _load_queries content = None).
Proof.
  intros lines. split.
  - intros queries name body Hload Hname.
    assert (well_formed lines queries) as Hwf.
    { apply (load_lines_well_formed lines lines ∅ None [] queries); try done. }
    destruct (Hwf name body Hname) as (Hn & chosen & Hc & Hb & Hall).
    split; [done|]. exists chosen. split; [done|]. split; [done|].
    eapply Forall_impl; [exact Hall|]. simpl. intros l [Hl Hs].
    unfold is_sql in Hs. apply andb_prop in Hs as [H1 H2].
    apply negb_true_iff in H1, H2. apply String.eqb_neq in H2. done.
  - intros line Hin Hh Hc. by eapply load_lines_bad_header.
Qed.
End QueryFacts.

(** ** The action links *)
Section LinkFacts.
Import JWTHandler Wire ActionLinks Notions.
Variable P : Primitives.

Lemma quote_plus_unreserved s :
  forallb unreserved (list_ascii_of_string s) = true → quote_plus s = s.
Proof.
  induction s as [|c r IH]; simpl; [done|].
  intros [Hc Hr]%andb_prop. by rewrite Hc, (IH Hr).
Qed.

(** X30: [generate_action_urls] returns one link for each of "stop",
    "snapshot" and "ignore" and nothing else. The link of an action is the
    base address, the path /api/v1/execute/<action> and the query
    token=<token>, where the token is the one [generate_token] issues for
    that action, the resource, the project, the savings and the recipient;
    the token stands in the link unchanged when it holds only letters,
    digits and [_.-~]; and within its validity window it validates to
    claims naming that action, resource and recipient, provided the codecs
    carry it. With no base address given or configured the links point to
    http://localhost:8080. *)
Theorem action_links_carry_their_own_action
    (config : Config) (generated : string) (settings : AlertConfig)
    (readings : string → Z * string)
    (resource_id project_id : string) (estimated_savings : Q)
    (user_email : string) (base_url : option string) (action : string) :
  action ∈ ["stop"; "snapshot"; "ignore"] →
  let jwt_handler := init config generated in
  let urls := generate_action_urls P jwt_handler settings readings resource_id
                project_id estimated_savings user_email base_url in
  let payload := token_payload P jwt_handler (readings action).1 (readings action).2
                   resource_id action project_id "instance" estimated_savings
                   (Some user_email) in
  let token := generate_token P jwt_handler (readings action).1 (readings action).2
                 resource_id action project_id "instance" estimated_savings
                 (Some user_email) in
  urls !! action
    = Some (effective_base settings base_url +:+ "/api/v1/execute/" +:+ action
            +:+ "?token=" +:+ quote_plus token)
  ∧ (forallb unreserved (list_ascii_of_string token) = true → quote_plus token = token)
  ∧ (carries P (secret jwt_handler) payload →
     ∀ later, (readings action).1 ≤ later →
       later < timegm ((readings action).1 + expiry_hours jwt_handler * hour) * 1000000 →
       ∃ claims, validate_token P jwt_handler later token = Returns claims
                 ∧ claims !! "action" = Some (VStr action)
                 ∧ claims !! "resource_id" = Some (VStr resource_id)
                 ∧ claims !! "user_email" = Some (VStr user_email))
  ∧ (∀ other, other ∉ ["stop"; "snapshot"; "ignore"] → urls !! other = None)
  ∧ (API_BASE_URL settings = "" →
     effective_base settings None = "http://localhost:8080"
     ∧ effective_base settings (Some "") = "http://localhost:8080").
Proof.
  intros Hin jwt_handler urls payload token.
  split; [|split; [|split; [|split]]].
  - unfold urls, generate_action_urls. fold (effective_base settings base_url). simpl.
    repeat (apply elem_of_cons in Hin as [->|Hin]); [| | |by apply elem_of_nil in Hin].
    + rewrite lookup_insert_ne, lookup_insert_ne, lookup_insert_eq by done. done.
    + rewrite lookup_insert_ne, lookup_insert_eq by done. done.
    + rewrite lookup_insert_eq. done.
  - apply quote_plus_unreserved.
  - intros Hc later Hnow Hexp. exists (encode_claims payload).
    unfold token, payload, jwt_handler.
    rewrite (issued_token_decoded P config generated (readings action).1
               (readings action).2 resource_id action project_id "instance"
               estimated_savings (Some user_email) later Hc).
    rewrite (issued_claims_checked P config generated (readings action).1
               (readings action).2 resource_id action project_id "instance"
               estimated_savings (Some user_email) later).
    pose proof (timegm_le (readings action).1).
    destruct (Z.ltb_spec later (timegm (readings action).1 * 1000000)); [lia|].
    fold jwt_handler.
    destruct (Z.leb_spec (timegm ((readings action).1 + expiry_hours jwt_handler * hour)
                            * 1000000) later); [lia|].
    repeat split.
  - intros other Hother. unfold urls, generate_action_urls. simpl.
    assert (other ≠ "stop" ∧ other ≠ "snapshot" ∧ other ≠ "ignore") as (H1 & H2 & H3).
    { split; [|split]; intros ->; apply Hother;
        [left | right; left | right; right; left]. }
    by rewrite !lookup_insert_ne by done.
  - intros Hbase. unfold effective_base, config_get. rewrite Hbase. done.
Qed.
End LinkFacts.

Section LinkScenarios.
Import JWTHandler Wire ActionLinks Notions Example Scenario.

(** The "Ignore" link of the alert for [web-1], with nothing configured
    as the base address. *)
Lemma action_links_carry_their_own_action_witness :
  let urls := generate_action_urls P handler settings readings "web-1"
                "demo-project" (25 # 2) actor None in
  urls !! "ignore"
  = Some ("http://localhost:8080/api/v1/execute/ignore?token="
          +:+ generate_token P handler t0 "jti-ignore" "web-1" "ignore"
                "demo-project" "instance" (25 # 2) (Some actor)).
Proof.
  intros urls.
  destruct (action_links_carry_their_own_action P config "unused" settings readings
              "web-1" "demo-project" (25 # 2) actor None "ignore")
    as (Hurl & Hsafe & _); [right; right; left|].
  etransitivity; [exact Hurl|]. rewrite Hsafe; [reflexivity | by_evaluation].
Defined.

End LinkScenarios.
